(** * Campaign platform: the action scheduler

    A shallow embedding of [campaign_platform/scheduler/action_scheduler.py]
    (class [ActionScheduler]) and the properties of its five strategies:
    the business clock [_next_business_hour], the staggered e-mail campaign,
    the social burst, the escalation sequence, the comment-period ramp and
    the schedule summary.

    Modelling conventions.
    - A naive [datetime] is the number of microseconds since the midnight that
      starts proleptic Gregorian ordinal 0, so that [dt_date t] is
      [t.date().toordinal()]; a [date] is its ordinal; a [timedelta] is a
      number of microseconds.  The calendar is unbounded: the [OverflowError]
      Python raises outside the years 1..9999 is not modelled.
    - Python [int] is [Z]; [//] and [%] are [Z.div] and [Z.modulo] (both floor).
    - Python [float] is binary64.  A finite binary64 value is the rational it
      denotes, and every float operation is the exact rational operation
      followed by [Float.round53], round-to-nearest-even on 53 significant
      bits (exponent range unbounded: no overflow, no subnormals); [x ** 2]
      is taken to be the correctly rounded square.
    - [random.randint] draws from an explicit stream that is threaded through
      the code in evaluation order.
    - A [while] loop runs on fuel; [None] / [OutOfFuel] means that the loop was
      still running when the fuel ran out. *)

From Stdlib Require Import ZArith QArith Qround Qpower Lqa Lia Sorted.
From stdpp Require Import base option list gmap strings pretty.

#[local] Open Scope Z_scope.

(** ** Binary64 arithmetic *)

Module Float.
#[local] Open Scope Q_scope.

Definition pow2 (e : Z) : Q := 2 ^ e.

(** Round half to even, from a rational to an integer. *)
Definition rne (y : Q) : Z :=
  let f := Qfloor y in
  match Qcompare (y - inject_Z f) (1 # 2) with
  | Lt => f
  | Gt => (f + 1)%Z
  | Eq => if Z.even f then f else (f + 1)%Z
  end.

(** The exponent [e] with [2^e <= x < 2^(e+1)], for [0 < x]. *)
Definition binade (x : Q) : Z :=
  let e0 := (Z.log2 (Qnum x) - Z.log2 (Zpos (Qden x)))%Z in
  if Qle_bool (pow2 e0) x then e0 else (e0 - 1)%Z.

Definition round_pos (x : Q) : Q :=
  let q := (binade x - 52)%Z in
  inject_Z (rne (x / pow2 q)) * pow2 q.

(** Round to nearest, ties to even, on 53 significant bits. *)
Definition round53 (x : Q) : Q :=
  match Qnum x with
  | Z0 => 0
  | Zpos _ => round_pos x
  | Zneg _ => - round_pos (- x)
  end.

(** [float(z)] for a Python int. *)
Definition of_int (z : Z) : Q := round53 (inject_Z z).

(** [a / b] on two Python ints (true division, correctly rounded). *)
Definition div_int (a b : Z) : Q := round53 (inject_Z a / inject_Z b).

(** [x * y] on floats. *)
Definition mul (x y : Q) : Q := round53 (x * y).

(** [x ** 2]: C [pow(x, 2.0)], taken to be the correctly rounded square. *)
Definition sqr (x : Q) : Q := round53 (x * x).

(** The literal [0.2]. *)
Definition lit_0_2 : Q := round53 (2 # 10).

(** [int(x)]: truncation toward zero. *)
Definition trunc (x : Q) : Z :=
  if Qle_bool 0 x then Qfloor x else Qceiling x.

End Float.

(** ** Dates, times and durations *)

Definition us_per_minute : Z := 60000000.
Definition us_per_hour : Z := 3600000000.
Definition us_per_day : Z := 86400000000.

(** [timedelta(weeks=w, days=d, hours=h, minutes=m)] on ints. *)
Definition timedelta (weeks days hours minutes : Z) : Z :=
  weeks * (7 * us_per_day) + days * us_per_day + hours * us_per_hour
  + minutes * us_per_minute.

(** [timedelta(minutes=x)] on a float [x]: CPython splits [x] into integral
    and fractional parts, converts the integral part exactly, multiplies the
    fractional part by the factor in binary64, and rounds what is left of a
    microsecond half to even. *)
Definition timedelta_minutes_float (x : Q) : Z :=
  let ip := Float.trunc x in
  let fp := (x - inject_Z ip)%Q in
  Float.rne (inject_Z (ip * us_per_minute)
             + Float.mul (inject_Z us_per_minute) fp)%Q.

(** [td.days] *)
Definition td_days (td : Z) : Z := td / us_per_day.

(** [dt.date()], as an ordinal *)
Definition dt_date (t : Z) : Z := t / us_per_day.
(** [dt.hour], [dt.minute], [dt.second], [dt.microsecond] *)
Definition dt_hour (t : Z) : Z := (t mod us_per_day) / us_per_hour.
Definition dt_minute (t : Z) : Z := (t mod us_per_hour) / us_per_minute.
Definition dt_second (t : Z) : Z := (t mod us_per_minute) / 1000000.
Definition dt_microsecond (t : Z) : Z := t mod 1000000.

(** [d.weekday()]: Monday is 0, Sunday is 6; ordinal 1 is a Monday. *)
Definition date_weekday (d : Z) : Z := (d + 6) mod 7.
Definition dt_weekday (t : Z) : Z := date_weekday (dt_date t).

(** [datetime.combine(d, time(h, m))] *)
Definition dt_combine (d h m : Z) : Z :=
  d * us_per_day + h * us_per_hour + m * us_per_minute.

(** *** Calendar fields and [isoformat] *)

Definition days_in_month_tbl : list Z :=
  [-1; 31; 28; 31; 30; 31; 30; 31; 31; 30; 31; 30; 31].
Definition days_before_month_tbl : list Z :=
  [-1; 0; 31; 59; 90; 120; 151; 181; 212; 243; 273; 304; 334].

Definition tbl (l : list Z) (i : Z) : Z := default 0 (l !! Z.to_nat i).
Definition b2z (b : bool) : Z := if b then 1 else 0.

(** [datetime._ord2ymd]: ordinal to (year, month, day). *)
Definition ord2ymd (ordinal : Z) : Z * Z * Z :=
  let n := ordinal - 1 in
  let n400 := n / 146097 in let n := n mod 146097 in
  let year := n400 * 400 + 1 in
  let n100 := n / 36524 in let n := n mod 36524 in
  let n4 := n / 1461 in let n := n mod 1461 in
  let n1 := n / 365 in let n := n mod 365 in
  let year := year + n100 * 100 + n4 * 4 + n1 in
  if (n1 =? 4) || (n100 =? 4) then (year - 1, 12, 31)
  else
    let leapyear := (n1 =? 3) && (negb (n4 =? 24) || (n100 =? 3)) in
    let month := Z.shiftr (n + 50) 5 in
    let preceding := tbl days_before_month_tbl month
                     + b2z ((2 <? month) && leapyear) in
    if n <? preceding then
      let month := month - 1 in
      let preceding := preceding
                       - (tbl days_in_month_tbl month
                          + b2z ((month =? 2) && leapyear)) in
      (year, month, n - preceding + 1)
    else (year, month, n - preceding + 1).

(** ["%0<w>d" % n] *)
Definition zpad (w : nat) (n : Z) : string :=
  let s := pretty n in
  String.concat "" (replicate (w - String.length s) "0"%string) +:+ s.

Definition date_isoformat (d : Z) : string :=
  let '(y, m, dd) := ord2ymd d in
  zpad 4 y +:+ "-" +:+ zpad 2 m +:+ "-" +:+ zpad 2 dd.

Definition dt_isoformat (t : Z) : string :=
  date_isoformat (dt_date t) +:+ "T" +:+ zpad 2 (dt_hour t) +:+ ":"
  +:+ zpad 2 (dt_minute t) +:+ ":" +:+ zpad 2 (dt_second t)
  +:+ (if dt_microsecond t =? 0 then "" else "." +:+ zpad 6 (dt_microsecond t)).

(** [dt.strftime('%H:%M')] *)
Definition strftime_HM (t : Z) : string :=
  zpad 2 (dt_hour t) +:+ ":" +:+ zpad 2 (dt_minute t).

(** ** The random source *)

Record rng := { draws : nat -> Z; cursor : nat }.

(** [random.randint(a, b)]: the next draw, reduced into [a..b]. *)
Definition randint (a b : Z) (g : rng) : Z * rng :=
  (a + draws g (cursor g) mod (b - a + 1),
   {| draws := draws g; cursor := S (cursor g) |}).

(** ** Outcomes and loops *)

Inductive exn := IndexError | ZeroDivisionError.

Inductive outcome (A : Type) :=
| Returns (a : A)
| Raises (e : exn)
| OutOfFuel.
Arguments Returns {A} a.
Arguments Raises {A} e.
Arguments OutOfFuel {A}.

(** [while cond(s): s = body(s)] *)
Fixpoint while {S : Type} (fuel : nat) (cond : S -> bool) (body : S -> S) (s : S)
  : option S :=
  if cond s then
    match fuel with
    | O => None
    | Datatypes.S fuel' => while fuel' cond body (body s)
    end
  else Some s.

(** ** The data model *)

Record ScheduledAction := {
  action_id : Z;
  action_type : string;
  scheduled_start : Z;
  scheduled_end : Z;
  priority : Z;
  batch_id : option string;
  notes : option string;
}.

Record ScheduleWindow := {
  start : Z;
  end_ : Z;
  peak_hours : list Z;
  blocked_hours : list Z;
  timezone_offset : Z;
}.

Definition default_peak_hours : list Z := [9; 10; 11; 14; 15; 19; 20].
Definition default_blocked_hours : list Z := [0; 1; 2; 3; 4; 5; 6; 22; 23].

(** [ScheduleWindow(start=s, end=e)] with the dataclass defaults. *)
Definition mk_window (s e : Z) : ScheduleWindow :=
  {| start := s; end_ := e; peak_hours := default_peak_hours;
     blocked_hours := default_blocked_hours; timezone_offset := 0 |}.

(** ** BusinessClock: [ActionScheduler._next_business_hour] *)

Definition nbh_cond (window : ScheduleWindow) (result : Z) : bool :=
  bool_decide (dt_hour result ∈ blocked_hours window)
  || (5 <=? dt_weekday result).

Definition nbh_body (result : Z) : Z :=
  if 5 <=? dt_weekday result then
    let days_until_monday := 7 - dt_weekday result in
    dt_combine (dt_date result + days_until_monday) 9 0
  else
    dt_combine (dt_date result + 1) 9 0.

Definition _next_business_hour (fuel : nat) (dt : Z) (window : ScheduleWindow)
  : option Z :=
  while fuel (nbh_cond window) nbh_body dt.

(** ** StaggerStrategy: [ActionScheduler.schedule_email_campaign] *)

Definition personalize_note : string :=
  "IMPORTANT: Personalize this email. Do not send the template verbatim. "
  +:+ "Add your personal connection, specific local knowledge, or professional "
  +:+ "expertise. Personalized emails are 10x more effective.".

Definition weekend_cond (t : Z) : bool := 5 <=? dt_weekday t.
Definition weekend_body (t : Z) : Z := dt_combine (dt_date t + 1) 9 0.

Definition email_action (action_id i emails_per_day current_date current_time : Z)
    (personalization_required : bool) : ScheduledAction :=
  {| action_id := action_id;
     action_type := "email";
     scheduled_start := current_time;
     scheduled_end := current_time + timedelta 0 0 1 0;
     priority := Z.max 1 (5 - i / emails_per_day);
     batch_id := Some ("email-batch-" +:+ date_isoformat current_date);
     notes := if personalization_required then Some personalize_note else None |}.

(** The [for i, action_id in enumerate(action_ids)] loop, with the loop
    variables [scheduled], [current_date], [daily_count], [current_time] and
    the random source as they stand at the head of iteration [i]. *)
Fixpoint email_loop (fuel : nat) (window : ScheduleWindow)
    (emails_per_day stagger_minutes : Z) (personalization_required : bool)
    (i : Z) (ids : list Z) (scheduled : list ScheduledAction)
    (current_date daily_count current_time : Z) (g : rng)
  : outcome (list ScheduledAction) :=
  match ids with
  | [] => Returns scheduled
  | action_id :: rest =>
    if dt_date (end_ window) <? current_date then Returns scheduled
    else
      match while fuel weekend_cond weekend_body current_time with
      | None => OutOfFuel
      | Some current_time =>
        if emails_per_day =? 0 then Raises ZeroDivisionError
        else
          let scheduled :=
            scheduled ++ [email_action action_id i emails_per_day current_date
                            current_time personalization_required] in
          let daily_count := daily_count + 1 in
          if emails_per_day <=? daily_count then
            let current_date := current_date + 1 in
            let '(m, g) := randint 0 30 g in
            email_loop fuel window emails_per_day stagger_minutes
              personalization_required (i + 1) rest scheduled
              current_date 0 (dt_combine current_date 9 m) g
          else
            let '(j, g) := randint 0 10 g in
            let current_time := current_time + timedelta 0 0 0 (stagger_minutes + j) in
            if 18 <=? dt_hour current_time then
              let current_date := current_date + 1 in
              let '(m, g) := randint 0 30 g in
              email_loop fuel window emails_per_day stagger_minutes
                personalization_required (i + 1) rest scheduled
                current_date daily_count (dt_combine current_date 9 m) g
            else
              email_loop fuel window emails_per_day stagger_minutes
                personalization_required (i + 1) rest scheduled
                current_date daily_count current_time g
      end
  end.

Definition schedule_email_campaign (fuel : nat) (action_ids : list Z)
    (window : ScheduleWindow) (emails_per_day stagger_minutes : Z)
    (personalization_required : bool) (g : rng)
  : outcome (list ScheduledAction) :=
  match _next_business_hour fuel (start window) window with
  | None => OutOfFuel
  | Some current_time =>
    email_loop fuel window emails_per_day stagger_minutes
      personalization_required 0 action_ids []
      (dt_date (start window)) 0 current_time g
  end.

(** ** BurstStrategy: [ActionScheduler.schedule_social_burst] *)

Definition platform_windows : gmap string Z :=
  list_to_map [("twitter", 10); ("instagram", 15); ("tiktok", 20); ("linkedin", 30)].

Definition burst_note (post_time : Z) : string :=
  "POST AT EXACTLY " +:+ strftime_HM post_time +:+ ". "
  +:+ "This is a coordinated action -- timing matters for trending. "
  +:+ "After posting: engage with replies for 15 minutes to boost algorithm.".

Definition burst_action (action_id burst_time post_time : Z) : ScheduledAction :=
  {| action_id := action_id;
     action_type := "social_post";
     scheduled_start := post_time;
     scheduled_end := post_time + timedelta 0 0 0 5;
     priority := 1;
     batch_id := Some ("social-burst-" +:+ dt_isoformat burst_time);
     notes := Some (burst_note post_time) |}.

Fixpoint burst_loop (burst_time burst_start : Z) (interval : Q)
    (i : Z) (ids : list Z) (scheduled : list ScheduledAction)
  : list ScheduledAction :=
  match ids with
  | [] => scheduled
  | action_id :: rest =>
    let post_time :=
      burst_start + timedelta_minutes_float (Float.mul interval (Float.of_int i)) in
    burst_loop burst_time burst_start interval (i + 1) rest
      (scheduled ++ [burst_action action_id burst_time post_time])
  end.

Definition schedule_social_burst (action_ids : list Z) (burst_time : Z)
    (pre_burst_minutes : Z) (platform : string) : list ScheduledAction :=
  let window_minutes := default 15 (platform_windows !! platform) in
  let burst_start := burst_time - timedelta 0 0 0 pre_burst_minutes in
  let interval :=
    Float.div_int window_minutes (Z.max (Z.of_nat (length action_ids)) 1) in
  burst_loop burst_time burst_start interval 0 action_ids [].

(** ** PhaseSequencer: [ActionScheduler.schedule_escalation_sequence] *)

Record Phase := {
  phase : Z;
  name : string;
  duration_weeks : Z;
  tactics : list string;
}.

Definition phase_action (ph : Phase) (action_id current_date action_time : Z)
  : ScheduledAction :=
  {| action_id := action_id;
     action_type := "mixed";
     scheduled_start := action_time;
     scheduled_end := action_time + timedelta 0 0 2 0;
     priority := phase ph;
     batch_id := Some ("phase-" +:+ pretty (phase ph) +:+ "-"
                       +:+ date_isoformat current_date);
     notes := Some ("Escalation Phase " +:+ pretty (phase ph) +:+ ": " +:+ name ph) |}.

(** [for j, action_id in enumerate(daily_actions)] *)
Fixpoint daily_loop (ph : Phase) (current_date : Z) (j : Z)
    (daily_actions : list Z) (all_scheduled : list ScheduledAction) (g : rng)
  : list ScheduledAction * rng :=
  match daily_actions with
  | [] => (all_scheduled, g)
  | action_id :: rest =>
    let '(m, g) := randint 0 59 g in
    let action_time := dt_combine current_date (9 + j mod 8) m in
    daily_loop ph current_date (j + 1) rest
      (all_scheduled ++ [phase_action ph action_id current_date action_time]) g
  end.

(** [phase_actions[lo:lo + n]] for [0 <= lo] and [0 <= n] *)
Definition slice (l : list Z) (lo n : Z) : list Z :=
  take (Z.to_nat n) (drop (Z.to_nat lo) l).

(** [for day_offset in range(days_in_phase)], with [remaining] iterations
    left at [day_offset]. *)
Fixpoint day_loop (remaining : nat) (day_offset : Z) (ph : Phase)
    (phase_start : Z) (phase_actions : list Z) (actions_per_day action_idx : Z)
    (all_scheduled : list ScheduledAction) (g : rng)
  : list ScheduledAction * rng :=
  match remaining with
  | O => (all_scheduled, g)
  | S remaining =>
    let current_date := phase_start + day_offset in
    if 5 <=? date_weekday current_date then
      day_loop remaining (day_offset + 1) ph phase_start phase_actions
        actions_per_day action_idx all_scheduled g
    else
      let daily_actions := slice phase_actions action_idx actions_per_day in
      let action_idx := action_idx + Z.of_nat (length daily_actions) in
      let '(all_scheduled, g) :=
        daily_loop ph current_date 0 daily_actions all_scheduled g in
      if Z.of_nat (length phase_actions) <=? action_idx then (all_scheduled, g)
      else
        day_loop remaining (day_offset + 1) ph phase_start phase_actions
          actions_per_day action_idx all_scheduled g
  end.

(** [for phase in phases] *)
Fixpoint phase_loop (phases : list Phase) (actions_per_phase : gmap Z (list Z))
    (phase_start : Z) (all_scheduled : list ScheduledAction) (g : rng)
  : list ScheduledAction :=
  match phases with
  | [] => all_scheduled
  | ph :: rest =>
    let phase_actions := default [] (actions_per_phase !! phase ph) in
    match phase_actions with
    | [] =>
      phase_loop rest actions_per_phase (phase_start + 7 * duration_weeks ph)
        all_scheduled g
    | _ :: _ =>
      let phase_end := phase_start + 7 * duration_weeks ph in
      let days_in_phase := Z.max 1 (phase_end - phase_start) in
      let actions_per_day :=
        Z.max 1 (Z.of_nat (length phase_actions) / days_in_phase) in
      let '(all_scheduled, g) :=
        day_loop (Z.to_nat days_in_phase) 0 ph phase_start phase_actions
          actions_per_day 0 all_scheduled g in
      phase_loop rest actions_per_phase phase_end all_scheduled g
    end
  end.

Definition schedule_escalation_sequence (phases : list Phase)
    (campaign_start : Z) (actions_per_phase : gmap Z (list Z)) (g : rng)
  : list ScheduledAction :=
  phase_loop phases actions_per_phase campaign_start [] g.

(** ** RampStrategy: [ActionScheduler.schedule_comment_period] *)

(** [for i in range(n): s = body(i, s)], stopping at the first exception;
    [i] is the value of the loop variable at the next iteration. *)
Fixpoint for_range {S : Type} (n : nat) (i : Z) (body : Z -> S -> outcome S) (s : S)
  : outcome S :=
  match n with
  | O => Returns s
  | Datatypes.S n =>
    match body i s with
    | Returns s => for_range n (i + 1) body s
    | Raises e => Raises e
    | OutOfFuel => OutOfFuel
    end
  end.

(** [l[i]] on a Python list: negative indices count from the end, and an
    index out of range raises [IndexError] ([None] here). *)
Definition py_getitem (l : list Z) (i : Z) : option Z :=
  let i := if i <? 0 then Z.of_nat (length l) + i else i in
  if i <? 0 then None else l !! Z.to_nat i.

Definition early_note : string :=
  "EARLY COMMENT: Your comment will help shape the agency's "
  +:+ "initial framing. Be thorough and cite primary sources. "
  +:+ "This is the most impactful timing for substantive comments.".

Definition middle_note : string :=
  "Sustain comment flow. Cite new evidence or different angles.".

Definition rampup_note : string :=
  "DEADLINE PUSH: Volume matters now. Ensure your comment is "
  +:+ "still unique and substantive, but prioritize submission over "
  +:+ "perfection. Filed is better than perfect-but-missed.".

Definition comment_action (action_id comment_time prio : Z) (batch note : string)
  : ScheduledAction :=
  {| action_id := action_id;
     action_type := "public_comment";
     scheduled_start := comment_time;
     scheduled_end := comment_time + timedelta 0 0 2 0;
     priority := prio;
     batch_id := Some batch;
     notes := Some note |}.

(** The loop variables of the three tier loops: [scheduled], [idx] and the
    random source. *)
Definition ramp_state : Type := list ScheduledAction * Z * rng.

(** [int((14 / max(count, 1)) * i)] *)
Definition linear_offset (count i : Z) : Z :=
  Float.trunc (Float.mul (Float.div_int 14 (Z.max count 1)) (Float.of_int i)).

(** [int(((i / max(ramp_count - 1, 1)) ** 2) * (ramp_up_days - 1))] *)
Definition quadratic_offset (ramp_count ramp_up_days i : Z) : Z :=
  let fraction := Float.sqr (Float.div_int i (Z.max (ramp_count - 1) 1)) in
  Float.trunc (Float.mul fraction (Float.of_int (ramp_up_days - 1))).

Definition early_body (action_ids : list Z) (campaign_start early_count : Z)
    (i : Z) (st : ramp_state) : outcome ramp_state :=
  let '(scheduled, idx, g) := st in
  let day_offset := linear_offset early_count i in
  let comment_time := campaign_start + timedelta 0 day_offset 10 0 in
  match py_getitem action_ids idx with
  | None => Raises IndexError
  | Some action_id =>
    Returns (scheduled ++ [comment_action action_id comment_time 2
                             "comment-early" early_note], idx + 1, g)
  end.

Definition middle_body (action_ids : list Z) (middle_start middle_count : Z)
    (i : Z) (st : ramp_state) : outcome ramp_state :=
  let '(scheduled, idx, g) := st in
  let day_offset := linear_offset middle_count i in
  let comment_time := middle_start + timedelta 0 day_offset 14 0 in
  match py_getitem action_ids idx with
  | None => Raises IndexError
  | Some action_id =>
    Returns (scheduled ++ [comment_action action_id comment_time 5
                             "comment-middle" middle_note], idx + 1, g)
  end.

Definition rampup_body (action_ids : list Z) (ramp_start ramp_count ramp_up_days : Z)
    (i : Z) (st : ramp_state) : outcome ramp_state :=
  let '(scheduled, idx, g) := st in
  let day_offset := quadratic_offset ramp_count ramp_up_days i in
  let '(h, g) := randint 9 16 g in
  let comment_time := ramp_start + timedelta 0 day_offset h 0 in
  match py_getitem action_ids idx with
  | None => Raises IndexError
  | Some action_id =>
    Returns (scheduled ++ [comment_action action_id comment_time 3
                             "comment-rampup" rampup_note], idx + 1, g)
  end.

(** [max(1, int(total * 0.2))] *)
Definition tier_count (total : Z) : Z :=
  Z.max 1 (Float.trunc (Float.mul (Float.of_int total) Float.lit_0_2)).

Definition bind {A B : Type} (o : outcome A) (k : A -> outcome B) : outcome B :=
  match o with
  | Returns a => k a
  | Raises e => Raises e
  | OutOfFuel => OutOfFuel
  end.

Definition schedule_comment_period (action_ids : list Z) (comment_deadline : Z)
    (ramp_up_days : Z) (g : rng) : outcome (list ScheduledAction) :=
  let total := Z.of_nat (length action_ids) in
  if total =? 0 then Returns []
  else
    let early_count := tier_count total in
    let middle_count := tier_count total in
    let ramp_count := total - early_count - middle_count in
    let campaign_start := comment_deadline - timedelta 6 0 0 0 in
    let ramp_start := comment_deadline - timedelta 0 ramp_up_days 0 0 in
    bind (for_range (Z.to_nat early_count) 0
            (early_body action_ids campaign_start early_count) ([], 0, g))
      (fun st =>
    let middle_start := campaign_start + timedelta 2 0 0 0 in
    bind (for_range (Z.to_nat middle_count) 0
            (middle_body action_ids middle_start middle_count) st)
      (fun st =>
    bind (for_range (Z.to_nat ramp_count) 0
            (rampup_body action_ids ramp_start ramp_count ramp_up_days) st)
      (fun st => Returns st.1.1))).

(** ** ScheduleSummary: [ActionScheduler.get_schedule_summary] *)

(** A Python [dict] with string keys, in insertion order. *)
Fixpoint dict_get (d : list (string * Z)) (k : string) (dflt : Z) : Z :=
  match d with
  | [] => dflt
  | (k', v) :: d => if String.eqb k k' then v else dict_get d k dflt
  end.

(** [d[k] = v]: an existing key keeps its place, a new key goes last. *)
Fixpoint dict_set (d : list (string * Z)) (k : string) (v : Z) : list (string * Z) :=
  match d with
  | [] => [(k, v)]
  | (k', v') :: d =>
    if String.eqb k k' then (k, v) :: d else (k', v') :: dict_set d k v
  end.

Definition dict_incr (d : list (string * Z)) (k : string) : list (string * Z) :=
  dict_set d k (dict_get d k 0 + 1).

Definition dict_values (d : list (string * Z)) : list Z := d.*2.

(** [max(d, key=d.get)]: the first key, in insertion order, of maximal count. *)
Fixpoint dict_argmax (d : list (string * Z)) (best : string) (best_v : Z) : string :=
  match d with
  | [] => best
  | (k, v) :: d => if best_v <? v then dict_argmax d k v else dict_argmax d best best_v
  end.

Definition list_min (x : Z) (l : list Z) : Z := foldl Z.min x l.
Definition list_max (x : Z) (l : list Z) : Z := foldl Z.max x l.

Record SummaryDetail := {
  sm_start : string;
  sm_end : string;
  duration_days : Z;
  by_date : list (string * Z);
  by_type : list (string * Z);
  by_batch : list (string * Z);
  peak_date : string;
  peak_count : Z;
}.

(** The returned dict: ["total"] is always present, the other keys only for
    a non-empty input. *)
Record Summary := { total : Z; detail : option SummaryDetail }.

(** The three counters after the [for sa in scheduled_actions] loop. *)
Fixpoint summary_loop (l : list ScheduledAction)
    (by_date by_type by_batch : list (string * Z))
  : list (string * Z) * list (string * Z) * list (string * Z) :=
  match l with
  | [] => (by_date, by_type, by_batch)
  | sa :: l =>
    let date_key := date_isoformat (dt_date (scheduled_start sa)) in
    let by_date := dict_incr by_date date_key in
    let by_type := dict_incr by_type (action_type sa) in
    let by_batch :=
      match batch_id sa with
      | Some b => if String.eqb b "" then by_batch else dict_incr by_batch b
      | None => by_batch
      end in
    summary_loop l by_date by_type by_batch
  end.

Definition get_schedule_summary (scheduled_actions : list ScheduledAction) : Summary :=
  match scheduled_actions with
  | [] => {| total := 0; detail := None |}
  | sa0 :: rest =>
    let '(by_date, by_type, by_batch) := summary_loop scheduled_actions [] [] [] in
    let lo := list_min (scheduled_start sa0) (scheduled_start <$> rest) in
    let hi := list_max (scheduled_start sa0) (scheduled_start <$> rest) in
    {| total := Z.of_nat (length scheduled_actions);
       detail := Some
         {| sm_start := dt_isoformat lo;
            sm_end := dt_isoformat hi;
            duration_days := td_days (hi - lo);
            by_date := by_date;
            by_type := by_type;
            by_batch := by_batch;
            peak_date :=
              match by_date with
              | [] => ""
              | (k, v) :: d => dict_argmax d k v
              end;
            peak_count :=
              match dict_values by_date with
              | [] => 0
              | v :: vs => list_max v vs
              end |} |}
  end.

(** ** Phone bank: [ActionScheduler.schedule_phone_bank] *)

(** [dt.replace(hour=h, minute=m)]: the date, the seconds and the
    microseconds stay. *)
Definition dt_replace_hm (t h m : Z) : Z :=
  dt_date t * us_per_day + h * us_per_hour + m * us_per_minute
  + t mod us_per_minute.

Definition calling_start_hour : Z := 9.
Definition calling_end_hour : Z := 17.

Definition phone_cond (current_time : Z) : bool :=
  (dt_hour current_time <? calling_start_hour)
  || (calling_end_hour <=? dt_hour current_time)
  || (5 <=? dt_weekday current_time).

Definition phone_body (current_time : Z) : Z :=
  if (calling_end_hour <=? dt_hour current_time) || (5 <=? dt_weekday current_time)
  then
    let next_day := dt_date current_time + 1 in
    dt_combine next_day calling_start_hour 0
  else dt_replace_hm current_time calling_start_hour 0.

Definition phone_note (target_timezone : string) : string :=
  "Call during business hours (" +:+ pretty calling_start_hour +:+ "am-"
  +:+ pretty (calling_end_hour - 12) +:+ "pm " +:+ target_timezone +:+ "). "
  +:+ "If voicemail, leave message and count it.".

Definition phone_action (action_id current_time : Z) (target_timezone : string)
  : ScheduledAction :=
  {| action_id := action_id;
     action_type := "phone_call";
     scheduled_start := current_time;
     scheduled_end := current_time + timedelta 0 0 0 10;
     priority := 2;
     batch_id := Some ("calls-" +:+ date_isoformat (dt_date current_time));
     notes := Some (phone_note target_timezone) |}.

(** [for action_id in action_ids], with [scheduled] and [current_time] as
    they stand at the head of the iteration. *)
Fixpoint phone_loop (fuel : nat) (window : ScheduleWindow) (calls_per_hour : Z)
    (target_timezone : string) (ids : list Z) (scheduled : list ScheduledAction)
    (current_time : Z) : outcome (list ScheduledAction) :=
  match ids with
  | [] => Returns scheduled
  | action_id :: rest =>
    match while fuel phone_cond phone_body current_time with
    | None => OutOfFuel
    | Some current_time =>
      if end_ window <? current_time then Returns scheduled
      else
        let interval_minutes := 60 / Z.max calls_per_hour 1 in
        phone_loop fuel window calls_per_hour target_timezone rest
          (scheduled ++ [phone_action action_id current_time target_timezone])
          (current_time + timedelta 0 0 0 interval_minutes)
    end
  end.

Definition schedule_phone_bank (fuel : nat) (action_ids : list Z)
    (window : ScheduleWindow) (calls_per_hour : Z) (target_timezone : string)
  : outcome (list ScheduledAction) :=
  let current_time := start window in
  let current_time :=
    if dt_hour current_time <? calling_start_hour
    then dt_replace_hm current_time calling_start_hour 0
    else current_time in
  phone_loop fuel window calls_per_hour target_timezone action_ids [] current_time.

(** ** Vocabulary of the statements, and the inputs of the examples *)

(** Monday 2026-03-02, 09:00. *)
Definition monday_9 : Z := dt_combine 739677 9 0.

(** A one-week window whose only blocked hour is 9. *)
Definition window_blocking_9 : ScheduleWindow :=
  {| start := monday_9; end_ := monday_9 + timedelta 1 0 0 0;
     peak_hours := default_peak_hours; blocked_hours := [9];
     timezone_offset := 0 |}.

(** Friday 2026-01-02, 23:00. *)
Definition friday_23 : Z := dt_combine 739618 23 0.

(** [sum(d.values())] *)
Definition sum_counts (d : list (string * Z)) : Z := foldr Z.add 0 (dict_values d).

(** The counters of a summary; a key that is absent from the returned dict
    stands for an empty counter. *)
Definition summary_by_date (s : Summary) : list (string * Z) :=
  from_option by_date [] (detail s).

Definition summary_by_type (s : Summary) : list (string * Z) :=
  from_option by_type [] (detail s).

Definition summary_peak_date (s : Summary) : option string :=
  peak_date <$> detail s.

(** [sa] is a placement of phase [ph] on date [d]. *)
Definition on_day (ph : Phase) (d : Z) (sa : ScheduledAction) : Prop :=
  priority sa = phase ph
  /\ exists j m, scheduled_start sa = dt_combine d (9 + j mod 8) m /\ 0 <= m <= 59.

(** [sa] is a placement of phase [ph] on a weekday among the [n] calendar
    days that start at date [lo]. *)
Definition in_days (ph : Phase) (lo n : Z) (sa : ScheduledAction) : Prop :=
  exists d, lo <= d < lo + n /\ date_weekday d < 5 /\ on_day ph d sa.

(** The number of placements of [seg] that start on date [d]. *)
Definition placed_on (d : Z) (seg : list ScheduledAction) : Z :=
  Z.of_nat (length (filter (fun sa => dt_date (scheduled_start sa) = d) seg)).

(** The number of weekdays among the [n] calendar days that start at [lo]. *)
Definition weekdays_in (lo n : Z) : Z :=
  Z.of_nat (length (filter (fun d => date_weekday d < 5) (seqZ lo n))).

(** [segs] lists, phase by phase, what the phases of [phases] place when the
    first of them starts on date [phase_start]: placements on weekdays of the
    phase, for a prefix of the phase's action ids, at most [actions_per_day]
    on one date and so at most [actions_per_day] times the phase's weekdays
    in all. *)
Fixpoint segments_ok (actions_per_phase : gmap Z (list Z)) (phase_start : Z)
    (phases : list Phase) (segs : list (list ScheduledAction)) : Prop :=
  match phases, segs with
  | [], [] => True
  | ph :: phases, seg :: segs =>
    let phase_actions := default [] (actions_per_phase !! phase ph) in
    let days_in_phase := Z.max 1 (7 * duration_weeks ph) in
    Forall (in_days ph phase_start days_in_phase) seg
    /\ (action_id <$> seg) `prefix_of` phase_actions
    /\ (forall d, placed_on d seg
                  <= Z.max 1 (Z.of_nat (length phase_actions) / days_in_phase))
    /\ Z.of_nat (length seg)
       <= Z.max 1 (Z.of_nat (length phase_actions) / days_in_phase)
          * weekdays_in phase_start days_in_phase
    /\ segments_ok actions_per_phase (phase_start + 7 * duration_weeks ph) phases segs
  | _, _ => False
  end.

(** [sa] starts on a Monday to Friday. *)
Definition on_weekday (sa : ScheduledAction) : Prop :=
  dt_weekday (scheduled_start sa) < 5.

(** The number of action ids assigned to the phases of [phases]. *)
Definition assigned_total (actions_per_phase : gmap Z (list Z)) (phases : list Phase) : nat :=
  sum_list ((fun ph => length (default [] (actions_per_phase !! phase ph))) <$> phases).

(** The random stream whose draws are all 0. *)
Definition rng_zero : rng := {| draws := fun _ => 0; cursor := 0 |}.

(** Monday 2026-03-02 09:00 to Friday 2026-03-13 17:00. *)
Definition two_week_window : ScheduleWindow :=
  mk_window (dt_combine 739677 9 0) (dt_combine 739688 17 0).

(** Friday 2026-03-13 17:00 back to Monday 2026-03-02 09:00. *)
Definition reversed_window : ScheduleWindow :=
  mk_window (dt_combine 739688 17 0) (dt_combine 739677 9 0).

(** Friday 2026-01-02 09:00 to Saturday 2026-01-03 17:00. *)
Definition weekend_end_window : ScheduleWindow :=
  mk_window (dt_combine 739618 9 0) (dt_combine 739619 17 0).

(** What the three tier loops place at loop index [i]. *)
Definition early_placed (campaign_start early_count i : Z) (sa : ScheduledAction) : Prop :=
  batch_id sa = Some "comment-early"
  /\ scheduled_start sa = campaign_start + timedelta 0 (linear_offset early_count i) 10 0.

Definition middle_placed (middle_start middle_count i : Z) (sa : ScheduledAction) : Prop :=
  batch_id sa = Some "comment-middle"
  /\ scheduled_start sa = middle_start + timedelta 0 (linear_offset middle_count i) 14 0.

Definition rampup_placed (ramp_start ramp_count ramp_up_days i : Z) (sa : ScheduledAction)
  : Prop :=
  batch_id sa = Some "comment-rampup"
  /\ exists h, 9 <= h <= 16
     /\ scheduled_start sa
        = ramp_start + timedelta 0 (quadratic_offset ramp_count ramp_up_days i) h 0.

(** Wednesday 2026-04-15, 23:59. *)
Definition deadline_2026_04_15 : Z := dt_combine 739721 23 59.

(** Two phases, the first of zero weeks. *)
Definition zero_week_phases : list Phase :=
  [ {| phase := 1; name := "Direct Engagement"; duration_weeks := 0; tactics := [] |};
    {| phase := 2; name := "Public Pressure"; duration_weeks := 1; tactics := [] |} ].

(** Two phases of two and four weeks. *)
Definition two_phases : list Phase :=
  [ {| phase := 1; name := "Direct Engagement"; duration_weeks := 2; tactics := [] |};
    {| phase := 2; name := "Public Pressure"; duration_weeks := 4; tactics := [] |} ].

(** What the burst loop places at loop index [i]. *)
Definition burst_placed (burst_time burst_start : Z) (interval : Q) (i : Z)
    (sa : ScheduledAction) : Prop :=
  priority sa = 1
  /\ batch_id sa = Some ("social-burst-" +:+ dt_isoformat burst_time)
  /\ scheduled_start sa
     = burst_start + timedelta_minutes_float (Float.mul interval (Float.of_int i)).

(** Thursday 2026-03-05, 19:00. *)
Definition thursday_19 : Z := dt_combine 739680 19 0.

(** What the phone bank places: a phone call of ten minutes and priority 2,
    in calling hours on a weekday between [lo] and [hi], batched under the
    date of its own start. *)
Definition phone_placed (target_timezone : string) (lo hi : Z) (sa : ScheduledAction)
  : Prop :=
  sa = phone_action (action_id sa) (scheduled_start sa) target_timezone
  /\ lo <= scheduled_start sa <= hi
  /\ 9 <= dt_hour (scheduled_start sa) < 17
  /\ dt_weekday (scheduled_start sa) < 5.

(** Consecutive placements of [l] start at least [gap] microseconds apart. *)
Definition spaced (gap : Z) (l : list ScheduledAction) : Prop :=
  forall (i : nat) sa sb, l !! i = Some sa -> l !! S i = Some sb ->
    scheduled_start sa + gap <= scheduled_start sb.

(** Monday 2026-03-02 09:00 to Friday 2026-03-06 17:00. *)
Definition one_week_window : ScheduleWindow :=
  mk_window (dt_combine 739677 9 0) (dt_combine 739681 17 0).

(** What the e-mail loop places at loop index [k]. *)
Definition email_placed (emails_per_day k : Z) (sa : ScheduledAction) : Prop :=
  action_type sa = "email"
  /\ priority sa = Z.max 1 (5 - k / emails_per_day)
  /\ scheduled_end sa = scheduled_start sa + us_per_hour.

(** The number of placements the phases of [phases] receive when the first
    of them starts on date [phase_start]: each phase gets its action count,
    capped by [actions_per_day] times the weekdays among its calendar days. *)
Fixpoint placed_total (actions_per_phase : gmap Z (list Z)) (phase_start : Z)
    (phases : list Phase) : Z :=
  match phases with
  | [] => 0
  | ph :: phases =>
    let count := Z.of_nat (length (default [] (actions_per_phase !! phase ph))) in
    let days_in_phase := Z.max 1 (7 * duration_weeks ph) in
    let actions_per_day := Z.max 1 (count / days_in_phase) in
    Z.min count (actions_per_day * weekdays_in phase_start days_in_phase)
    + placed_total actions_per_phase (phase_start + 7 * duration_weeks ph) phases
  end.

(** The weeks of all phases together: the last phase ends that many weeks
    after the campaign start. *)
Definition total_weeks (phases : list Phase) : Z :=
  foldr (fun ph acc => duration_weeks ph + acc) 0 phases.

(** The [by_date] key of a placement. *)
Definition date_key (sa : ScheduledAction) : string :=
  date_isoformat (dt_date (scheduled_start sa)).

(** The number of placements of [l] with date key, action type or batch id
    [q]. *)
Definition count_date (q : string) (l : list ScheduledAction) : Z :=
  Z.of_nat (length (filter (fun sa => date_key sa = q) l)).

Definition count_type (q : string) (l : list ScheduledAction) : Z :=
  Z.of_nat (length (filter (fun sa => action_type sa = q) l)).

Definition count_batch (q : string) (l : list ScheduledAction) : Z :=
  Z.of_nat (length (filter (fun sa => batch_id sa = Some q) l)).

Definition summary_by_batch (s : Summary) : list (string * Z) :=
  from_option by_batch [] (detail s).

(** * Properties *)

(** ** Binary64 rounding: monotone, exact on 53-bit dyadics, half-ulp error *)

Module FloatFacts.
Import Float.
#[local] Open Scope Q_scope.

Lemma pow2_pos e : 0 < pow2 e.
Proof. apply Qpower_0_lt. reflexivity. Qed.

Lemma pow2_add a b : pow2 (a + b) == pow2 a * pow2 b.
Proof. apply Qpower_plus. discriminate. Qed.

Lemma pow2_le a b : (a <= b)%Z -> pow2 a <= pow2 b.
Proof. intros. apply Qpower_le_compat_l; [assumption | lra]. Qed.

Lemma pow2_succ a : pow2 (a + 1) == 2 * pow2 a.
Proof. rewrite pow2_add. unfold pow2 at 2. simpl. lra. Qed.

Lemma pow2_Z n : (0 <= n)%Z -> pow2 n == inject_Z (2 ^ n).
Proof. intros. unfold pow2. rewrite Zpower_Qpower by assumption. reflexivity. Qed.

Lemma rne_cases y :
  let f := Qfloor y in
  (rne y = f /\ y - inject_Z f <= 1 # 2) \/ (rne y = (f + 1)%Z /\ 1 # 2 <= y - inject_Z f).
Proof.
  intros f. unfold rne. fold f.
  destruct (Qcompare_spec (y - inject_Z f) (1 # 2)) as [E | L | G].
  - destruct (Z.even f); [left | right]; split; auto; lra.
  - left; split; auto; lra.
  - right; split; auto; lra.
Qed.

Lemma floor_bounds y : inject_Z (Qfloor y) <= y /\ y < inject_Z (Qfloor y) + 1.
Proof.
  split. apply Qfloor_le. pose proof (Qlt_floor y). rewrite inject_Z_plus in H. exact H.
Qed.

Lemma rne_err y : y - (1 # 2) <= inject_Z (rne y) <= y + (1 # 2).
Proof.
  pose proof (floor_bounds y) as [H1 H2].
  destruct (rne_cases y) as [[-> H] | [-> H]]; rewrite ?inject_Z_plus;
    change (inject_Z 1) with 1; split; lra.
Qed.

Lemma rne_Z z : rne (inject_Z z) = z.
Proof.
  unfold rne. rewrite Qfloor_Z.
  destruct (Qcompare_spec (inject_Z z - inject_Z z) (1 # 2)) as [E | L | G]; try lra. reflexivity.
Qed.

Lemma rne_mono x y : x <= y -> (rne x <= rne y)%Z.
Proof.
  intros Hxy.
  pose proof (Qfloor_resp_le _ _ Hxy) as Hf.
  destruct (Z.eq_dec (Qfloor x) (Qfloor y)) as [E | N].
  - unfold rne. rewrite E.
    destruct (Qcompare_spec (x - inject_Z (Qfloor y)) (1 # 2)) as [E1 | L1 | G1];
    destruct (Qcompare_spec (y - inject_Z (Qfloor y)) (1 # 2)) as [E2 | L2 | G2];
    try lra; try lia; destruct (Z.even (Qfloor y)); lia.
  - assert (Qfloor x + 1 <= Qfloor y)%Z by lia.
    destruct (rne_cases x) as [[-> _] | [-> _]], (rne_cases y) as [[-> _] | [-> _]]; lia.
Qed.

Lemma Zlog2_Q n : (0 < n)%Z -> pow2 (Z.log2 n) <= inject_Z n /\ inject_Z n < pow2 (Z.log2 n + 1).
Proof.
  intros Hn. pose proof (Z.log2_spec n Hn) as [H1 H2].
  pose proof (Z.log2_nonneg n).
  rewrite !pow2_Z by lia. rewrite <- Zle_Qle, <- Zlt_Qlt.
  replace (Z.log2 n + 1)%Z with (Z.succ (Z.log2 n)) by lia. split; assumption.
Qed.

Lemma binade_spec x : 0 < x -> pow2 (binade x) <= x /\ x < pow2 (binade x + 1).
Proof.
  intros Hx. unfold binade.
  set (e0 := (Z.log2 (Qnum x) - Z.log2 (Z.pos (Qden x)))%Z).
  assert (Hn : (0 < Qnum x)%Z).
  { destruct x as [n d]. unfold Qlt in Hx. simpl in *. lia. }
  pose proof (Zlog2_Q _ Hn) as [N1 N2].
  pose proof (Zlog2_Q (Zpos (Qden x)) eq_refl) as [D1 D2].
  set (ln := Z.log2 (Qnum x)) in *. set (ld := Z.log2 (Z.pos (Qden x))) in *.
  assert (Dpos : 0 < inject_Z (Zpos (Qden x))) by (change 0 with (inject_Z 0); rewrite <- Zlt_Qlt; lia).
  assert (Hmul : x * inject_Z (Zpos (Qden x)) == inject_Z (Qnum x)).
  { destruct x as [n d]. unfold Qeq. simpl. rewrite Pos.mul_1_r. lia. }
  pose proof (pow2_pos e0). pose proof (pow2_pos ld). pose proof (pow2_pos ln).
  assert (P1 : pow2 (ln + 1) == 2 * pow2 ln) by apply pow2_succ.
  assert (P2 : pow2 (ld + 1) == 2 * pow2 ld) by apply pow2_succ.
  assert (P3 : pow2 ln == pow2 e0 * pow2 ld).
  { rewrite <- pow2_add. unfold e0. replace (ln - ld + ld)%Z with ln by lia. reflexivity. }
  assert (P4 : pow2 (e0 + 1) == 2 * pow2 e0) by apply pow2_succ.
  assert (P5 : pow2 (e0 - 1 + 1) == pow2 e0) by (replace (e0 - 1 + 1)%Z with e0 by lia; reflexivity).
  assert (P6 : pow2 e0 == 2 * pow2 (e0 - 1)).
  { rewrite <- pow2_succ. symmetry. exact P5. }
  destruct (Qle_bool (pow2 e0) x) eqn:B.
  - apply Qle_bool_iff in B. split; [assumption |].
    rewrite P4.
    (* x * d = n < 2 * 2^ln = 2 * 2^e0 * 2^ld <= 2 * 2^e0 * d *)
    nra.
  - assert (x < pow2 e0).
    { apply Qnot_le_lt. intros C. apply Qle_bool_iff in C. congruence. }
    split; [| rewrite P5; assumption].
    nra.
Qed.

Lemma binade_unique x e : 0 < x -> pow2 e <= x -> x < pow2 (e + 1) -> binade x = e.
Proof.
  intros Hx H1 H2. destruct (binade_spec x Hx) as [B1 B2].
  destruct (Z.lt_trichotomy (binade x) e) as [L | [E | G]]; [exfalso | exact E | exfalso].
  - pose proof (pow2_le (binade x + 1) e ltac:(lia)). lra.
  - pose proof (pow2_le (e + 1) (binade x) ltac:(lia)). lra.
Qed.

Lemma binade_mono x y : 0 < x -> x <= y -> (binade x <= binade y)%Z.
Proof.
  intros Hx Hxy. destruct (binade_spec x Hx) as [B1 B2].
  destruct (binade_spec y ltac:(lra)) as [C1 C2].
  destruct (Z_le_gt_dec (binade x) (binade y)) as [L | G]; [exact L | exfalso].
  pose proof (pow2_le (binade y + 1) (binade x) ltac:(lia)). lra.
Qed.

Lemma scaled_range x : 0 < x ->
  inject_Z (2 ^ 52) <= x / pow2 (binade x - 52) /\ x / pow2 (binade x - 52) <= inject_Z (2 ^ 53).
Proof.
  intros Hx. destruct (binade_spec x Hx) as [B1 B2].
  pose proof (pow2_pos (binade x - 52)) as Hq.
  assert (E1 : pow2 (binade x) == inject_Z (2 ^ 52) * pow2 (binade x - 52)).
  { rewrite <- pow2_Z by lia. rewrite <- pow2_add. replace (52 + (binade x - 52))%Z with (binade x) by lia. reflexivity. }
  assert (E2 : pow2 (binade x + 1) == inject_Z (2 ^ 53) * pow2 (binade x - 52)).
  { rewrite <- pow2_Z by lia. rewrite <- pow2_add. replace (53 + (binade x - 52))%Z with (binade x + 1)%Z by lia. reflexivity. }
  split.
  - apply Qle_shift_div_l; [assumption | lra].
  - apply Qle_shift_div_r; [assumption | lra].
Qed.

Lemma round_pos_bounds x : 0 < x ->
  pow2 (binade x) <= round_pos x /\ round_pos x <= pow2 (binade x + 1).
Proof.
  intros Hx. destruct (scaled_range x Hx) as [S1 S2].
  pose proof (pow2_pos (binade x - 52)) as Hq.
  apply rne_mono in S1. apply rne_mono in S2. rewrite rne_Z in S1, S2.
  unfold round_pos.
  set (k := rne (x / pow2 (binade x - 52))) in *.
  assert (E1 : pow2 (binade x) == inject_Z (2 ^ 52) * pow2 (binade x - 52)).
  { rewrite <- pow2_Z by lia. rewrite <- pow2_add. replace (52 + (binade x - 52))%Z with (binade x) by lia. reflexivity. }
  assert (E2 : pow2 (binade x + 1) == inject_Z (2 ^ 53) * pow2 (binade x - 52)).
  { rewrite <- pow2_Z by lia. rewrite <- pow2_add. replace (53 + (binade x - 52))%Z with (binade x + 1)%Z by lia. reflexivity. }
  rewrite Zle_Qle in S1, S2. rewrite E1, E2. split; apply Qmult_le_compat_r; lra.
Qed.

Lemma round_pos_pos x : 0 < x -> 0 < round_pos x.
Proof.
  intros Hx. destruct (round_pos_bounds x Hx) as [H _]. pose proof (pow2_pos (binade x)). lra.
Qed.

Lemma round_pos_mono x y : 0 < x -> x <= y -> round_pos x <= round_pos y.
Proof.
  intros Hx Hxy. assert (Hy : 0 < y) by lra.
  pose proof (binade_mono x y Hx Hxy) as Hb.
  destruct (Z.eq_dec (binade x) (binade y)) as [E | N].
  - unfold round_pos. rewrite E.
    pose proof (pow2_pos (binade y - 52)) as Hq.
    apply Qmult_le_compat_r; [| lra].
    rewrite <- Zle_Qle. apply rne_mono.
    apply Qmult_le_compat_r; [assumption |]. apply Qlt_le_weak, Qinv_lt_0_compat, Hq.
  - destruct (round_pos_bounds x Hx) as [_ U]. destruct (round_pos_bounds y Hy) as [L _].
    pose proof (pow2_le (binade x + 1) (binade y) ltac:(lia)). lra.
Qed.

Lemma Qnum_sign x : match Qnum x with Z0 => x == 0 | Zpos _ => 0 < x | Zneg _ => x < 0 end.
Proof. destruct x as [[| p | p] d]; unfold Qeq, Qlt; simpl; lia. Qed.

Lemma round53_pos x : 0 < x -> round53 x = round_pos x.
Proof.
  intros Hx. unfold round53. pose proof (Qnum_sign x) as S.
  destruct (Qnum x); [lra | reflexivity | lra].
Qed.

Lemma round53_neg x : x < 0 -> round53 x = - round_pos (- x).
Proof.
  intros Hx. unfold round53. pose proof (Qnum_sign x) as S.
  destruct (Qnum x); [lra | lra | reflexivity].
Qed.

Lemma round53_zero x : x == 0 -> round53 x = 0.
Proof.
  intros Hx. unfold round53. pose proof (Qnum_sign x) as S.
  destruct (Qnum x); [reflexivity | lra | lra].
Qed.

Lemma round53_mono x y : x <= y -> round53 x <= round53 y.
Proof.
  intros Hxy.
  destruct (Q_dec x 0) as [[Nx | Px] | Zx], (Q_dec y 0) as [[Ny | Py] | Zy]; try lra.
  - rewrite (round53_neg x Nx), (round53_neg y Ny).
    pose proof (round_pos_mono (- y) (- x) ltac:(lra) ltac:(lra)). lra.
  - rewrite (round53_neg x Nx), (round53_pos y Py).
    pose proof (round_pos_pos (- x) ltac:(lra)). pose proof (round_pos_pos y Py). lra.
  - rewrite (round53_neg x Nx), (round53_zero y Zy).
    pose proof (round_pos_pos (- x) ltac:(lra)). lra.
  - rewrite (round53_pos x Px), (round53_pos y Py). apply round_pos_mono; assumption.
  - rewrite (round53_zero x Zx), (round53_pos y Py). pose proof (round_pos_pos y Py). lra.
  - rewrite (round53_zero x Zx), (round53_zero y Zy). lra.
Qed.

#[export] Instance round53_proper : Proper (Qeq ==> Qeq) round53.
Proof.
  intros x y E. apply Qle_antisym; apply round53_mono; lra.
Qed.

#[export] Instance rne_proper : Proper (Qeq ==> eq) rne.
Proof.
  intros x y E. apply Z.le_antisymm; apply rne_mono; lra.
Qed.

Lemma round_pos_exact m e : (0 < m < 2 ^ 53)%Z ->
  round_pos (inject_Z m * pow2 e) == inject_Z m * pow2 e.
Proof.
  intros Hm. set (x := inject_Z m * pow2 e).
  assert (Hm0 : 0 < inject_Z m) by (change 0 with (inject_Z 0); rewrite <- Zlt_Qlt; lia).
  assert (Hm1 : inject_Z m < inject_Z (2 ^ 53)) by (rewrite <- Zlt_Qlt; lia).
  pose proof (pow2_pos e) as He.
  assert (Hx : 0 < x) by (unfold x; nra).
  destruct (binade_spec x Hx) as [B1 _].
  assert (Hq : (binade x - 52 <= e)%Z).
  { destruct (Z_le_gt_dec (binade x - 52) e) as [L | G]; [exact L | exfalso].
    pose proof (pow2_le (53 + e) (binade x) ltac:(lia)) as P.
    rewrite pow2_add, pow2_Z in P by lia. unfold x in B1, P.
    assert (inject_Z m * pow2 e < inject_Z (2 ^ 53) * pow2 e) by (apply Qmult_lt_compat_r; assumption).
    lra. }
  unfold round_pos. fold x.
  set (q := (binade x - 52)%Z) in *.
  pose proof (pow2_pos q) as Hpq.
  assert (Hd : pow2 e == inject_Z (2 ^ (e - q)) * pow2 q).
  { rewrite <- pow2_Z by lia. rewrite <- pow2_add. replace (e - q + q)%Z with e by lia. reflexivity. }
  assert (Hs : x / pow2 q == inject_Z (m * 2 ^ (e - q))).
  { unfold x. rewrite Hd, inject_Z_mult. field. lra. }
  rewrite Hs, rne_Z. unfold x. rewrite Hd, inject_Z_mult. ring.
Qed.

(** Every dyadic rational with a 53-bit numerator is a binary64 value. *)
Lemma round53_exact m e : (Z.abs m < 2 ^ 53)%Z ->
  round53 (inject_Z m * pow2 e) == inject_Z m * pow2 e.
Proof.
  intros Hm. pose proof (pow2_pos e) as He.
  destruct (Z.lt_trichotomy m 0) as [N | [Z0 | P]].
  - assert (inject_Z m < 0) by (change 0 with (inject_Z 0); rewrite <- Zlt_Qlt; lia).
    rewrite round53_neg by nra.
    assert (E : - (inject_Z m * pow2 e) == inject_Z (- m) * pow2 e) by (rewrite inject_Z_opp; ring).
    assert (E' : round_pos (- (inject_Z m * pow2 e)) == round_pos (inject_Z (- m) * pow2 e)).
    { assert (P1 : 0 < - (inject_Z m * pow2 e)) by nra.
      assert (P2 : 0 < inject_Z (- m) * pow2 e) by lra.
      rewrite <- (round53_pos _ P1), <- (round53_pos _ P2). rewrite E. reflexivity. }
    rewrite E', round_pos_exact by lia. rewrite inject_Z_opp. ring.
  - subst m. rewrite round53_zero; [ring | ring].
  - assert (0 < inject_Z m) by (change 0 with (inject_Z 0); rewrite <- Zlt_Qlt; lia).
    rewrite round53_pos by nra. apply round_pos_exact. lia.
Qed.

Lemma round53_Z z : (Z.abs z < 2 ^ 53)%Z -> round53 (inject_Z z) == inject_Z z.
Proof.
  intros Hz. pose proof (round53_exact z 0 Hz) as H.
  change (pow2 0) with 1 in H. rewrite Qmult_1_r in H. exact H.
Qed.

(** Relative rounding error of at most 2^-53 (half a unit in the last place). *)
Lemma round53_err x : 0 <= x ->
  x - x * pow2 (-53) <= round53 x /\ round53 x <= x + x * pow2 (-53).
Proof.
  intros Hx0. destruct (Qle_lt_or_eq _ _ Hx0) as [Hx | Hz].
  2:{ rewrite <- Hz. rewrite round53_zero by reflexivity. lra. }
  rewrite round53_pos by assumption.
  destruct (binade_spec x Hx) as [B1 _].
  unfold round_pos. set (q := (binade x - 52)%Z) in *.
  pose proof (pow2_pos q) as Hpq.
  pose proof (rne_err (x / pow2 q)) as [E1 E2].
  set (k := inject_Z (rne (x / pow2 q))) in *.
  assert (Hb : pow2 (binade x) == pow2 53 * (pow2 q * (1 # 2))).
  { assert (pow2 (binade x) == pow2 52 * pow2 q).
    { rewrite <- pow2_add. replace (52 + q)%Z with (binade x) by lia. reflexivity. }
    assert (E53 : pow2 53 == 2 * pow2 52) by (rewrite <- pow2_succ; reflexivity).
    rewrite E53, H. ring. }
  assert (Hu : pow2 53 * pow2 (-53) == 1) by (rewrite <- pow2_add; reflexivity).
  pose proof (pow2_pos 53). pose proof (pow2_pos (-53)).
  assert (Hh : pow2 q * (1 # 2) <= x * pow2 (-53)).
  { assert (pow2 q * (1 # 2) == pow2 (binade x) * pow2 (-53)).
    { rewrite Hb. transitivity ((pow2 53 * pow2 (-53)) * (pow2 q * (1 # 2))); [rewrite Hu; ring | ring]. }
    nra. }
  assert (Hy : x == (x / pow2 q) * pow2 q) by (field; lra).
  set (y := x / pow2 q) in *.
  split; nra.
Qed.

(** Equal rationals round to the same representation. *)
Lemma round_pos_eq x y : 0 < x -> x == y -> round_pos x = round_pos y.
Proof.
  intros Hx E. unfold round_pos.
  assert (B : binade y = binade x).
  { destruct (binade_spec x Hx) as [B1 B2]. apply binade_unique; lra. }
  rewrite B. f_equal. f_equal. apply rne_proper.
  unfold Qdiv. apply Qmult_comp; [exact E | reflexivity].
Qed.

Lemma round53_eq x y : x == y -> round53 x = round53 y.
Proof.
  intros E. destruct (Q_dec x 0) as [[N | P] | Z0].
  - rewrite (round53_neg x N), (round53_neg y) by lra. f_equal.
    apply round_pos_eq; lra.
  - rewrite (round53_pos x P), (round53_pos y) by lra. apply round_pos_eq; lra.
  - rewrite (round53_zero x Z0), (round53_zero y) by lra. reflexivity.
Qed.
End FloatFacts.

(** ** Clock arithmetic *)

Ltac unfold_time :=
  unfold dt_weekday, date_weekday, dt_hour, dt_minute, dt_date, dt_combine,
    timedelta, td_days, us_per_day, us_per_hour, us_per_minute in *.

Ltac time_arith := unfold_time; Z.div_mod_to_equations; lia.

Lemma dt_date_combine d h m :
  0 <= h * us_per_hour + m * us_per_minute < us_per_day ->
  dt_date (dt_combine d h m) = d.
Proof. time_arith. Qed.

Lemma dt_hour_combine d h m :
  0 <= h < 24 -> 0 <= m < 60 -> dt_hour (dt_combine d h m) = h.
Proof. time_arith. Qed.

Lemma dt_weekday_combine d h m :
  0 <= h < 24 -> 0 <= m < 60 -> dt_weekday (dt_combine d h m) = date_weekday d.
Proof. intros. unfold dt_weekday. rewrite dt_date_combine; [done | time_arith]. Qed.

Lemma date_weekday_range d : 0 <= date_weekday d < 7.
Proof. time_arith. Qed.

Lemma dt_combine_date_lt d1 h1 m1 d2 h2 m2 :
  0 <= h1 < 24 -> 0 <= m1 < 60 -> 0 <= h2 < 24 -> 0 <= m2 < 60 ->
  d1 < d2 -> dt_combine d1 h1 m1 < dt_combine d2 h2 m2.
Proof. time_arith. Qed.

Lemma randint_range a b g : a <= b -> a <= (randint a b g).1 <= b.
Proof. intros. unfold randint. simpl. Z.div_mod_to_equations. lia. Qed.

(** ** BusinessClock *)

Lemma nbh_body_hour t : dt_hour (nbh_body t) = 9.
Proof. unfold nbh_body. case_match; apply dt_hour_combine; lia. Qed.

Lemma nbh_body_weekend t : 5 <= dt_weekday t -> dt_weekday (nbh_body t) = 0.
Proof.
  intros H. unfold nbh_body. apply Z.leb_le in H as ->.
  rewrite dt_weekday_combine by lia. time_arith.
Qed.

Lemma nbh_body_weekday t :
  dt_weekday t < 5 -> dt_weekday (nbh_body t) = dt_weekday t + 1.
Proof.
  intros H. unfold nbh_body. apply Z.leb_gt in H as Hb. rewrite Hb.
  rewrite dt_weekday_combine by lia. time_arith.
Qed.

Lemma nbh_body_later t : t < nbh_body t.
Proof. unfold nbh_body. case_match; time_arith. Qed.

Lemma nbh_cond_false window t :
  nbh_cond window t = false <->
  (dt_hour t ∉ blocked_hours window) /\ dt_weekday t < 5.
Proof.
  unfold nbh_cond. rewrite orb_false_iff, bool_decide_eq_false, Z.leb_gt. done.
Qed.

Lemma nbh_two_steps fuel dt window :
  9 ∉ blocked_hours window -> (2 <= fuel)%nat ->
  exists r, _next_business_hour fuel dt window = Some r
            /\ nbh_cond window r = false /\ dt <= r.
Proof.
  intros H9 Hf. unfold _next_business_hour.
  destruct fuel as [| fuel]; [lia |]. destruct fuel as [| fuel]; [lia |]. clear Hf.
  assert (Hstop : forall t, dt_weekday (nbh_body t) < 5 ->
                            nbh_cond window (nbh_body t) = false).
  { intros t Hw. apply nbh_cond_false. rewrite nbh_body_hour. done. }
  pose proof (nbh_body_later dt) as L1.
  pose proof (nbh_body_later (nbh_body dt)) as L2.
  cbn [while]. destruct (nbh_cond window dt) eqn:C0; [| exists dt; split_and!; [done | done | lia]].
  destruct (Z.le_gt_cases 5 (dt_weekday dt)) as [Hwe | Hwd].
  - assert (C1 : nbh_cond window (nbh_body dt) = false).
    { apply Hstop. rewrite nbh_body_weekend; lia. }
    rewrite C1. exists (nbh_body dt). split_and!; [done | done | lia].
  - destruct (Z.le_gt_cases 5 (dt_weekday (nbh_body dt))) as [Hwe1 | Hwd1].
    + assert (C1 : nbh_cond window (nbh_body dt) = true).
      { unfold nbh_cond. apply Z.leb_le in Hwe1 as ->. apply orb_true_r. }
      assert (C2 : nbh_cond window (nbh_body (nbh_body dt)) = false).
      { apply Hstop. rewrite nbh_body_weekend; lia. }
      rewrite C1. destruct fuel; cbn [while]; rewrite C2;
        exists (nbh_body (nbh_body dt)); (split_and!; [done | done | lia]).
    + assert (C1 : nbh_cond window (nbh_body dt) = false) by (apply Hstop; lia).
      rewrite C1. exists (nbh_body dt). split_and!; [done | done | lia].
Qed.

Lemma nbh_blocked9_spins fuel d :
  _next_business_hour fuel (dt_combine d 9 0) window_blocking_9 = None.
Proof.
  unfold _next_business_hour. revert d. induction fuel as [| fuel IH]; intros d.
  - simpl. unfold nbh_cond. rewrite dt_hour_combine by lia. done.
  - simpl. unfold nbh_cond at 1. rewrite dt_hour_combine by lia. simpl.
    unfold nbh_body. case_match; apply IH.
Qed.




(** ** ScheduleSummary *)

Lemma sum_counts_set d k v :
  sum_counts (dict_set d k v) = sum_counts d - dict_get d k 0 + v.
Proof.
  unfold sum_counts, dict_values.
  induction d as [| [k' v'] d IH]; [simpl; lia |].
  cbn [dict_set dict_get].
  destruct (String.eqb k k'); rewrite !fmap_cons; cbn [foldr snd];
    [lia | rewrite IH; lia].
Qed.

Lemma sum_counts_incr d k : sum_counts (dict_incr d k) = sum_counts d + 1.
Proof. unfold dict_incr. rewrite sum_counts_set. lia. Qed.

Lemma summary_loop_counts l : forall by_date by_type by_batch,
  sum_counts (summary_loop l by_date by_type by_batch).1.1
    = sum_counts by_date + Z.of_nat (length l)
  /\ sum_counts (summary_loop l by_date by_type by_batch).1.2
    = sum_counts by_type + Z.of_nat (length l).
Proof.
  induction l as [| sa l IH]; intros bd bt bb; cbn [summary_loop length].
  - simpl. lia.
  - destruct (IH (dict_incr bd (date_isoformat (dt_date (scheduled_start sa))))
                 (dict_incr bt (action_type sa))
                 (match batch_id sa with
                  | Some b => if String.eqb b "" then bb else dict_incr bb b
                  | None => bb
                  end)) as [E1 E2].
    rewrite E1, E2, !sum_counts_incr. lia.
Qed.

(** C9: the summary of the empty list is [{"total": 0}], with no peak date;
    for every placement list, [total] is the length of the list and the
    counts of [by_type], and those of [by_date], add up to [total]. *)
Theorem schedule_summary_counts (l : list ScheduledAction) :
  get_schedule_summary [] = {| total := 0; detail := None |}
  /\ summary_peak_date (get_schedule_summary []) = None
  /\ total (get_schedule_summary l) = Z.of_nat (length l)
  /\ sum_counts (summary_by_type (get_schedule_summary l)) = total (get_schedule_summary l)
  /\ sum_counts (summary_by_date (get_schedule_summary l)) = total (get_schedule_summary l).
Proof.
  split_and!; [done | done | ..].
  - destruct l; [done |]. unfold get_schedule_summary.
    destruct (summary_loop _ _ _ _) as [[? ?] ?]. done.
  - destruct l as [| sa l]; [done |]. unfold get_schedule_summary.
    pose proof (summary_loop_counts (sa :: l) [] [] []) as [_ E].
    destruct (summary_loop _ _ _ _) as [[bd bt] bb].
    cbn [summary_by_type detail total from_option by_type fst snd] in *.
    rewrite E. done.
  - destruct l as [| sa l]; [done |]. unfold get_schedule_summary.
    pose proof (summary_loop_counts (sa :: l) [] [] []) as [E _].
    destruct (summary_loop _ _ _ _) as [[bd bt] bb].
    cbn [summary_by_date detail total from_option by_date fst snd] in *.
    rewrite E. done.
Qed.

(** ** Loops on fuel *)

Lemma while_exit {S : Type} (cond : S -> bool) (body : S -> S) fuel s r :
  while fuel cond body s = Some r -> cond r = false.
Proof.
  revert s. induction fuel as [| fuel IH]; intros s; cbn [while];
    destruct (cond s) eqn:C; try done; [| by apply IH | ]; by intros [= <-].
Qed.

Lemma weekend_body_weekday t :
  5 <= dt_weekday t ->
  dt_weekday (weekend_body t) = (if dt_weekday t =? 5 then 6 else 0)
  /\ t < weekend_body t.
Proof.
  intros H. unfold weekend_body. rewrite dt_weekday_combine by lia.
  destruct (Z.eqb_spec (dt_weekday t) 5); split; time_arith.
Qed.

Lemma weekend_skip fuel t :
  (2 <= fuel)%nat ->
  exists r, while fuel weekend_cond weekend_body t = Some r
            /\ dt_weekday r < 5 /\ t <= r.
Proof.
  intros Hf. destruct fuel as [| fuel]; [lia |]. destruct fuel as [| fuel]; [lia |].
  clear Hf. cbn [while]. unfold weekend_cond at 1.
  destruct (Z.leb_spec 5 (dt_weekday t)) as [H0 | H0]; [| exists t; split_and!; [done | lia | lia]].
  destruct (weekend_body_weekday t H0) as [W1 L1].
  unfold weekend_cond at 1.
  destruct (Z.leb_spec 5 (dt_weekday (weekend_body t))) as [H1 | H1];
    [| exists (weekend_body t); split_and!; [done | lia | lia]].
  destruct (weekend_body_weekday _ H1) as [W2 L2].
  assert (W3 : dt_weekday (weekend_body (weekend_body t)) = 0).
  { rewrite W2. destruct (Z.eqb_spec (dt_weekday t) 5); [| lia].
    rewrite W1. done. }
  assert (C : weekend_cond (weekend_body (weekend_body t)) = false).
  { unfold weekend_cond. rewrite W3. done. }
  destruct fuel; cbn [while]; rewrite C;
    exists (weekend_body (weekend_body t)); (split_and!; [done | lia | lia]).
Qed.

(** ** StaggerStrategy *)

Section EmailLoop.
Variables (fuel : nat) (window : ScheduleWindow).
Variables (emails_per_day stagger_minutes : Z) (personalization_required : bool).

Let loop := email_loop fuel window emails_per_day stagger_minutes
              personalization_required.

(** Every placement the loop appends starts at an instant that has left
    the weekend-skipping [while]. *)
Lemma email_loop_weekdays ids : forall i scheduled current_date daily_count current_time g l,
  Forall (fun sa => dt_weekday (scheduled_start sa) < 5) scheduled ->
  loop i ids scheduled current_date daily_count current_time g = Returns l ->
  Forall (fun sa => dt_weekday (scheduled_start sa) < 5) l.
Proof.
  unfold loop. induction ids as [| action_id rest IH];
    intros i scheduled cd dc ct g l Hacc; cbn [email_loop].
  - by intros [= <-].
  - case_match; [by intros [= <-] |].
    destruct (while fuel weekend_cond weekend_body ct) as [ct' |] eqn:W; [| done].
    apply while_exit in W. unfold weekend_cond in W. apply Z.leb_gt in W.
    case_match; [done |].
    assert (Hacc' : Forall (fun sa => dt_weekday (scheduled_start sa) < 5)
              (scheduled ++ [email_action action_id i emails_per_day cd ct'
                               personalization_required])).
    { apply Forall_app. split; [done |]. by apply Forall_singleton. }
    repeat case_match; intros E; eapply IH in E; done.
Qed.

(** With two units of fuel for the weekend skip and a non-zero
    [emails_per_day] the loop returns. *)
Lemma email_loop_returns ids : forall i scheduled current_date daily_count current_time g,
  (2 <= fuel)%nat -> emails_per_day <> 0 ->
  exists l, loop i ids scheduled current_date daily_count current_time g = Returns l.
Proof.
  unfold loop. induction ids as [| action_id rest IH];
    intros i scheduled cd dc ct g Hf Hepd; cbn [email_loop].
  - by eexists.
  - case_match; [by eexists |].
    destruct (weekend_skip fuel ct Hf) as (ct' & -> & _ & _).
    apply Z.eqb_neq in Hepd as Hb. rewrite Hb.
    repeat case_match; by apply IH.
Qed.

(** The only exception the loop raises is the [ZeroDivisionError] of
    [i // emails_per_day]. *)
Lemma email_loop_raises ids : forall i scheduled current_date daily_count current_time g e,
  loop i ids scheduled current_date daily_count current_time g = Raises e ->
  e = ZeroDivisionError /\ emails_per_day = 0.
Proof.
  unfold loop. induction ids as [| action_id rest IH];
    intros i scheduled cd dc ct g e; cbn [email_loop]; [done |].
  case_match; [done |].
  destruct (while fuel weekend_cond weekend_body ct) as [ct' |]; [| done].
  destruct (Z.eqb_spec emails_per_day 0) as [-> | Hne]; [by intros [= <-] |].
  repeat case_match; by apply IH.
Qed.
End EmailLoop.

(** ** PhaseSequencer *)

Lemma on_day_date ph d sa : on_day ph d sa -> dt_date (scheduled_start sa) = d.
Proof.
  intros (_ & j & m & -> & Hm). apply dt_date_combine.
  pose proof (Z.mod_pos_bound j 8 ltac:(lia)). time_arith.
Qed.

Lemma on_day_weekday ph d sa :
  on_day ph d sa -> dt_weekday (scheduled_start sa) = date_weekday d.
Proof. intros H. unfold dt_weekday. by rewrite (on_day_date ph d sa H). Qed.

Lemma placed_on_app d l1 l2 : placed_on d (l1 ++ l2) = placed_on d l1 + placed_on d l2.
Proof. unfold placed_on. rewrite filter_app, length_app. lia. Qed.

Lemma placed_on_le d l : placed_on d l <= Z.of_nat (length l).
Proof. unfold placed_on. pose proof (length_filter (fun sa => dt_date (scheduled_start sa) = d) l). lia. Qed.

Lemma placed_on_other d l :
  Forall (fun sa => dt_date (scheduled_start sa) <> d) l -> placed_on d l = 0.
Proof.
  unfold placed_on. induction 1 as [| sa l Hsa _ IH]; [done |].
  rewrite filter_cons_False by done. exact IH.
Qed.

Lemma weekdays_in_nonneg lo n : 0 <= weekdays_in lo n.
Proof. unfold weekdays_in. lia. Qed.

Lemma weekdays_in_succ lo (n : nat) :
  weekdays_in lo (Z.of_nat (S n))
  = (if 5 <=? date_weekday lo then 0 else 1) + weekdays_in (lo + 1) (Z.of_nat n).
Proof.
  unfold weekdays_in. rewrite seqZ_cons by lia.
  replace (Z.succ lo) with (lo + 1) by lia.
  replace (Z.pred (Z.of_nat (S n))) with (Z.of_nat n) by lia.
  destruct (Z.leb_spec 5 (date_weekday lo)).
  - rewrite filter_cons_False by lia. lia.
  - rewrite filter_cons_True by lia. cbn [length]. lia.
Qed.

Lemma daily_loop_spec ph current_date daily : forall j acc g,
  exists seg, (daily_loop ph current_date j daily acc g).1 = acc ++ seg
              /\ action_id <$> seg = daily
              /\ Forall (on_day ph current_date) seg.
Proof.
  induction daily as [| action_id rest IH]; intros j acc g; cbn [daily_loop].
  - exists []. by rewrite app_nil_r.
  - destruct (randint 0 59 g) as [m g'] eqn:R.
    pose proof (randint_range 0 59 g ltac:(lia)) as Hm. rewrite R in Hm. simpl in Hm.
    destruct (IH (j + 1)
                (acc ++ [phase_action ph action_id current_date
                           (dt_combine current_date (9 + j mod 8) m)]) g')
      as (seg & E & Hid & Hday).
    eexists (_ :: seg). rewrite E, <- app_assoc. split_and!; [done | by rewrite fmap_cons, Hid |].
    constructor; [| done]. split; [done |]. by exists j, m.
Qed.

Lemma day_loop_spec ph phase_start actions apd remaining :
  forall day_offset idx acc g, 0 <= idx -> 0 < apd ->
  exists seg,
    (day_loop remaining day_offset ph phase_start actions apd idx acc g).1 = acc ++ seg
    /\ Forall (in_days ph (phase_start + day_offset) (Z.of_nat remaining)) seg
    /\ action_id <$> seg = take (length seg) (drop (Z.to_nat idx) actions)
    /\ (forall d, placed_on d seg <= apd)
    /\ Z.of_nat (length seg)
       <= apd * weekdays_in (phase_start + day_offset) (Z.of_nat remaining).
Proof.
  induction remaining as [| remaining IH]; intros day_offset idx acc g Hidx Hapd;
    cbn [day_loop].
  - exists []. rewrite app_nil_r. split_and!; [done | done | done | |].
    + intros d. unfold placed_on. simpl. lia.
    + unfold weekdays_in. simpl. lia.
  - assert (Hweaken : forall seg,
      Forall (in_days ph (phase_start + (day_offset + 1)) (Z.of_nat remaining)) seg ->
      Forall (in_days ph (phase_start + day_offset) (Z.of_nat (S remaining))) seg).
    { intros seg Hseg. eapply Forall_impl; [exact Hseg |]. intros sa (d & Hd & Hw & Hon).
      exists d. split; [lia | done]. }
    pose proof (weekdays_in_succ (phase_start + day_offset) remaining) as Hwk.
    pose proof (weekdays_in_nonneg (phase_start + day_offset + 1) (Z.of_nat remaining)) as Hwk0.
    replace (phase_start + (day_offset + 1)) with (phase_start + day_offset + 1) in * by lia.
    destruct (Z.leb_spec 5 (date_weekday (phase_start + day_offset))) as [Hwe | Hwd].
    { destruct (IH (day_offset + 1) idx acc g Hidx Hapd) as (seg & E & Hin & Hid & Hcnt & Hcap).
      replace (phase_start + (day_offset + 1)) with (phase_start + day_offset + 1) in * by lia.
      exists seg. split_and!; [done | by apply Hweaken | done | done | lia]. }
    set (daily := slice actions idx apd).
    destruct (daily_loop_spec ph (phase_start + day_offset) daily 0 acc g)
      as (dseg & E1 & Hid1 & Hday1).
    destruct (daily_loop ph (phase_start + day_offset) 0 daily acc g) as [acc1 g1].
    simpl in E1. subst acc1.
    assert (Hlen1 : length dseg = length daily) by (rewrite <- Hid1; by rewrite length_fmap).
    assert (Hdaily_len : Z.of_nat (length daily) <= apd).
    { unfold daily, slice. rewrite length_take. lia. }
    assert (Hdaily : daily = take (length dseg) (drop (Z.to_nat idx) actions)).
    { rewrite Hlen1. unfold daily, slice. rewrite length_take.
      destruct (Nat.min_spec (Z.to_nat apd) (length (drop (Z.to_nat idx) actions)))
        as [[_ ->] | [Hge ->]]; [done |].
      rewrite !take_ge; [done | lia | lia]. }
    assert (Hin1 : Forall (in_days ph (phase_start + day_offset) (Z.of_nat (S remaining))) dseg).
    { eapply Forall_impl; [exact Hday1 |]. intros sa Hon.
      exists (phase_start + day_offset). split; [lia | done]. }
    assert (Hcnt1 : forall d, placed_on d dseg <= apd).
    { intros d. pose proof (placed_on_le d dseg). lia. }
    case_match.
    { exists dseg. split_and!; [done | done | by rewrite Hid1 | done | nia]. }
    destruct (IH (day_offset + 1) (idx + Z.of_nat (length daily)) (acc ++ dseg) g1
                ltac:(lia) Hapd) as (seg & E & Hin & Hid & Hcnt & Hcap).
    replace (phase_start + (day_offset + 1)) with (phase_start + day_offset + 1) in * by lia.
    exists (dseg ++ seg). rewrite E, <- app_assoc. split_and!; [| | | | rewrite length_app; nia].
    + done.
    + apply Forall_app. split; [done | by apply Hweaken].
    + rewrite fmap_app, Hid1, Hid, length_app, <- take_take_drop, <- Hdaily.
      f_equal. rewrite drop_drop. do 2 f_equal. lia.
    + intros d. rewrite placed_on_app.
      destruct (decide (d = phase_start + day_offset)) as [-> | Hne].
      * rewrite (placed_on_other _ seg); [pose proof (Hcnt1 (phase_start + day_offset)); lia |].
        eapply Forall_impl; [exact Hin |]. intros sa (d & Hd & _ & Hon).
        rewrite (on_day_date _ _ _ Hon). lia.
      * rewrite (placed_on_other _ dseg); [pose proof (Hcnt d); lia |].
        eapply Forall_impl; [exact Hday1 |]. intros sa Hon.
        rewrite (on_day_date _ _ _ Hon). done.
Qed.

Lemma phase_loop_spec actions_per_phase phases : forall phase_start acc g,
  exists segs,
    phase_loop phases actions_per_phase phase_start acc g = acc ++ concat segs
    /\ segments_ok actions_per_phase phase_start phases segs.
Proof.
  induction phases as [| ph rest IH]; intros phase_start acc g; cbn [phase_loop].
  - exists []. by rewrite app_nil_r.
  - destruct (default [] (actions_per_phase !! phase ph)) as [| a actions] eqn:Hact.
    + destruct (IH (phase_start + 7 * duration_weeks ph) acc g) as (segs & E & Hok).
      exists ([] :: segs). split; [done |]. cbn [segments_ok]. rewrite Hact.
      split_and!; [done | done | | | done].
      * intros d. unfold placed_on. simpl. lia.
      * pose proof (weekdays_in_nonneg phase_start (Z.max 1 (7 * duration_weeks ph))).
        cbn [length]. nia.
    + replace (phase_start + 7 * duration_weeks ph - phase_start)
        with (7 * duration_weeks ph) by lia.
      set (days := Z.max 1 (7 * duration_weeks ph)).
      set (apd := Z.max 1 (Z.of_nat (length (a :: actions)) / days)).
      destruct (day_loop_spec ph phase_start (a :: actions) apd (Z.to_nat days) 0 0 acc g
                  ltac:(lia) ltac:(lia)) as (seg & E1 & Hin & Hid & Hcnt & Hcap).
      destruct (day_loop _ _ _ _ _ _ _ _ _) as [acc1 g1]. simpl in E1. subst acc1.
      destruct (IH (phase_start + 7 * duration_weeks ph) (acc ++ seg) g1) as (segs & E & Hok).
      exists (seg :: segs). rewrite E, <- app_assoc. split; [done |].
      cbn [segments_ok]. rewrite Hact. fold days. fold apd.
      rewrite Z.add_0_r, Z2Nat.id in Hcap by lia.
      split_and!; [| | done | done | done].
      * eapply Forall_impl; [exact Hin |]. intros sa (d & Hd & Hw & Hon).
        exists d. split; [lia | done].
      * rewrite Hid. simpl. apply prefix_take.
Qed.

Lemma in_days_weekday ph lo n sa : in_days ph lo n sa -> on_weekday sa.
Proof.
  intros (d & _ & Hw & Hon). unfold on_weekday. by rewrite (on_day_weekday _ _ _ Hon).
Qed.

Lemma segments_weekdays actions_per_phase phases : forall phase_start segs,
  segments_ok actions_per_phase phase_start phases segs ->
  Forall on_weekday (concat segs).
Proof.
  induction phases as [| ph rest IH]; intros phase_start [| seg segs] Hok;
    cbn [segments_ok] in Hok; try done.
  destruct Hok as (Hin & _ & _ & _ & Hrest). cbn [concat]. apply Forall_app. split.
  - eapply Forall_impl; [exact Hin |]. intros sa. apply in_days_weekday.
  - by eapply IH.
Qed.

Lemma escalation_segments phases campaign_start actions_per_phase g :
  exists segs,
    schedule_escalation_sequence phases campaign_start actions_per_phase g = concat segs
    /\ segments_ok actions_per_phase campaign_start phases segs.
Proof.
  unfold schedule_escalation_sequence.
  destruct (phase_loop_spec actions_per_phase phases campaign_start [] g) as (segs & E & Hok).
  by exists segs.
Qed.

Lemma email_campaign_weekdays fuel action_ids window emails_per_day stagger_minutes
    personalization_required g l :
  schedule_email_campaign fuel action_ids window emails_per_day stagger_minutes
    personalization_required g = Returns l ->
  Forall on_weekday l.
Proof.
  unfold schedule_email_campaign. case_match; [| done].
  intros E. eapply email_loop_weekdays in E; done.
Qed.

Lemma email_campaign_returns fuel action_ids window emails_per_day stagger_minutes
    personalization_required g :
  (2 <= fuel)%nat -> 9 ∉ blocked_hours window -> emails_per_day <> 0 ->
  exists l, schedule_email_campaign fuel action_ids window emails_per_day
              stagger_minutes personalization_required g = Returns l.
Proof.
  intros Hf H9 Hepd. unfold schedule_email_campaign.
  destruct (nbh_two_steps fuel (start window) window H9 Hf) as (r & -> & _ & _).
  by apply email_loop_returns.
Qed.

Lemma email_campaign_raises fuel action_ids window emails_per_day stagger_minutes
    personalization_required g e :
  schedule_email_campaign fuel action_ids window emails_per_day stagger_minutes
    personalization_required g = Raises e ->
  e = ZeroDivisionError /\ emails_per_day = 0.
Proof.
  unfold schedule_email_campaign. case_match; [| done]. apply email_loop_raises.
Qed.

(** C4: no placement returned by [schedule_email_campaign] and none returned
    by [schedule_escalation_sequence] starts on a Saturday or a Sunday
    ([weekday() >= 5]); the e-mail campaign does return a placement list
    whenever hour 9 is not blocked and [emails_per_day] is not zero. *)
Theorem no_weekend_placements fuel action_ids window emails_per_day stagger_minutes
    personalization_required g phases campaign_start actions_per_phase g' :
  (forall l,
     schedule_email_campaign fuel action_ids window emails_per_day stagger_minutes
       personalization_required g = Returns l ->
     Forall (fun sa => dt_weekday (scheduled_start sa) < 5) l)
  /\ ((2 <= fuel)%nat -> 9 ∉ blocked_hours window -> emails_per_day <> 0 ->
      exists l, schedule_email_campaign fuel action_ids window emails_per_day
                  stagger_minutes personalization_required g = Returns l)
  /\ Forall (fun sa => dt_weekday (scheduled_start sa) < 5)
       (schedule_escalation_sequence phases campaign_start actions_per_phase g').
Proof.
  split_and!.
  - intros l. apply email_campaign_weekdays.
  - apply email_campaign_returns.
  - destruct (escalation_segments phases campaign_start actions_per_phase g')
      as (segs & -> & Hok).
    by eapply segments_weekdays.
Qed.

Lemma no_weekend_placements_witness :
  exists l, schedule_email_campaign 2 (seqZ 1 20) two_week_window 5 15 true rng_zero
            = Returns l
            /\ Forall (fun sa => dt_weekday (scheduled_start sa) < 5) l.
Proof.
  destruct (no_weekend_placements 2 (seqZ 1 20) two_week_window 5 15 true rng_zero
              [] 0 ∅ rng_zero) as (H1 & H2 & _).
  destruct H2 as [l E].
  - lia.
  - apply (bool_decide_unpack _). vm_compute. exact I.
  - lia.
  - exists l. split; [exact E | exact (H1 l E)].
Defined.

(** C10: in [schedule_escalation_sequence] the output is the concatenation,
    phase by phase, of placements whose action ids form a prefix of the
    phase's assigned list, all on non-weekend days among the phase's
    [max(1, 7 * duration_weeks)] calendar days, with at most
    [max(1, count // days_in_phase)] placements on any one date and hence at
    most that many times the phase's weekdays in all ([segments_ok]); and
    there are inputs (7 actions in a one-week phase: one per day, five
    weekdays) for which the output is strictly shorter than the assigned
    action ids. *)
Theorem escalation_places_prefix phases campaign_start actions_per_phase g :
  (exists segs,
     schedule_escalation_sequence phases campaign_start actions_per_phase g = concat segs
     /\ segments_ok actions_per_phase campaign_start phases segs)
  /\ (exists phases' campaign_start' actions_per_phase' g',
        (length (schedule_escalation_sequence phases' campaign_start'
                   actions_per_phase' g')
         < assigned_total actions_per_phase' phases')%nat).
Proof.
  split; [apply escalation_segments |].
  exists [ {| phase := 1; name := "Direct Engagement"; duration_weeks := 1; tactics := [] |} ],
    739677, {[ 1 := seqZ 1 7 ]}, rng_zero.
  vm_compute. lia.
Qed.

(** *** Windows that are reversed, and windows that end on a weekend *)

Lemma email_campaign_reversed fuel action_ids window emails_per_day stagger_minutes
    personalization_required g :
  dt_date (end_ window) < dt_date (start window) ->
  (2 <= fuel)%nat -> 9 ∉ blocked_hours window ->
  schedule_email_campaign fuel action_ids window emails_per_day stagger_minutes
    personalization_required g = Returns [].
Proof.
  intros Hrev Hf H9. unfold schedule_email_campaign.
  destruct (nbh_two_steps fuel (start window) window H9 Hf) as (r & -> & _ & _).
  destruct action_ids as [| action_id rest]; cbn [email_loop]; [done |].
  apply Z.ltb_lt in Hrev as ->. done.
Qed.

Lemma email_campaign_zero_per_day fuel action_id rest window stagger_minutes
    personalization_required g :
  dt_date (start window) <= dt_date (end_ window) ->
  (2 <= fuel)%nat -> 9 ∉ blocked_hours window ->
  schedule_email_campaign fuel (action_id :: rest) window 0 stagger_minutes
    personalization_required g = Raises ZeroDivisionError.
Proof.
  intros Hdates Hf H9. unfold schedule_email_campaign.
  destruct (nbh_two_steps fuel (start window) window H9 Hf) as (r & -> & _ & _).
  cbn [email_loop]. apply Z.ltb_ge in Hdates as ->.
  destruct (weekend_skip fuel r Hf) as (r' & -> & _ & _). done.
Qed.




Lemma weekend_skip_saturday d m :
  date_weekday d = 5 -> 0 <= m < 60 ->
  while 2 weekend_cond weekend_body (dt_combine d 9 m) = Some (dt_combine (d + 2) 9 0).
Proof.
  intros Hd Hm.
  assert (W0 : weekend_cond (dt_combine d 9 m) = true).
  { unfold weekend_cond. rewrite dt_weekday_combine, Hd by lia. done. }
  assert (B0 : weekend_body (dt_combine d 9 m) = dt_combine (d + 1) 9 0).
  { unfold weekend_body. rewrite dt_date_combine; [done | time_arith]. }
  assert (W1 : weekend_cond (dt_combine (d + 1) 9 0) = true).
  { unfold weekend_cond. rewrite dt_weekday_combine by lia.
    replace (date_weekday (d + 1)) with 6 by time_arith. done. }
  assert (B1 : weekend_body (dt_combine (d + 1) 9 0) = dt_combine (d + 2) 9 0).
  { unfold weekend_body. rewrite dt_date_combine; [f_equal; lia | time_arith]. }
  assert (W2 : weekend_cond (dt_combine (d + 2) 9 0) = false).
  { unfold weekend_cond. rewrite dt_weekday_combine by lia.
    replace (date_weekday (d + 2)) with 0 by time_arith. done. }
  cbn [while]. by rewrite W0, B0, W1, B1, W2.
Qed.

(** C3 on the failing input, for every random stream: with one e-mail per day
    and a window from Friday 09:00 to Saturday 17:00, the second of two
    placements starts on Monday 2026-01-05 09:00, two days after the window's
    end date, under the stale batch date of Saturday. *)
Theorem stagger_leaves_window g :
  exists sa1 sa2,
    schedule_email_campaign 2 [1; 2] weekend_end_window 1 15 true g = Returns [sa1; sa2]
    /\ scheduled_start sa1 = dt_combine 739618 9 0
    /\ scheduled_start sa2 = dt_combine 739621 9 0
    /\ batch_id sa2 = Some "email-batch-2026-01-03"
    /\ end_ weekend_end_window < scheduled_start sa2
    /\ dt_date (end_ weekend_end_window) < dt_date (scheduled_start sa2).
Proof.
  unfold schedule_email_campaign.
  change (_next_business_hour 2 (start weekend_end_window) weekend_end_window)
    with (Some (dt_combine 739618 9 0)).
  cbn [email_loop].
  change (dt_date (end_ weekend_end_window) <? dt_date (start weekend_end_window))
    with false. cbn iota.
  change (while 2 weekend_cond weekend_body (dt_combine 739618 9 0))
    with (Some (dt_combine 739618 9 0)).
  cbn iota. change (1 =? 0) with false. change (1 <=? 0 + 1) with true. cbn iota.
  destruct (randint 0 30 g) as [m g1] eqn:R.
  pose proof (randint_range 0 30 g ltac:(lia)) as Hm. rewrite R in Hm. simpl in Hm.
  change (dt_date (end_ weekend_end_window) <? dt_date (start weekend_end_window) + 1)
    with false. cbn iota.
  change (dt_date (start weekend_end_window) + 1) with 739619.
  rewrite (weekend_skip_saturday 739619 m) by (done || lia).
  change (1 <=? 0 + 1) with true. cbn iota.
  destruct (randint 0 30 g1) as [m' g2].
  eexists _, _. split; [reflexivity |].
  split_and!; [done | done | by vm_compute | by vm_compute | by vm_compute].
Qed.

(** ** Float expressions of the strategies *)

Module FloatBounds.
Import Float FloatFacts.
#[local] Open Scope Q_scope.

Lemma inject_Z_nonneg z : (0 <= z)%Z -> 0 <= inject_Z z.
Proof. intros. change 0 with (inject_Z 0). by rewrite <- Zle_Qle. Qed.

Lemma of_int_exact z : (Z.abs z < 2 ^ 53)%Z -> of_int z == inject_Z z.
Proof. apply round53_Z. Qed.

Lemma round53_0 : round53 0 == 0.
Proof. by rewrite round53_zero. Qed.

Lemma round53_nonneg x : 0 <= x -> 0 <= round53 x.
Proof. intros H. rewrite <- round53_0. by apply round53_mono. Qed.

Lemma round53_le_Z x z : (Z.abs z < 2 ^ 53)%Z -> x <= inject_Z z -> round53 x <= inject_Z z.
Proof. intros Hz H. rewrite <- (round53_Z z Hz). by apply round53_mono. Qed.

Lemma round53_ge_Z x z : (Z.abs z < 2 ^ 53)%Z -> inject_Z z <= x -> inject_Z z <= round53 x.
Proof. intros Hz H. rewrite <- (round53_Z z Hz). by apply round53_mono. Qed.

Lemma Qfloor_unique x k : inject_Z k <= x -> x < inject_Z k + 1 -> Qfloor x = k.
Proof.
  intros H1 H2. destruct (floor_bounds x) as [F1 F2].
  assert (inject_Z (Qfloor x) < inject_Z (k + 1)) by (rewrite inject_Z_plus; change (inject_Z 1) with 1; lra).
  assert (inject_Z k < inject_Z (Qfloor x + 1)) by (rewrite inject_Z_plus; change (inject_Z 1) with 1; lra).
  rewrite <- Zlt_Qlt in *. lia.
Qed.

Lemma trunc_nonneg x : 0 <= x -> trunc x = Qfloor x.
Proof. intros H. unfold trunc. apply Qle_bool_iff in H. by rewrite H. Qed.

Lemma trunc_range x lo hi :
  (0 <= lo)%Z -> inject_Z lo <= x -> x <= inject_Z hi -> (lo <= trunc x <= hi)%Z.
Proof.
  intros Hlo H1 H2. pose proof (inject_Z_nonneg lo Hlo).
  rewrite trunc_nonneg by lra. destruct (floor_bounds x) as [F1 F2]. split.
  - rewrite <- (Qfloor_Z lo). by apply Qfloor_resp_le.
  - rewrite <- (Qfloor_Z hi). by apply Qfloor_resp_le.
Qed.

Lemma lit_0_2_value : lit_0_2 == 3602879701896397 # 18014398509481984.
Proof. by vm_compute. Qed.

(** [int(total * 0.2)] is [total // 5] for every list length below 2^50. *)
Lemma tier_count_eq total :
  (0 <= total < 2 ^ 50)%Z -> tier_count total = Z.max 1 (total / 5).
Proof.
  intros Ht. unfold tier_count. f_equal. unfold mul.
  assert (E : round53 (of_int total * lit_0_2)
              == round53 (inject_Z total * (3602879701896397 # 18014398509481984))).
  { rewrite of_int_exact by lia. by rewrite lit_0_2_value. }
  set (k := (total / 5)%Z).
  assert (Hk : (total = 5 * k + total mod 5)%Z) by (unfold k; apply Z.div_mod; lia).
  pose proof (Z.mod_pos_bound total 5 ltac:(lia)) as Hr.
  assert (Hk0 : (0 <= k < 2 ^ 48)%Z) by (unfold k; Z.div_mod_to_equations; lia).
  set (r := (total mod 5)%Z) in *. clearbody k r.
  assert (Ht' : inject_Z total == 5 * inject_Z k + inject_Z r).
  { rewrite Hk, inject_Z_plus, inject_Z_mult. reflexivity. }
  assert (Hr1 : 0 <= inject_Z r) by (apply inject_Z_nonneg; lia).
  assert (Hr2 : inject_Z r <= 4) by (change 4 with (inject_Z 4); rewrite <- Zle_Qle; lia).
  assert (Hk1 : 0 <= inject_Z k) by (apply inject_Z_nonneg; lia).
  assert (Hk2 : inject_Z k <= 281474976710656).
  { change 281474976710656 with (inject_Z (2 ^ 48)). rewrite <- Zle_Qle. lia. }
  assert (Lo : inject_Z k <= round53 (of_int total * lit_0_2)).
  { rewrite E. apply round53_ge_Z; [lia |]. rewrite Ht'. lra. }
  assert (Hi : round53 (of_int total * lit_0_2) <= inject_Z k + (7 # 8)).
  { rewrite E.
    assert (X : inject_Z k + (7 # 8) == inject_Z (8 * k + 7) * pow2 (-3)).
    { rewrite inject_Z_plus, inject_Z_mult. change (pow2 (-3)) with (1 # 8).
      change (inject_Z 8) with 8. change (inject_Z 7) with 7. field. }
    rewrite X, <- (round53_exact (8 * k + 7) (-3)) by lia.
    apply round53_mono. rewrite <- X, Ht'. lra. }
  rewrite trunc_nonneg by lra. apply Qfloor_unique; lra.
Qed.

Lemma ulp_value : pow2 (-53) == 1 # 9007199254740992.
Proof. by vm_compute. Qed.

Lemma inject_Z_bounds z lo hi :
  (lo <= z <= hi)%Z -> inject_Z lo <= inject_Z z /\ inject_Z z <= inject_Z hi.
Proof. intros [? ?]. by rewrite <- !Zle_Qle. Qed.

Lemma inject_Z_succ_le i c : (i < c)%Z -> inject_Z i + 1 <= inject_Z c.
Proof.
  intros H. change 1 with (inject_Z 1). rewrite <- inject_Z_plus, <- Zle_Qle. lia.
Qed.

(** [(w / c) * i] stays within [0, w] for an index [i] below the count [c]. *)
Lemma scaled_index_range w c i :
  (0 < w < 2 ^ 53)%Z -> (1 <= c <= 2 ^ 53)%Z -> (0 <= i < c)%Z ->
  0 <= mul (div_int w c) (of_int i) /\ mul (div_int w c) (of_int i) <= inject_Z w.
Proof.
  intros Hw Hc Hi. unfold mul, div_int.
  assert (Ei : round53 (round53 (inject_Z w / inject_Z c) * of_int i)
               == round53 (round53 (inject_Z w / inject_Z c) * inject_Z i)).
  { by rewrite of_int_exact by lia. }
  rewrite Ei. clear Ei.
  destruct (inject_Z_bounds c 1 (2 ^ 53) ltac:(lia)) as [Hc1 Hc2].
  destruct (inject_Z_bounds i 0 i ltac:(lia)) as [Hi1 _].
  pose proof (inject_Z_succ_le i c ltac:(lia)) as Hi2.
  destruct (inject_Z_bounds w 1 (2 ^ 53) ltac:(lia)) as [Hw1 _].
  change (inject_Z 1) with 1 in *. change (inject_Z 0) with 0 in *.
  change (inject_Z (2 ^ 53)) with 9007199254740992 in *.
  set (cq := inject_Z c) in *. set (iq := inject_Z i) in *. set (wq := inject_Z w) in *.
  set (x := wq / cq).
  assert (Hx : x * cq == wq) by (unfold x; field; lra).
  assert (Hx0 : 0 <= x) by nra.
  destruct (round53_err x Hx0) as [_ Hq]. rewrite ulp_value in Hq.
  pose proof (round53_nonneg x Hx0) as Hq0.
  set (q := round53 x) in *.
  assert (Hxu : wq * (1 # 9007199254740992) <= x) by nra.
  split.
  - apply round53_nonneg. nra.
  - apply round53_le_Z; [lia |]. fold wq.
    assert (0 <= (x + x * (1 # 9007199254740992) - q) * iq)
      by (apply Qmult_le_0_compat; lra).
    assert (0 <= (x + x * (1 # 9007199254740992)) * (cq - 1 - iq))
      by (apply Qmult_le_0_compat; lra).
    lra.
Qed.

Lemma linear_offset_range count i :
  (1 <= count < 2 ^ 53)%Z -> (0 <= i < count)%Z ->
  (0 <= linear_offset count i <= 14)%Z.
Proof.
  intros Hc Hi. unfold linear_offset. rewrite Z.max_l by lia.
  destruct (scaled_index_range 14 count i ltac:(lia) ltac:(lia) Hi) as [H0 H14].
  apply trunc_range; [lia | exact H0 | exact H14].
Qed.

Lemma unit_fraction rc i :
  (0 <= i < rc)%Z ->
  0 <= sqr (div_int i (Z.max (rc - 1) 1)) /\ sqr (div_int i (Z.max (rc - 1) 1)) <= 1.
Proof.
  intros Hi. unfold sqr, div_int. set (d := Z.max (rc - 1) 1).
  destruct (inject_Z_bounds i 0 d ltac:(lia)) as [Hi1 Hi2].
  destruct (inject_Z_bounds d 1 d ltac:(lia)) as [Hd1 _].
  change (inject_Z 1) with 1 in *. change (inject_Z 0) with 0 in *.
  set (dq := inject_Z d) in *. set (iq := inject_Z i) in *.
  set (y := iq / dq).
  assert (Hy : y * dq == iq) by (unfold y; field; lra).
  assert (Hy0 : 0 <= y) by nra.
  assert (Hy1 : y <= 1) by nra.
  pose proof (round53_nonneg y Hy0) as F0.
  pose proof (round53_le_Z y 1 ltac:(lia) Hy1) as F1. change (inject_Z 1) with 1 in F1.
  set (f := round53 y) in *.
  split.
  - apply round53_nonneg. nra.
  - apply (round53_le_Z _ 1); [lia |]. change (inject_Z 1) with 1. nra.
Qed.

(** The quadratic ramp stays within the ramp window: [-1 to stay before
    deadline]. *)
Lemma quadratic_offset_range rc rud i :
  (0 <= i < rc)%Z -> (1 <= rud < 2 ^ 53)%Z ->
  (0 <= quadratic_offset rc rud i <= rud - 1)%Z.
Proof.
  intros Hi Hr. unfold quadratic_offset.
  destruct (unit_fraction rc i Hi) as [F0 F1].
  set (fr := sqr (div_int i (Z.max (rc - 1) 1))) in *.
  destruct (inject_Z_bounds (rud - 1) 0 (rud - 1) ltac:(lia)) as [Hm0 _].
  change (inject_Z 0) with 0 in *.
  assert (Em : mul fr (of_int (rud - 1)) == round53 (fr * inject_Z (rud - 1))).
  { unfold mul. by rewrite of_int_exact by lia. }
  apply trunc_range; [lia | |]; rewrite Em.
  - change (inject_Z 0) with 0. apply round53_nonneg. nra.
  - apply round53_le_Z; [lia |]. nra.
Qed.

Lemma quadratic_offset_first rc rud : quadratic_offset rc rud 0 = 0%Z.
Proof.
  unfold quadratic_offset, sqr, div_int, mul.
  assert (E0 : round53 (inject_Z 0 / inject_Z (Z.max (rc - 1) 1)) = 0).
  { apply round53_zero. unfold Qdiv. change (inject_Z 0) with 0. ring. }
  rewrite E0. rewrite (round53_zero (0 * 0)) by ring.
  rewrite round53_zero by ring. reflexivity.
Qed.

Lemma burst_offset_range w n i :
  (0 < w < 2 ^ 53)%Z -> (1 <= n <= 2 ^ 53)%Z -> (0 <= i < n)%Z ->
  (0 <= timedelta_minutes_float (mul (div_int w n) (of_int i)) <= w * us_per_minute)%Z.
Proof.
  intros Hw Hn Hi.
  destruct (scaled_index_range w n i Hw Hn Hi) as [X0 X1].
  set (x := mul (div_int w n) (of_int i)) in *.
  unfold timedelta_minutes_float.
  pose proof (trunc_range x 0 w ltac:(lia) X0 X1) as Hip.
  rewrite trunc_nonneg in * by exact X0.
  destruct (floor_bounds x) as [F1 F2].
  set (ip := Qfloor x) in *.
  set (fp := x - inject_Z ip).
  set (y := mul (inject_Z us_per_minute) fp).
  assert (Y0 : 0 <= y).
  { unfold y, mul. apply round53_nonneg. change (inject_Z us_per_minute) with 60000000.
    unfold fp. lra. }
  assert (Hsum : inject_Z (ip * us_per_minute) + y <= inject_Z (w * us_per_minute)).
  { rewrite !inject_Z_mult. change (inject_Z us_per_minute) with 60000000.
    destruct (Z.eq_dec ip w) as [-> | Hne].
    - assert (y <= 0); [| lra].
      unfold y, mul. rewrite <- round53_0. apply round53_mono.
      change (inject_Z us_per_minute) with 60000000. unfold fp. lra.
    - assert (y <= 60000000).
      { unfold y, mul. apply (round53_le_Z _ 60000000); [by vm_compute |].
        change (inject_Z us_per_minute) with 60000000.
        change (inject_Z 60000000) with 60000000. unfold fp. lra. }
      pose proof (inject_Z_succ_le ip w ltac:(lia)) as Hip2. lra. }
  split.
  - rewrite <- (rne_Z 0). apply rne_mono.
    destruct (inject_Z_bounds (ip * us_per_minute) 0 (ip * us_per_minute) ltac:(unfold us_per_minute; lia)) as [H _].
    change (inject_Z 0) with 0 in *. lra.
  - rewrite <- (rne_Z (w * us_per_minute)). by apply rne_mono.
Qed.

(** The microsecond offset of burst post [i] is within one microsecond of
    the exact [i * (w / n)] minutes. *)
Lemma burst_offset_exact w n i :
  (0 < w <= 30)%Z -> (1 <= n <= 2 ^ 53)%Z -> (0 <= i < n)%Z ->
  (Z.abs (timedelta_minutes_float (mul (div_int w n) (of_int i)) * n
          - w * us_per_minute * i) < n)%Z.
Proof.
  intros Hw Hn Hi.
  destruct (scaled_index_range w n i ltac:(lia) Hn Hi) as [X0 _].
  assert (Ei : mul (div_int w n) (of_int i)
               = round53 (round53 (inject_Z w / inject_Z n) * inject_Z i)).
  { unfold mul, div_int. apply round53_eq. by rewrite of_int_exact by lia. }
  rewrite Ei in *. clear Ei. unfold timedelta_minutes_float, mul.
  destruct (inject_Z_bounds n 1 (2 ^ 53) ltac:(lia)) as [Hc1 Hc2].
  destruct (inject_Z_bounds i 0 i ltac:(lia)) as [Hi1 _].
  pose proof (inject_Z_succ_le i n ltac:(lia)) as Hi2.
  destruct (inject_Z_bounds w 1 30 ltac:(lia)) as [Hw1 Hw2].
  change (inject_Z 1) with 1 in *. change (inject_Z 0) with 0 in *.
  change (inject_Z 30) with 30 in *.
  change (inject_Z (2 ^ 53)) with 9007199254740992 in *.
  set (cq := inject_Z n) in *. set (iq := inject_Z i) in *. set (wq := inject_Z w) in *.
  set (t := wq / cq) in *.
  assert (Ht : t * cq == wq) by (unfold t; field; lra).
  assert (Ht0 : 0 <= t) by nra.
  destruct (round53_err t Ht0) as [Q1 Q2]. rewrite ulp_value in Q1, Q2.
  pose proof (round53_nonneg t Ht0) as Q0.
  set (q := round53 t) in *.
  set (T := t * iq).
  assert (T0 : 0 <= T) by (apply Qmult_le_0_compat; lra).
  assert (T1 : T <= 30).
  { assert (0 <= t * (cq - iq)) by (apply Qmult_le_0_compat; lra). unfold T. lra. }
  assert (P0 : 0 <= q * iq) by (apply Qmult_le_0_compat; lra).
  assert (P1 : T - T * (1 # 9007199254740992) <= q * iq).
  { assert (0 <= (q - (t - t * (1 # 9007199254740992))) * iq)
      by (apply Qmult_le_0_compat; lra). unfold T. lra. }
  assert (P2 : q * iq <= T + T * (1 # 9007199254740992)).
  { assert (0 <= (t + t * (1 # 9007199254740992) - q) * iq)
      by (apply Qmult_le_0_compat; lra). unfold T. lra. }
  destruct (round53_err (q * iq) P0) as [R1 R2]. rewrite ulp_value in R1, R2.
  set (X := round53 (q * iq)) in *.
  rewrite trunc_nonneg by exact X0.
  destruct (floor_bounds X) as [F1 F2].
  set (ip := Qfloor X) in *.
  assert (Y0 : 0 <= inject_Z us_per_minute * (X - inject_Z ip)).
  { change (inject_Z us_per_minute) with 60000000. lra. }
  destruct (round53_err _ Y0) as [Y1 Y2]. rewrite ulp_value in Y1, Y2.
  set (Y := round53 (inject_Z us_per_minute * (X - inject_Z ip))) in *.
  pose proof (rne_err (inject_Z (ip * us_per_minute) + Y)) as [S1 S2].
  set (td := rne (inject_Z (ip * us_per_minute) + Y)) in *.
  rewrite inject_Z_mult in S1, S2.
  change (inject_Z us_per_minute) with 60000000 in *.
  assert (D1 : inject_Z td - 60000000 * T < 1) by lra.
  assert (D2 : -1 < inject_Z td - 60000000 * T) by lra.
  assert (G : - cq < inject_Z td * cq - wq * 60000000 * iq
              /\ inject_Z td * cq - wq * 60000000 * iq < cq).
  { assert (E : inject_Z td * cq - wq * 60000000 * iq
                == (inject_Z td - 60000000 * T) * cq).
    { unfold T. rewrite <- Ht. ring. }
    rewrite E. split; nra. }
  assert (EZ : inject_Z (td * n - w * us_per_minute * i)
               == inject_Z td * cq - wq * 60000000 * iq).
  { unfold Z.sub. rewrite inject_Z_plus, inject_Z_opp, !inject_Z_mult.
    change (inject_Z us_per_minute) with 60000000. unfold cq, wq, iq. ring. }
  rewrite <- EZ in G. destruct G as [G1 G2]. unfold cq in G1, G2.
  rewrite <- inject_Z_opp in G1. rewrite <- Zlt_Qlt in G1, G2. lia.
Qed.
End FloatBounds.

(** ** RampStrategy *)

Lemma py_getitem_lookup (l : list Z) (i : Z) :
  0 <= i -> py_getitem l i = l !! Z.to_nat i.
Proof.
  intros Hi. unfold py_getitem.
  destruct (Z.ltb_spec i 0) as [? | _]; [lia |].
  destruct (Z.ltb_spec i 0) as [? | _]; [lia | done].
Qed.

Section TierLoop.
Variables (action_ids : list Z) (body : Z -> ramp_state -> outcome ramp_state).
Variable R : Z -> ScheduledAction -> Prop.
Hypothesis body_places : forall i scheduled idx g a,
  py_getitem action_ids idx = Some a ->
  exists sa g', body i (scheduled, idx, g) = Returns (scheduled ++ [sa], idx + 1, g')
                /\ action_id sa = a /\ R i sa.

(** A tier loop of [n] iterations that starts at list index [idx] places the
    next [n] action ids, in order, one placement each. *)
Lemma tier_loop n : forall i scheduled idx g,
  0 <= idx -> idx + Z.of_nat n <= Z.of_nat (length action_ids) ->
  exists seg g',
    for_range n i body (scheduled, idx, g)
      = Returns (scheduled ++ seg, idx + Z.of_nat n, g')
    /\ action_id <$> seg = take n (drop (Z.to_nat idx) action_ids)
    /\ Forall2 R (seqZ i (Z.of_nat n)) seg.
Proof.
  induction n as [| n IH]; intros i scheduled idx g Hidx Hlen; cbn [for_range].
  - exists [], g. rewrite app_nil_r, Z.add_0_r. split_and!; [done | done | constructor].
  - destruct (lookup_lt_is_Some_2 action_ids (Z.to_nat idx) ltac:(lia)) as [a Ha].
    destruct (body_places i scheduled idx g a) as (sa & g1 & -> & Hid & HR).
    { by rewrite py_getitem_lookup. }
    destruct (IH (i + 1) (scheduled ++ [sa]) (idx + 1) g1 ltac:(lia) ltac:(lia))
      as (seg & g' & -> & Hids & HRs).
    exists (sa :: seg), g'. rewrite <- app_assoc. split_and!.
    + do 3 f_equal. lia.
    + rewrite fmap_cons, Hid, Hids, (drop_S _ _ _ Ha). cbn [take]. do 3 f_equal. lia.
    + rewrite seqZ_cons by lia. constructor; [done |].
      replace (Z.succ i) with (i + 1) by lia.
      by replace (Z.pred (Z.of_nat (S n))) with (Z.of_nat n) by lia.
Qed.
End TierLoop.

Lemma early_body_places action_ids campaign_start early_count i scheduled idx g a :
  py_getitem action_ids idx = Some a ->
  exists sa g',
    early_body action_ids campaign_start early_count i (scheduled, idx, g)
      = Returns (scheduled ++ [sa], idx + 1, g')
    /\ action_id sa = a /\ early_placed campaign_start early_count i sa.
Proof. intros H. unfold early_body. rewrite H. by eexists _, _. Qed.

Lemma middle_body_places action_ids middle_start middle_count i scheduled idx g a :
  py_getitem action_ids idx = Some a ->
  exists sa g',
    middle_body action_ids middle_start middle_count i (scheduled, idx, g)
      = Returns (scheduled ++ [sa], idx + 1, g')
    /\ action_id sa = a /\ middle_placed middle_start middle_count i sa.
Proof. intros H. unfold middle_body. rewrite H. by eexists _, _. Qed.

Lemma rampup_body_places action_ids ramp_start ramp_count ramp_up_days i scheduled idx g a :
  py_getitem action_ids idx = Some a ->
  exists sa g',
    rampup_body action_ids ramp_start ramp_count ramp_up_days i (scheduled, idx, g)
      = Returns (scheduled ++ [sa], idx + 1, g')
    /\ action_id sa = a /\ rampup_placed ramp_start ramp_count ramp_up_days i sa.
Proof.
  intros H. unfold rampup_body.
  pose proof (randint_range 9 16 g ltac:(lia)) as Hh.
  destruct (randint 9 16 g) as [h g']. rewrite H. eexists _, _.
  split_and!; [done | done |]. split; [done |]. by exists h.
Qed.

(** The three tiers of a call on at least two action ids: the call returns,
    the tiers have [c], [c] and [total - 2c] placements for
    [c = tier_count total], and their action ids are the input, in order. *)
Lemma comment_period_tiers action_ids comment_deadline ramp_up_days g :
  let total := Z.of_nat (length action_ids) in
  let c := tier_count total in
  let campaign_start := comment_deadline - timedelta 6 0 0 0 in
  2 <= total -> 2 * c <= total ->
  exists early middle ramp,
    schedule_comment_period action_ids comment_deadline ramp_up_days g
      = Returns (early ++ middle ++ ramp)
    /\ action_id <$> (early ++ middle ++ ramp) = action_ids
    /\ Forall2 (early_placed campaign_start c) (seqZ 0 c) early
    /\ Forall2 (middle_placed (campaign_start + timedelta 2 0 0 0) c) (seqZ 0 c) middle
    /\ Forall2 (rampup_placed (comment_deadline - timedelta 0 ramp_up_days 0 0)
                  (total - c - c) ramp_up_days) (seqZ 0 (total - c - c)) ramp.
Proof.
  intros total c campaign_start Htotal Hc.
  assert (Hc1 : 1 <= c) by (unfold c, tier_count; lia).
  unfold schedule_comment_period. fold total.
  destruct (Z.eqb_spec total 0) as [? | _]; [lia |]. fold c. fold campaign_start.
  destruct (tier_loop action_ids (early_body action_ids campaign_start c) _
              (early_body_places action_ids campaign_start c)
              (Z.to_nat c) 0 [] 0 g ltac:(lia) ltac:(fold total; lia))
    as (early & g1 & -> & Hid1 & HR1).
  cbn [bind].
  destruct (tier_loop action_ids
              (middle_body action_ids (campaign_start + timedelta 2 0 0 0) c) _
              (middle_body_places action_ids (campaign_start + timedelta 2 0 0 0) c)
              (Z.to_nat c) 0 ([] ++ early) (0 + Z.of_nat (Z.to_nat c)) g1
              ltac:(lia) ltac:(fold total; lia))
    as (middle & g2 & -> & Hid2 & HR2).
  cbn [bind].
  destruct (tier_loop action_ids
              (rampup_body action_ids (comment_deadline - timedelta 0 ramp_up_days 0 0)
                 (total - c - c) ramp_up_days) _
              (rampup_body_places action_ids
                 (comment_deadline - timedelta 0 ramp_up_days 0 0)
                 (total - c - c) ramp_up_days)
              (Z.to_nat (total - c - c)) 0 (([] ++ early) ++ middle)
              (0 + Z.of_nat (Z.to_nat c) + Z.of_nat (Z.to_nat c)) g2
              ltac:(lia) ltac:(fold total; lia))
    as (ramp & g3 & -> & Hid3 & HR3).
  cbn [bind fst]. exists early, middle, ramp.
  rewrite !Z2Nat.id in * by lia.
  split_and!; [by rewrite app_nil_l, <- app_assoc | | done | done | done].
  rewrite !fmap_app, Hid1, Hid2, Hid3.
  replace (Z.to_nat (0 + c)) with (Z.to_nat c) by lia.
  replace (Z.to_nat (0 + c + c)) with (Z.to_nat c + Z.to_nat c)%nat by lia.
  change (Z.to_nat 0) with 0%nat. rewrite drop_0.
  rewrite <- (drop_drop action_ids (Z.to_nat c) (Z.to_nat c)).
  rewrite take_take_drop, take_take_drop. apply take_ge. lia.
Qed.

Lemma Forall2_seqZ_Forall {A} (R : Z -> A -> Prop) (Q : A -> Prop) lo n l :
  Forall2 R (seqZ lo n) l ->
  (forall i x, lo <= i < lo + n -> R i x -> Q x) ->
  Forall Q l.
Proof.
  intros HR HQ. eapply Forall2_Forall_r; [exact HR |].
  apply Forall_forall. intros i Hi x. apply HQ. by apply elem_of_seqZ in Hi.
Qed.

Lemma Forall2_seqZ_length {A} (R : Z -> A -> Prop) lo n l :
  0 <= n -> Forall2 R (seqZ lo n) l -> Z.of_nat (length l) = n.
Proof. intros Hn HR. apply Forall2_length in HR. rewrite length_seqZ in HR. lia. Qed.

Lemma tier_count_fits total :
  2 <= total < 2 ^ 50 ->
  tier_count total = Z.max 1 (total / 5) /\ 1 <= tier_count total < 2 ^ 53
  /\ 2 * tier_count total <= total.
Proof.
  intros Ht. rewrite (FloatBounds.tier_count_eq total) by lia.
  split; [done |]. Z.div_mod_to_equations. lia.
Qed.

(** A single action id: both the early and the middle tier are floored to
    one placement, and the middle tier indexes past the end of the list. *)
Lemma comment_period_single_action_raises a comment_deadline ramp_up_days g :
  schedule_comment_period [a] comment_deadline ramp_up_days g = Raises IndexError.
Proof. reflexivity. Qed.




(** With [ramp_up_days <= 0] and at least three action ids the call returns,
    and the first placement of the ramp tier starts after the deadline. *)
Lemma comment_period_nonpositive_ramp action_ids comment_deadline ramp_up_days g :
  3 <= Z.of_nat (length action_ids) < 2 ^ 50 -> ramp_up_days <= 0 ->
  exists early middle sa ramp,
    schedule_comment_period action_ids comment_deadline ramp_up_days g
      = Returns (early ++ middle ++ sa :: ramp)
    /\ action_id <$> (early ++ middle ++ sa :: ramp) = action_ids
    /\ batch_id sa = Some "comment-rampup"
    /\ comment_deadline < scheduled_start sa.
Proof.
  intros Htotal Hrud.
  destruct (tier_count_fits (Z.of_nat (length action_ids)) ltac:(lia)) as (Ec & Hc & H2c).
  destruct (comment_period_tiers action_ids comment_deadline ramp_up_days g
              ltac:(lia) H2c) as (early & middle & ramp & E & Hids & _ & _ & HR3).
  set (total := Z.of_nat (length action_ids)) in *.
  set (c := tier_count total) in *.
  assert (Hrc : 1 <= total - c - c).
  { rewrite Ec. unfold total. Z.div_mod_to_equations. lia. }
  rewrite seqZ_cons in HR3 by lia.
  apply Forall2_cons_inv_l in HR3 as (sa & ramp' & (Hb & h & Hh & Hs) & _ & ->).
  exists early, middle, sa, ramp'. split_and!; [done | done | done |].
  rewrite Hs, FloatBounds.quadratic_offset_first.
  unfold timedelta, us_per_day, us_per_hour, us_per_minute. lia.
Qed.

(** ** Degenerate parameters *)




(** ** Phase ordering *)

Lemma dt_date_lt a b : dt_date a < dt_date b -> a < b.
Proof. time_arith. Qed.

Lemma in_days_date ph lo n sa :
  in_days ph lo n sa -> lo <= dt_date (scheduled_start sa) < lo + n.
Proof. intros (d & Hd & _ & Hon). by rewrite (on_day_date _ _ _ Hon). Qed.

Lemma segments_not_before actions_per_phase phases : forall phase_start segs seg sb,
  Forall (fun ph => 0 <= duration_weeks ph) phases ->
  segments_ok actions_per_phase phase_start phases segs ->
  seg ∈ segs -> sb ∈ seg -> phase_start <= dt_date (scheduled_start sb).
Proof.
  induction phases as [| ph rest IH]; intros phase_start [| seg0 segs] seg sb Hdw Hok Hseg Hsb;
    cbn [segments_ok] in Hok; try done.
  - by apply elem_of_nil in Hseg.
  - destruct Hok as (Hin & _ & _ & _ & Hrest).
    apply Forall_cons in Hdw as [Hdw0 Hdw].
    apply elem_of_cons in Hseg as [-> | Hseg].
    + rewrite Forall_forall in Hin. pose proof (in_days_date _ _ _ _ (Hin sb Hsb)). lia.
    + pose proof (IH _ _ _ _ Hdw Hrest Hseg Hsb). lia.
Qed.

Lemma segments_in_order actions_per_phase phases : forall phase_start segs i j seg_i seg_j sa sb,
  Forall (fun ph => 1 <= duration_weeks ph) phases ->
  segments_ok actions_per_phase phase_start phases segs ->
  (i < j)%nat -> segs !! i = Some seg_i -> segs !! j = Some seg_j ->
  sa ∈ seg_i -> sb ∈ seg_j ->
  scheduled_start sa < scheduled_start sb.
Proof.
  induction phases as [| ph rest IH];
    intros phase_start [| seg0 segs] i j seg_i seg_j sa sb Hdw Hok Hij Hi Hj Hsa Hsb;
    cbn [segments_ok] in Hok; try done.
  destruct Hok as (Hin & _ & _ & _ & Hrest).
  apply Forall_cons in Hdw as [Hdw0 Hdw].
  destruct j as [| j]; [lia |]. cbn in Hj.
  destruct i as [| i]; cbn in Hi.
  - injection Hi as <-. apply dt_date_lt.
    rewrite Forall_forall in Hin. pose proof (in_days_date _ _ _ _ (Hin sa Hsa)).
    assert (Hnn : Forall (fun ph => 0 <= duration_weeks ph) rest).
    { eapply Forall_impl; [exact Hdw |]. intros ? ?. simpl in *. lia. }
    pose proof (segments_not_before _ _ _ _ seg_j sb Hnn Hrest
                  ltac:(by eapply list_elem_of_lookup_2) Hsb).
    lia.
  - eapply (IH _ _ i j); eauto. lia.
Qed.

(** C6, as stated, fails: phase 1 lasts zero weeks and has two actions, phase
    2 has one; all three are placed on Monday 2026-03-02, the second action
    of phase 1 at 10:00 and the action of phase 2 at 09:00. *)
Lemma zero_week_phase_overlaps :
  exists sa sb,
    sa ∈ schedule_escalation_sequence zero_week_phases 739677
           {[ 1 := [1; 2]; 2 := [3] ]} rng_zero
    /\ sb ∈ schedule_escalation_sequence zero_week_phases 739677
             {[ 1 := [1; 2]; 2 := [3] ]} rng_zero
    /\ priority sa = 1 /\ priority sb = 2
    /\ scheduled_start sb < scheduled_start sa.
Proof.
  set (l := schedule_escalation_sequence zero_week_phases 739677
              {[ 1 := [1; 2]; 2 := [3] ]} rng_zero).
  destruct (l !! 1%nat) as [sa |] eqn:Ea; [| by vm_compute in Ea].
  destruct (l !! 2%nat) as [sb |] eqn:Eb; [| by vm_compute in Eb].
  exists sa, sb.
  split; [by eapply list_elem_of_lookup_2 |]. split; [by eapply list_elem_of_lookup_2 |].
  vm_compute in Ea, Eb. injection Ea as <-. injection Eb as <-. by vm_compute.
Qed.

Lemma elem_of_concat_lookup {A} (x : A) (ls : list (list A)) :
  x ∈ concat ls -> exists i l, ls !! i = Some l /\ x ∈ l.
Proof.
  induction ls as [| l ls IH]; cbn [concat]; [by intros ?%elem_of_nil |].
  intros [H | H]%elem_of_app.
  - by exists 0%nat, l.
  - destruct (IH H) as (i & l' & Hi & Hx). by exists (S i), l'.
Qed.

Lemma segments_priority actions_per_phase phases : forall phase_start segs i seg sa,
  segments_ok actions_per_phase phase_start phases segs ->
  segs !! i = Some seg -> sa ∈ seg ->
  exists ph, phases !! i = Some ph /\ priority sa = phase ph.
Proof.
  induction phases as [| ph rest IH]; intros phase_start [| seg0 segs] i seg sa Hok Hi Hsa;
    cbn [segments_ok] in Hok; try done.
  destruct Hok as (Hin & _ & _ & _ & Hrest). destruct i as [| i]; cbn in Hi.
  - injection Hi as ->. exists ph. split; [done |].
    rewrite Forall_forall in Hin. by destruct (Hin sa Hsa) as (d & _ & _ & ? & _).
  - by eapply IH.
Qed.

Lemma ascending_lookup (phases : list Phase) : forall i j p q,
  StronglySorted (fun p q => phase p < phase q) phases ->
  (i < j)%nat -> phases !! i = Some p -> phases !! j = Some q -> phase p < phase q.
Proof.
  induction phases as [| ph rest IH]; intros i j p q Hs Hij Hi Hj; [done |].
  apply StronglySorted_inv in Hs as [Hs Hall].
  destruct j as [| j]; [lia |]. cbn in Hj. destruct i as [| i]; cbn in Hi.
  - injection Hi as <-. rewrite Forall_forall in Hall.
    apply Hall. by eapply list_elem_of_lookup_2.
  - eapply (IH i j); eauto. lia.
Qed.

(** C6 (amended): when every phase lasts at least one week, the output is the
    concatenation of one segment of placements per phase, in phase order, and
    for any two phases at positions [i < j] every placement of phase [i]
    starts strictly before every placement of phase [j]; so the latest start
    of phase [i] is before the earliest start of phase [j].  For ascending
    phase numbers, which every placement carries as its priority: a placement
    of a lower phase number starts before any placement of a higher one. *)
Theorem phases_in_order phases campaign_start actions_per_phase g :
  Forall (fun ph => 1 <= duration_weeks ph) phases ->
  (exists segs,
     schedule_escalation_sequence phases campaign_start actions_per_phase g = concat segs
     /\ segments_ok actions_per_phase campaign_start phases segs
     /\ forall i j seg_i seg_j sa sb,
          (i < j)%nat -> segs !! i = Some seg_i -> segs !! j = Some seg_j ->
          sa ∈ seg_i -> sb ∈ seg_j ->
          scheduled_start sa < scheduled_start sb)
  /\ (StronglySorted (fun p q => phase p < phase q) phases ->
      forall sa sb,
        sa ∈ schedule_escalation_sequence phases campaign_start actions_per_phase g ->
        sb ∈ schedule_escalation_sequence phases campaign_start actions_per_phase g ->
        priority sa < priority sb ->
        scheduled_start sa < scheduled_start sb).
Proof.
  intros Hdw.
  destruct (escalation_segments phases campaign_start actions_per_phase g)
    as (segs & E & Hok).
  assert (Hord : forall i j seg_i seg_j sa sb,
            (i < j)%nat -> segs !! i = Some seg_i -> segs !! j = Some seg_j ->
            sa ∈ seg_i -> sb ∈ seg_j -> scheduled_start sa < scheduled_start sb).
  { intros i j seg_i seg_j sa sb. by eapply segments_in_order. }
  split; [by exists segs |].
  intros Hsorted sa sb Hsa Hsb Hprio. rewrite E in Hsa, Hsb.
  apply elem_of_concat_lookup in Hsa as (i & seg_i & Hi & Hsa).
  apply elem_of_concat_lookup in Hsb as (j & seg_j & Hj & Hsb).
  destruct (segments_priority _ _ _ _ _ _ _ Hok Hi Hsa) as (p & Hp & Ep).
  destruct (segments_priority _ _ _ _ _ _ _ Hok Hj Hsb) as (q & Hq & Eq).
  destruct (lt_eq_lt_dec i j) as [[Hlt | ->] | Hgt].
  - by eapply Hord.
  - rewrite Hp in Hq. injection Hq as ->. lia.
  - pose proof (ascending_lookup phases j i q p Hsorted Hgt Hq Hp). lia.
Qed.

Lemma phases_in_order_witness :
  exists sa sb,
    schedule_escalation_sequence two_phases 739677
      {[ 1 := seqZ 1 5; 2 := seqZ 6 10 ]} rng_zero !! 4%nat = Some sa
    /\ schedule_escalation_sequence two_phases 739677
         {[ 1 := seqZ 1 5; 2 := seqZ 6 10 ]} rng_zero !! 5%nat = Some sb
    /\ priority sa = 1 /\ priority sb = 2
    /\ scheduled_start sa < scheduled_start sb.
Proof.
  set (l := schedule_escalation_sequence two_phases 739677
              {[ 1 := seqZ 1 5; 2 := seqZ 6 10 ]} rng_zero).
  destruct (l !! 4%nat) as [sa |] eqn:Ea; [| by vm_compute in Ea].
  destruct (l !! 5%nat) as [sb |] eqn:Eb; [| by vm_compute in Eb].
  assert (Pa : priority sa = 1).
  { vm_compute in Ea. by injection Ea as <-. }
  assert (Pb : priority sb = 2).
  { vm_compute in Eb. by injection Eb as <-. }
  exists sa, sb. split_and!; [done | done | done | done |].
  apply (phases_in_order two_phases 739677 {[ 1 := seqZ 1 5; 2 := seqZ 6 10 ]} rng_zero).
  - repeat constructor; simpl; lia.
  - repeat constructor; simpl; lia.
  - by eapply list_elem_of_lookup_2.
  - by eapply list_elem_of_lookup_2.
  - lia.
Defined.

(** ** BurstStrategy *)

Lemma burst_loop_spec burst_time burst_start interval ids : forall i scheduled,
  exists seg,
    burst_loop burst_time burst_start interval i ids scheduled = scheduled ++ seg
    /\ action_id <$> seg = ids
    /\ Forall2 (burst_placed burst_time burst_start interval)
         (seqZ i (Z.of_nat (length ids))) seg.
Proof.
  induction ids as [| a rest IH]; intros i scheduled; cbn [burst_loop].
  - exists []. rewrite app_nil_r. split_and!; [done | done | constructor].
  - destruct (IH (i + 1) (scheduled ++ [burst_action a burst_time
        (burst_start + timedelta_minutes_float (Float.mul interval (Float.of_int i)))]))
      as (seg & -> & Hids & HR).
    eexists (_ :: seg). rewrite <- app_assoc. split_and!; [done | by rewrite fmap_cons, Hids |].
    rewrite seqZ_cons by (cbn [length]; lia). constructor; [done |].
    replace (Z.succ i) with (i + 1) by lia.
    by replace (Z.pred (Z.of_nat (length (a :: rest)))) with (Z.of_nat (length rest))
      by (cbn [length]; lia).
Qed.

Lemma window_minutes_values platform :
  default 15 (platform_windows !! platform) ∈ [10; 15; 20; 30].
Proof.
  unfold platform_windows. cbn [list_to_map foldr uncurry fst snd].
  destruct (decide (platform = "twitter")) as [-> | N1]; [by vm_compute; set_solver |].
  rewrite lookup_insert_ne by done.
  destruct (decide (platform = "instagram")) as [-> | N2]; [by vm_compute; set_solver |].
  rewrite lookup_insert_ne by done.
  destruct (decide (platform = "tiktok")) as [-> | N3]; [by vm_compute; set_solver |].
  rewrite lookup_insert_ne by done.
  destruct (decide (platform = "linkedin")) as [-> | N4]; [by vm_compute; set_solver |].
  rewrite lookup_insert_ne by done. rewrite lookup_empty. set_solver.
Qed.

(** C5, as stated, fails: with [pre_burst_minutes = 60] the single twitter
    post is placed a full hour before the anchor, outside the 10-minute
    window; and the second of seven tiktok posts is placed at a whole
    microsecond, not at exactly 20/7 minutes from the burst start. *)
Lemma early_burst_outside_window :
  (exists sa, schedule_social_burst [1] thursday_19 60 "twitter" !! 0%nat = Some sa
              /\ 10 * us_per_minute < Z.abs (scheduled_start sa - thursday_19))
  /\ (exists sa, schedule_social_burst (seqZ 1 7) thursday_19 5 "tiktok" !! 1%nat = Some sa
                 /\ (scheduled_start sa - (thursday_19 - 5 * us_per_minute)) * 7
                    <> 1 * 20 * us_per_minute).
Proof.
  split.
  - destruct (schedule_social_burst [1] thursday_19 60 "twitter" !! 0%nat)
      as [sa |] eqn:E; [| by vm_compute in E].
    exists sa. split; [done |]. vm_compute in E. injection E as <-. by vm_compute.
  - destruct (schedule_social_burst (seqZ 1 7) thursday_19 5 "tiktok" !! 1%nat)
      as [sa |] eqn:E; [| by vm_compute in E].
    exists sa. split; [done |]. vm_compute in E. injection E as <-. by vm_compute.
Qed.

(** C5 (amended): for every list of [n >= 1] action ids (at most 2^53),
    anchor, [pre_burst_minutes] and platform of window length [w] minutes
    (10 twitter, 15 instagram, 20 tiktok, 30 linkedin, 15 otherwise),
    [schedule_social_burst] returns one placement per action id, in order,
    each with priority 1 and the batch id ["social-burst-" + anchor.isoformat()];
    the [i]-th placement (0-based) starts within one microsecond of
    [anchor - pre_burst_minutes + i * (w / n)] minutes and inside
    [burst start, burst start + w minutes]; and when
    [0 <= pre_burst_minutes <= w] every placement satisfies
    [|scheduled_start - anchor| <= w] minutes. *)
Theorem social_burst_placements action_ids burst_time pre_burst_minutes platform :
  let n := Z.of_nat (length action_ids) in
  let w := default 15 (platform_windows !! platform) in
  let burst_start := burst_time - pre_burst_minutes * us_per_minute in
  let l := schedule_social_burst action_ids burst_time pre_burst_minutes platform in
  1 <= n <= 2 ^ 53 ->
  platform_windows !! "twitter" = Some 10
  /\ platform_windows !! "instagram" = Some 15
  /\ platform_windows !! "tiktok" = Some 20
  /\ platform_windows !! "linkedin" = Some 30
  /\ action_id <$> l = action_ids
  /\ Forall (fun sa => priority sa = 1
                       /\ batch_id sa = Some ("social-burst-" +:+ dt_isoformat burst_time)) l
  /\ (forall (i : nat) sa, l !! i = Some sa ->
        Z.abs ((scheduled_start sa - burst_start) * n - Z.of_nat i * w * us_per_minute) < n
        /\ burst_start <= scheduled_start sa <= burst_start + w * us_per_minute)
  /\ (0 <= pre_burst_minutes <= w ->
      Forall (fun sa => Z.abs (scheduled_start sa - burst_time) <= w * us_per_minute) l).
Proof.
  intros n w burst_start l Hn.
  assert (Hw : 0 < w <= 30).
  { pose proof (window_minutes_values platform) as H. fold w in H.
    repeat (apply elem_of_cons in H as [-> | H]; [lia |]). by apply elem_of_nil in H. }
  unfold l, schedule_social_burst. fold w. fold n.
  replace (burst_time - timedelta 0 0 0 pre_burst_minutes) with burst_start
    by (unfold burst_start, timedelta; lia).
  rewrite Z.max_l by lia.
  destruct (burst_loop_spec burst_time burst_start (Float.div_int w n) action_ids 0 [])
    as (seg & -> & Hids & HR).
  rewrite app_nil_l. fold n in HR.
  assert (Hidx : forall (i : nat) sa, seg !! i = Some sa ->
            Z.abs ((scheduled_start sa - burst_start) * n - Z.of_nat i * w * us_per_minute) < n
            /\ burst_start <= scheduled_start sa <= burst_start + w * us_per_minute).
  { intros i sa Hsa.
    destruct (Forall2_lookup_r _ _ _ _ _ HR Hsa) as (k & Hk & _ & _ & ->).
    apply lookup_seqZ in Hk as [-> Hi]. rewrite Z.add_0_l.
    pose proof (FloatBounds.burst_offset_range w n (Z.of_nat i) ltac:(lia) Hn ltac:(lia)).
    pose proof (FloatBounds.burst_offset_exact w n (Z.of_nat i) Hw Hn ltac:(lia)).
    split; [| lia].
    replace (burst_start + _ - burst_start)
      with (timedelta_minutes_float
              (Float.mul (Float.div_int w n) (Float.of_int (Z.of_nat i)))) by lia.
    replace (Z.of_nat i * w * us_per_minute) with (w * us_per_minute * Z.of_nat i) by lia.
    done. }
  split_and!; [by vm_compute | by vm_compute | by vm_compute | by vm_compute | done | | done |].
  - eapply Forall2_seqZ_Forall; [exact HR |]. by intros i sa _ (? & ? & _).
  - intros Hpre. apply Forall_forall. intros sa Hsa.
    apply list_elem_of_lookup_1 in Hsa as [i Hi].
    destruct (Hidx i sa Hi) as [_ Hrange]. unfold burst_start in Hrange.
    unfold us_per_minute in *. lia.
Qed.

Lemma social_burst_placements_witness :
  action_id <$> schedule_social_burst (seqZ 1 10) thursday_19 5 "twitter" = seqZ 1 10
  /\ Forall (fun sa => Z.abs (scheduled_start sa - thursday_19) <= 10 * us_per_minute)
       (schedule_social_burst (seqZ 1 10) thursday_19 5 "twitter").
Proof.
  destruct (social_burst_placements (seqZ 1 10) thursday_19 5 "twitter")
    as (_ & _ & _ & _ & H1 & _ & _ & H2).
  - vm_compute. split; discriminate.
  - split; [exact H1 | apply H2; vm_compute; split; discriminate].
Defined.

(** ** Window containment of the phase sequencer *)

(** The PhaseSequencer half of window containment: with a non-negative
    duration, every placement of a phase starts between 09:00 on the phase's
    first date and 17:00 on its end date. *)
Lemma phase_placement_in_window ph phase_start sa :
  0 <= duration_weeks ph ->
  in_days ph phase_start (Z.max 1 (7 * duration_weeks ph)) sa ->
  dt_combine phase_start 9 0 <= scheduled_start sa
    <= dt_combine (phase_start + 7 * duration_weeks ph) 17 0.
Proof.
  intros Hdw (d & Hd & _ & _ & j & m & -> & Hm).
  pose proof (Z.mod_pos_bound j 8 ltac:(lia)). time_arith.
Qed.

(** * Further properties of the scheduler *)

(** ** Phone bank *)

Lemma while_invariant {S : Type} (P : S -> Prop) (cond : S -> bool) (body : S -> S)
    fuel s r :
  (forall s, P s -> cond s = true -> P (body s)) ->
  P s -> while fuel cond body s = Some r -> P r.
Proof.
  intros Hstep. revert s. induction fuel as [| fuel IH]; intros s Hs; cbn [while];
    destruct (cond s) eqn:C; try done; [| by eauto |]; by intros [= <-].
Qed.

Lemma phone_cond_false t :
  phone_cond t = false <-> (9 <= dt_hour t < 17) /\ dt_weekday t < 5.
Proof.
  unfold phone_cond, calling_start_hour, calling_end_hour.
  rewrite !orb_false_iff, Z.ltb_ge, !Z.leb_gt. lia.
Qed.

Lemma dt_replace_hm_9 t :
  dt_hour (dt_replace_hm t 9 0) = 9 /\ dt_date (dt_replace_hm t 9 0) = dt_date t.
Proof. unfold dt_replace_hm. time_arith. Qed.

Lemma dt_replace_hm_later t : dt_hour t < 9 -> t < dt_replace_hm t 9 0.
Proof. unfold dt_replace_hm. time_arith. Qed.

Lemma phone_body_hour t : dt_hour (phone_body t) = 9.
Proof.
  unfold phone_body, calling_start_hour. case_match.
  - apply dt_hour_combine; lia.
  - apply dt_replace_hm_9.
Qed.

Lemma phone_body_later t : phone_cond t = true -> t < phone_body t.
Proof.
  unfold phone_cond, phone_body, calling_start_hour, calling_end_hour.
  destruct (Z.leb_spec 17 (dt_hour t)); [intros _; cbn [orb]; time_arith |].
  destruct (Z.leb_spec 5 (dt_weekday t)); [intros _; cbn [orb]; time_arith |].
  cbn [orb]. rewrite !orb_false_r. intros Hlt%Z.ltb_lt. by apply dt_replace_hm_later.
Qed.

(** Once the cursor stands at hour 9 the skip loop is the weekend skip. *)
Lemma phone_skip_at_9 fuel : forall t,
  dt_hour t = 9 ->
  while fuel phone_cond phone_body t = while fuel weekend_cond weekend_body t.
Proof.
  assert (Hc : forall t, dt_hour t = 9 -> phone_cond t = weekend_cond t).
  { intros t Ht. unfold phone_cond, weekend_cond, calling_start_hour, calling_end_hour.
    rewrite Ht. done. }
  assert (Hb : forall t, dt_hour t = 9 -> weekend_cond t = true ->
                         phone_body t = weekend_body t).
  { intros t Ht Hw. unfold phone_body, weekend_body, weekend_cond, calling_start_hour,
      calling_end_hour in *. rewrite Ht, Hw. done. }
  induction fuel as [| fuel IH]; intros t Ht; cbn [while]; rewrite (Hc t Ht);
    destruct (weekend_cond t) eqn:W; try done.
  rewrite (Hb t Ht W). apply IH. unfold weekend_body. apply dt_hour_combine; lia.
Qed.

(** The skip loop of the phone bank ends within three steps, at an instant
    in calling hours that is not earlier than the cursor. *)
Lemma phone_skip fuel t :
  (3 <= fuel)%nat ->
  exists r, while fuel phone_cond phone_body t = Some r
            /\ phone_cond r = false /\ t <= r.
Proof.
  intros Hf. destruct fuel as [| fuel]; [lia |]. cbn [while].
  destruct (phone_cond t) eqn:C; [| exists t; split_and!; [done | done | lia]].
  pose proof (phone_body_later t C) as L. pose proof (phone_body_hour t) as H9.
  rewrite (phone_skip_at_9 fuel _ H9).
  destruct (weekend_skip fuel (phone_body t) ltac:(lia)) as (r & E & Hw & Hr).
  exists r. split_and!; [done | | lia].
  apply phone_cond_false. split; [| done].
  assert (dt_hour r = 9); [| lia].
  eapply (while_invariant (fun s => dt_hour s = 9)); [| exact H9 | exact E].
  intros s _ _. unfold weekend_body. apply dt_hour_combine; lia.
Qed.

Lemma phone_loop_spec fuel window calls_per_hour target_timezone ids :
  forall scheduled current_time,
  (3 <= fuel)%nat ->
  exists seg,
    phone_loop fuel window calls_per_hour target_timezone ids scheduled current_time
      = Returns (scheduled ++ seg)
    /\ (action_id <$> seg) `prefix_of` ids
    /\ Forall (phone_placed target_timezone current_time (end_ window)) seg
    /\ spaced (timedelta 0 0 0 (60 / Z.max calls_per_hour 1)) seg.
Proof.
  induction ids as [| a rest IH]; intros scheduled ct Hf; cbn [phone_loop].
  - exists []. rewrite app_nil_r. split_and!; [done | done | done |]. by intros i ? ? ?.
  - destruct (phone_skip fuel ct Hf) as (r & -> & Hc & Hr).
    apply phone_cond_false in Hc as [Hh Hw].
    destruct (Z.ltb_spec (end_ window) r) as [Hend | Hend].
    { exists []. rewrite app_nil_r. split_and!; [done | apply prefix_nil | done |].
      by intros i ? ? ?. }
    set (gap := timedelta 0 0 0 (60 / Z.max calls_per_hour 1)).
    assert (Hgap : 0 <= gap).
    { unfold gap, timedelta, us_per_minute, us_per_hour, us_per_day.
      pose proof (Z.div_pos 60 (Z.max calls_per_hour 1) ltac:(lia) ltac:(lia)). lia. }
    destruct (IH (scheduled ++ [phone_action a r target_timezone]) (r + gap) Hf)
      as (seg & -> & Hpre & Hall & Hsp).
    exists (phone_action a r target_timezone :: seg). rewrite <- app_assoc.
    split_and!; [done | by apply prefix_cons | |].
    + constructor.
      * split_and!; try done; cbn; lia.
      * eapply Forall_impl; [exact Hall |]. intros sa (? & ? & ? & ?).
        split_and!; try done; lia.
    + intros [| i] sa sb Ha Hb; cbn in Ha, Hb.
      * injection Ha as <-. destruct seg as [| sb' seg']; [done |].
        cbn in Hb. injection Hb as ->. apply Forall_cons in Hall as [(_ & Hlo & _) _].
        cbn. fold gap. lia.
      * by apply (Hsp i).
Qed.

Lemma phone_bank_start window :
  start window
  <= (if dt_hour (start window) <? calling_start_hour
      then dt_replace_hm (start window) calling_start_hour 0 else start window).
Proof.
  unfold calling_start_hour. destruct (Z.ltb_spec (dt_hour (start window)) 9); [| lia].
  pose proof (dt_replace_hm_later _ H). lia.
Qed.

Lemma phone_bank_spec fuel action_ids window calls_per_hour target_timezone :
  (3 <= fuel)%nat ->
  exists l,
    schedule_phone_bank fuel action_ids window calls_per_hour target_timezone = Returns l
    /\ (action_id <$> l) `prefix_of` action_ids
    /\ Forall (phone_placed target_timezone (start window) (end_ window)) l
    /\ spaced (timedelta 0 0 0 (60 / Z.max calls_per_hour 1)) l.
Proof.
  intros Hf. unfold schedule_phone_bank.
  pose proof (phone_bank_start window) as Hs.
  set (t0 := if dt_hour (start window) <? calling_start_hour
             then dt_replace_hm (start window) calling_start_hour 0
             else start window) in *.
  destruct (phone_loop_spec fuel window calls_per_hour target_timezone action_ids []
              t0 Hf) as (l & -> & Hpre & Hall & Hsp).
  exists l. split_and!; [done | done | | done].
  eapply Forall_impl; [exact Hall |]. intros sa (? & ? & ? & ?). split_and!; try done; lia.
Qed.

(** X1: the phone bank always returns (its skip loop ends within three
    steps), and every placement starts in calling hours, 09:00 to 16:59, on
    a Monday to Friday, between [window.start] and [window.end]. *)
Theorem phone_bank_in_calling_hours fuel action_ids window calls_per_hour target_timezone :
  (3 <= fuel)%nat ->
  exists l,
    schedule_phone_bank fuel action_ids window calls_per_hour target_timezone = Returns l
    /\ Forall (fun sa =>
         9 <= dt_hour (scheduled_start sa) < 17
         /\ dt_weekday (scheduled_start sa) < 5
         /\ start window <= scheduled_start sa <= end_ window) l.
Proof.
  intros Hf.
  destruct (phone_bank_spec fuel action_ids window calls_per_hour target_timezone Hf)
    as (l & E & _ & Hall & _).
  exists l. split; [done |].
  eapply Forall_impl; [exact Hall |]. by intros sa (_ & ? & ? & ?).
Qed.

Lemma phone_bank_in_calling_hours_witness :
  exists l,
    schedule_phone_bank 3 (seqZ 1 10) one_week_window 10 "US/Eastern" = Returns l
    /\ Forall (fun sa =>
         9 <= dt_hour (scheduled_start sa) < 17
         /\ dt_weekday (scheduled_start sa) < 5
         /\ start one_week_window <= scheduled_start sa <= end_ one_week_window) l.
Proof.
  apply (phone_bank_in_calling_hours 3 (seqZ 1 10) one_week_window 10 "US/Eastern").
  lia.
Defined.

(** X2: the phone bank places a prefix of the action ids, in input order,
    one placement each: a ["phone_call"] of priority 2 that lasts ten
    minutes and is batched under the calendar date of its own start. *)
Theorem phone_bank_places_prefix fuel action_ids window calls_per_hour target_timezone :
  (3 <= fuel)%nat ->
  exists l,
    schedule_phone_bank fuel action_ids window calls_per_hour target_timezone = Returns l
    /\ (action_id <$> l) `prefix_of` action_ids
    /\ Forall (fun sa =>
         action_type sa = "phone_call"
         /\ priority sa = 2
         /\ scheduled_end sa = scheduled_start sa + 10 * us_per_minute
         /\ batch_id sa
            = Some ("calls-" +:+ date_isoformat (dt_date (scheduled_start sa)))) l.
Proof.
  intros Hf.
  destruct (phone_bank_spec fuel action_ids window calls_per_hour target_timezone Hf)
    as (l & E & Hpre & Hall & _).
  exists l. split_and!; [done | done |].
  eapply Forall_impl; [exact Hall |]. intros sa (-> & _). cbn.
  split_and!; try done; unfold timedelta; lia.
Qed.

Lemma phone_bank_places_prefix_witness :
  exists l,
    schedule_phone_bank 3 (seqZ 1 10) one_week_window 10 "US/Eastern" = Returns l
    /\ (action_id <$> l) `prefix_of` seqZ 1 10
    /\ Forall (fun sa =>
         action_type sa = "phone_call"
         /\ priority sa = 2
         /\ scheduled_end sa = scheduled_start sa + 10 * us_per_minute
         /\ batch_id sa
            = Some ("calls-" +:+ date_isoformat (dt_date (scheduled_start sa)))) l.
Proof.
  apply (phone_bank_places_prefix 3 (seqZ 1 10) one_week_window 10 "US/Eastern").
  lia.
Defined.

(** X3: consecutive phone-bank placements start at least
    [60 // max(calls_per_hour, 1)] minutes apart; for a rate of 1 to 60 calls
    per hour the starts are strictly increasing in input order. *)
Theorem phone_bank_spacing fuel action_ids window calls_per_hour target_timezone :
  (3 <= fuel)%nat ->
  exists l,
    schedule_phone_bank fuel action_ids window calls_per_hour target_timezone = Returns l
    /\ forall (i : nat) sa sb, l !! i = Some sa -> l !! S i = Some sb ->
         scheduled_start sa + (60 / Z.max calls_per_hour 1) * us_per_minute
           <= scheduled_start sb
         /\ (calls_per_hour <= 60 -> scheduled_start sa < scheduled_start sb).
Proof.
  intros Hf.
  destruct (phone_bank_spec fuel action_ids window calls_per_hour target_timezone Hf)
    as (l & E & _ & _ & Hsp).
  exists l. split; [done |]. intros i sa sb Ha Hb.
  pose proof (Hsp i sa sb Ha Hb) as Hgap. unfold timedelta in Hgap.
  split; [lia |]. intros Hrate.
  assert (1 <= 60 / Z.max calls_per_hour 1).
  { apply Z.div_le_lower_bound; lia. }
  unfold us_per_minute in *. lia.
Qed.

Lemma phone_bank_spacing_witness :
  exists l,
    schedule_phone_bank 3 (seqZ 1 10) one_week_window 10 "US/Eastern" = Returns l
    /\ forall (i : nat) sa sb, l !! i = Some sa -> l !! S i = Some sb ->
         scheduled_start sa + (60 / Z.max 10 1) * us_per_minute <= scheduled_start sb
         /\ (10 <= 60 -> scheduled_start sa < scheduled_start sb).
Proof.
  apply (phone_bank_spacing 3 (seqZ 1 10) one_week_window 10 "US/Eastern").
  lia.
Defined.

(** X4: for a window whose start is after its end the phone bank returns the
    empty list, whatever the action ids: its guard compares the cursor
    itself with [window.end]. *)
Theorem phone_bank_reversed_window fuel action_ids window calls_per_hour target_timezone :
  (3 <= fuel)%nat -> end_ window < start window ->
  schedule_phone_bank fuel action_ids window calls_per_hour target_timezone = Returns [].
Proof.
  intros Hf Hrev.
  destruct (phone_bank_spec fuel action_ids window calls_per_hour target_timezone Hf)
    as (l & E & _ & Hall & _).
  destruct l as [| sa l]; [done |].
  apply Forall_cons in Hall as [(_ & ? & _) _]. lia.
Qed.

Lemma phone_bank_reversed_window_witness :
  schedule_phone_bank 3 (seqZ 1 3) reversed_window 10 "US/Eastern" = Returns [].
Proof.
  apply (phone_bank_reversed_window 3 (seqZ 1 3) reversed_window 10 "US/Eastern").
  - lia.
  - vm_compute. reflexivity.
Defined.

Lemma phone_loop_flood fuel window calls_per_hour target_timezone r ids :
  forall scheduled,
  60 < calls_per_hour -> phone_cond r = false ->
  phone_loop fuel window calls_per_hour target_timezone ids scheduled r
    = Returns (scheduled
               ++ if end_ window <? r then []
                  else (fun a => phone_action a r target_timezone) <$> ids).
Proof.
  intros scheduled Hrate Hc. revert scheduled.
  assert (Hw : while fuel phone_cond phone_body r = Some r).
  { destruct fuel; cbn [while]; by rewrite Hc. }
  assert (Hgap : r + timedelta 0 0 0 (60 / Z.max calls_per_hour 1) = r).
  { rewrite Z.div_small by lia. unfold timedelta. lia. }
  induction ids as [| a rest IH]; intros scheduled; cbn [phone_loop].
  - case_match; by rewrite ?fmap_nil, app_nil_r.
  - rewrite Hw. destruct (end_ window <? r) eqn:Hend; [by rewrite app_nil_r |].
    rewrite Hgap, IH, fmap_cons, <- app_assoc. done.
Qed.



(** ** BusinessClock: bounded advance and idempotence *)

Lemma nbh_body_date t :
  exists d, nbh_body t = dt_combine d 9 0
            /\ dt_date t < d <= dt_date t + 2
            /\ (dt_weekday t < 5 -> d = dt_date t + 1).
Proof.
  unfold nbh_body. destruct (Z.leb_spec 5 (dt_weekday t)).
  - eexists. split; [reflexivity |]. pose proof (date_weekday_range (dt_date t)).
    unfold dt_weekday in *. lia.
  - eexists. split; [reflexivity |]. lia.
Qed.

Lemma nbh_fixed_point fuel window r :
  nbh_cond window r = false -> _next_business_hour fuel r window = Some r.
Proof. intros H. unfold _next_business_hour. destruct fuel; cbn [while]; by rewrite H. Qed.



(** ** StaggerStrategy: order, completeness, lower bound, hours *)

Lemma weekend_skip_hours fuel t r :
  9 <= dt_hour t < 18 ->
  while fuel weekend_cond weekend_body t = Some r -> 9 <= dt_hour r < 18.
Proof.
  intros Ht. apply (while_invariant (fun s => 9 <= dt_hour s < 18)); [| done].
  intros s _ _. unfold weekend_body. rewrite dt_hour_combine; lia.
Qed.

Lemma advance_hours t k :
  9 <= dt_hour t < 18 -> 0 <= k <= 359 ->
  dt_hour (t + timedelta 0 0 0 k) < 18 -> 9 <= dt_hour (t + timedelta 0 0 0 k).
Proof. time_arith. Qed.

Section EmailSpec.
Variables (fuel : nat) (window : ScheduleWindow).
Variables (emails_per_day stagger_minutes : Z) (personalization_required : bool).
Hypothesis fuel_enough : (2 <= fuel)%nat.
Hypothesis per_day_nonzero : emails_per_day <> 0.

Let loop := email_loop fuel window emails_per_day stagger_minutes
              personalization_required.

Lemma email_loop_spec ids : forall i scheduled current_date daily_count current_time g,
  exists seg,
    loop i ids scheduled current_date daily_count current_time g
      = Returns (scheduled ++ seg)
    /\ (action_id <$> seg) `prefix_of` ids
    /\ Forall2 (email_placed emails_per_day) (seqZ i (Z.of_nat (length seg))) seg
    /\ (current_date + Z.of_nat (length ids) - 1 <= dt_date (end_ window) ->
        action_id <$> seg = ids)
    /\ (forall lo, 0 <= stagger_minutes -> lo <= current_time -> dt_date lo <= current_date ->
        Forall (fun sa => lo <= scheduled_start sa) seg)
    /\ (0 <= stagger_minutes <= 349 -> 9 <= dt_hour current_time < 18 ->
        Forall (fun sa => 9 <= dt_hour (scheduled_start sa) < 18) seg).
Proof.
  unfold loop. induction ids as [| a rest IH]; intros i scheduled cd dc ct g;
    cbn [email_loop].
  { exists []. rewrite app_nil_r. split_and!; try done; constructor. }
  destruct (Z.ltb_spec (dt_date (end_ window)) cd) as [Hbreak | Hgo].
  { exists []. rewrite app_nil_r.
    split_and!;
      first [done | apply prefix_nil | constructor | intros; cbn [length] in *; lia]. }
  destruct (weekend_skip fuel ct fuel_enough) as (ct1 & Hskip & Hwd & Hct1).
  rewrite Hskip. apply Z.eqb_neq in per_day_nonzero as Hb. rewrite Hb.
  set (sa := email_action a i emails_per_day cd ct1 personalization_required).
  assert (Hsa : email_placed emails_per_day i sa).
  { unfold email_placed, sa. cbn. split_and!; try done; unfold timedelta, us_per_hour; lia. }
  assert (Hfin : forall cd' dc' ct' g',
    cd <= cd' <= cd + 1 ->
    (0 <= stagger_minutes -> forall lo, lo <= ct1 -> dt_date lo <= cd ->
       lo <= ct' /\ dt_date lo <= cd') ->
    (0 <= stagger_minutes <= 349 -> 9 <= dt_hour ct1 < 18 -> 9 <= dt_hour ct' < 18) ->
    exists seg,
      email_loop fuel window emails_per_day stagger_minutes personalization_required
        (i + 1) rest (scheduled ++ [sa]) cd' dc' ct' g' = Returns (scheduled ++ seg)
      /\ (action_id <$> seg) `prefix_of` a :: rest
      /\ Forall2 (email_placed emails_per_day) (seqZ i (Z.of_nat (length seg))) seg
      /\ (cd + Z.of_nat (length (a :: rest)) - 1 <= dt_date (end_ window) ->
          action_id <$> seg = a :: rest)
      /\ (forall lo, 0 <= stagger_minutes -> lo <= ct -> dt_date lo <= cd ->
          Forall (fun sa => lo <= scheduled_start sa) seg)
      /\ (0 <= stagger_minutes <= 349 -> 9 <= dt_hour ct < 18 ->
          Forall (fun sa => 9 <= dt_hour (scheduled_start sa) < 18) seg)).
  { intros cd' dc' ct' g' Hcd Hlo Hhr.
    destruct (IH (i + 1) (scheduled ++ [sa]) cd' dc' ct' g')
      as (seg & -> & Hpre & HR & Hall & Hlow & Hhours).
    exists (sa :: seg). rewrite <- app_assoc. split_and!.
    - done.
    - rewrite fmap_cons. by apply prefix_cons.
    - cbn [length]. rewrite seqZ_cons by lia. constructor; [done |].
      replace (Z.succ i) with (i + 1) by lia.
      by replace (Z.pred (Z.of_nat (S (length seg)))) with (Z.of_nat (length seg)) by lia.
    - intros Hlen. cbn [length] in Hlen. rewrite fmap_cons, Hall; [done | lia].
    - intros lo Hst Hlo1 Hlo2. constructor; [cbn; lia |].
      destruct (Hlo Hst lo ltac:(lia) Hlo2) as [? ?]. by apply Hlow.
    - intros Hst Hh. pose proof (weekend_skip_hours fuel ct ct1 Hh Hskip) as Hh1.
      constructor; [done |]. apply Hhours; [done |]. by apply Hhr. }
  destruct (Z.leb_spec emails_per_day (dc + 1)) as [Hfull | Hmore].
  - destruct (randint 0 30 g) as [m g1] eqn:R.
    pose proof (randint_range 0 30 g ltac:(lia)) as Hm. rewrite R in Hm. cbn in Hm.
    apply Hfin; [lia | |].
    + intros _ lo Hlo1 Hlo2. split; [| lia].
      assert (dt_date lo < dt_date (dt_combine (cd + 1) 9 m)).
      { rewrite dt_date_combine; [lia | time_arith]. }
      pose proof (dt_date_lt _ _ H). lia.
    + intros _ _. rewrite dt_hour_combine; lia.
  - destruct (randint 0 10 g) as [j g1] eqn:R.
    pose proof (randint_range 0 10 g ltac:(lia)) as Hj. rewrite R in Hj. cbn in Hj.
    destruct (Z.leb_spec 18 (dt_hour (ct1 + timedelta 0 0 0 (stagger_minutes + j))))
      as [Hlate | Hearly].
    + destruct (randint 0 30 g1) as [m g2] eqn:R2.
      pose proof (randint_range 0 30 g1 ltac:(lia)) as Hm. rewrite R2 in Hm. cbn in Hm.
      apply Hfin; [lia | |].
      * intros _ lo Hlo1 Hlo2. split; [| lia].
        assert (dt_date lo < dt_date (dt_combine (cd + 1) 9 m)).
        { rewrite dt_date_combine; [lia | time_arith]. }
        pose proof (dt_date_lt _ _ H). lia.
      * intros _ _. rewrite dt_hour_combine; lia.
    + apply Hfin; [lia | |].
      * intros Hst lo Hlo1 Hlo2. split; [| lia]. unfold timedelta, us_per_minute. lia.
      * intros Hst Hh. split; [| lia]. apply advance_hours; [done | lia | done].
Qed.
End EmailSpec.

Lemma email_campaign_spec fuel action_ids window emails_per_day stagger_minutes
    personalization_required g :
  (2 <= fuel)%nat -> 9 ∉ blocked_hours window -> emails_per_day <> 0 ->
  exists l,
    schedule_email_campaign fuel action_ids window emails_per_day stagger_minutes
      personalization_required g = Returns l
    /\ (action_id <$> l) `prefix_of` action_ids
    /\ Forall2 (email_placed emails_per_day) (seqZ 0 (Z.of_nat (length l))) l
    /\ (dt_date (start window) + Z.of_nat (length action_ids) - 1
          <= dt_date (end_ window) -> action_id <$> l = action_ids)
    /\ (0 <= stagger_minutes -> Forall (fun sa => start window <= scheduled_start sa) l)
    /\ (0 <= stagger_minutes <= 349 -> 9 <= dt_hour (start window) < 18 ->
        Forall (fun sa => 9 <= dt_hour (scheduled_start sa) < 18) l).
Proof.
  intros Hf H9 Hepd. unfold schedule_email_campaign.
  destruct (nbh_two_steps fuel (start window) window H9 Hf) as (r & E & _ & Hr).
  rewrite E.
  destruct (email_loop_spec fuel window emails_per_day stagger_minutes
              personalization_required Hf Hepd action_ids 0 []
              (dt_date (start window)) 0 r g)
    as (l & -> & Hpre & HR & Hall & Hlow & Hhours).
  exists l. split_and!; [done | done | done | done | |].
  - intros Hst. apply Hlow; [done | done | lia].
  - intros Hst Hh. apply Hhours; [done |].
    unfold _next_business_hour in E.
    eapply (while_invariant (fun s => 9 <= dt_hour s < 18)); [| exact Hh | exact E].
    intros s _ _. rewrite nbh_body_hour. lia.
Qed.

(** X7: with a non-zero [emails_per_day] and hour 9 unblocked, the e-mail
    campaign returns placements for a prefix of the action ids, in input
    order; the [i]-th placement is an ["email"] of one hour with priority
    [max(1, 5 - i // emails_per_day)], which lies between 1 and 5 when
    [emails_per_day] is positive. *)
Theorem email_placements_in_order fuel action_ids window emails_per_day stagger_minutes
    personalization_required g :
  (2 <= fuel)%nat -> 9 ∉ blocked_hours window -> emails_per_day <> 0 ->
  exists l,
    schedule_email_campaign fuel action_ids window emails_per_day stagger_minutes
      personalization_required g = Returns l
    /\ (action_id <$> l) `prefix_of` action_ids
    /\ forall (i : nat) sa, l !! i = Some sa ->
         action_type sa = "email"
         /\ scheduled_end sa = scheduled_start sa + us_per_hour
         /\ priority sa = Z.max 1 (5 - Z.of_nat i / emails_per_day)
         /\ (0 < emails_per_day -> 1 <= priority sa <= 5).
Proof.
  intros Hf H9 Hepd.
  destruct (email_campaign_spec fuel action_ids window emails_per_day stagger_minutes
              personalization_required g Hf H9 Hepd) as (l & E & Hpre & HR & _).
  exists l. split_and!; [done | done |]. intros i sa Hsa.
  destruct (Forall2_lookup_r _ _ _ _ _ HR Hsa) as (k & Hk & Ht & Hp & He).
  apply lookup_seqZ in Hk as [-> _]. rewrite Z.add_0_l in Hp.
  split_and!; [done | done | done |]. intros Hpos. rewrite Hp.
  pose proof (Z.div_pos (Z.of_nat i) emails_per_day ltac:(lia) Hpos). lia.
Qed.

Lemma email_placements_in_order_witness :
  exists l,
    schedule_email_campaign 2 (seqZ 1 20) two_week_window 5 15 true rng_zero = Returns l
    /\ (action_id <$> l) `prefix_of` seqZ 1 20
    /\ forall (i : nat) sa, l !! i = Some sa ->
         action_type sa = "email"
         /\ scheduled_end sa = scheduled_start sa + us_per_hour
         /\ priority sa = Z.max 1 (5 - Z.of_nat i / 5)
         /\ (0 < 5 -> 1 <= priority sa <= 5).
Proof.
  apply (email_placements_in_order 2 (seqZ 1 20) two_week_window 5 15 true rng_zero).
  - lia.
  - apply (bool_decide_unpack _). vm_compute. exact I.
  - lia.
Defined.

(** X8: a window that spans at least as many calendar dates as there are
    action ids places every action id: the date guard never fires, because
    the bookkeeping date advances by at most one per placement. *)
Theorem email_window_long_enough fuel action_ids window emails_per_day stagger_minutes
    personalization_required g :
  (2 <= fuel)%nat -> 9 ∉ blocked_hours window -> emails_per_day <> 0 ->
  dt_date (start window) + Z.of_nat (length action_ids) - 1 <= dt_date (end_ window) ->
  exists l,
    schedule_email_campaign fuel action_ids window emails_per_day stagger_minutes
      personalization_required g = Returns l
    /\ action_id <$> l = action_ids.
Proof.
  intros Hf H9 Hepd Hlen.
  destruct (email_campaign_spec fuel action_ids window emails_per_day stagger_minutes
              personalization_required g Hf H9 Hepd) as (l & E & _ & _ & Hall & _).
  exists l. split; [done | by apply Hall].
Qed.

Lemma email_window_long_enough_witness :
  exists l,
    schedule_email_campaign 2 (seqZ 1 10) two_week_window 5 15 true rng_zero = Returns l
    /\ action_id <$> l = seqZ 1 10.
Proof.
  apply (email_window_long_enough 2 (seqZ 1 10) two_week_window 5 15 true rng_zero).
  - lia.
  - apply (bool_decide_unpack _). vm_compute. exact I.
  - lia.
  - vm_compute. discriminate.
Defined.

(** X9: with a non-negative [stagger_minutes], no e-mail placement starts
    before [window.start]. *)
Theorem email_not_before_window fuel action_ids window emails_per_day stagger_minutes
    personalization_required g :
  (2 <= fuel)%nat -> 9 ∉ blocked_hours window -> emails_per_day <> 0 ->
  0 <= stagger_minutes ->
  exists l,
    schedule_email_campaign fuel action_ids window emails_per_day stagger_minutes
      personalization_required g = Returns l
    /\ Forall (fun sa => start window <= scheduled_start sa) l.
Proof.
  intros Hf H9 Hepd Hst.
  destruct (email_campaign_spec fuel action_ids window emails_per_day stagger_minutes
              personalization_required g Hf H9 Hepd) as (l & E & _ & _ & _ & Hlow & _).
  exists l. split; [done | by apply Hlow].
Qed.

Lemma email_not_before_window_witness :
  exists l,
    schedule_email_campaign 2 (seqZ 1 20) two_week_window 5 15 true rng_zero = Returns l
    /\ Forall (fun sa => start two_week_window <= scheduled_start sa) l.
Proof.
  apply (email_not_before_window 2 (seqZ 1 20) two_week_window 5 15 true rng_zero).
  - lia.
  - apply (bool_decide_unpack _). vm_compute. exact I.
  - lia.
  - lia.
Defined.

(** X10: when the window starts between 09:00 and 17:59 and
    [stagger_minutes] is between 0 and 349 (so that one step, jitter
    included, stays under six hours), every e-mail placement starts between
    09:00 and 17:59. *)
Theorem email_business_hours fuel action_ids window emails_per_day stagger_minutes
    personalization_required g :
  (2 <= fuel)%nat -> 9 ∉ blocked_hours window -> emails_per_day <> 0 ->
  0 <= stagger_minutes <= 349 -> 9 <= dt_hour (start window) < 18 ->
  exists l,
    schedule_email_campaign fuel action_ids window emails_per_day stagger_minutes
      personalization_required g = Returns l
    /\ Forall (fun sa => 9 <= dt_hour (scheduled_start sa) < 18) l.
Proof.
  intros Hf H9 Hepd Hst Hh.
  destruct (email_campaign_spec fuel action_ids window emails_per_day stagger_minutes
              personalization_required g Hf H9 Hepd) as (l & E & _ & _ & _ & _ & Hhours).
  exists l. split; [done | by apply Hhours].
Qed.

Lemma email_business_hours_witness :
  exists l,
    schedule_email_campaign 2 (seqZ 1 20) two_week_window 5 15 true rng_zero = Returns l
    /\ Forall (fun sa => 9 <= dt_hour (scheduled_start sa) < 18) l.
Proof.
  apply (email_business_hours 2 (seqZ 1 20) two_week_window 5 15 true rng_zero).
  - lia.
  - apply (bool_decide_unpack _). vm_compute. exact I.
  - lia.
  - lia.
  - vm_compute. split; [discriminate | reflexivity].
Defined.

(** ** BurstStrategy: input order is time order *)

Module FloatOrder.
Import Float FloatFacts FloatBounds.
#[local] Open Scope Q_scope.

(** [timedelta(minutes=x)] is monotone on non-negative floats. *)
Lemma timedelta_minutes_float_mono x y :
  0 <= x -> x <= y ->
  (timedelta_minutes_float x <= timedelta_minutes_float y)%Z.
Proof.
  intros Hx Hxy. unfold timedelta_minutes_float, mul.
  rewrite !trunc_nonneg by lra.
  pose proof (Qfloor_resp_le _ _ Hxy) as Hfl.
  destruct (floor_bounds x) as [X1 X2]. destruct (floor_bounds y) as [Y1 Y2].
  apply rne_mono. rewrite !inject_Z_mult.
  change (inject_Z us_per_minute) with 60000000.
  destruct (Z.eq_dec (Qfloor x) (Qfloor y)) as [E | N].
  - rewrite E in *.
    assert (round53 (60000000 * (x - inject_Z (Qfloor y)))
            <= round53 (60000000 * (y - inject_Z (Qfloor y)))) by (apply round53_mono; lra).
    lra.
  - pose proof (inject_Z_succ_le (Qfloor x) (Qfloor y) ltac:(lia)) as Hs.
    assert (round53 (60000000 * (x - inject_Z (Qfloor x))) <= 60000000).
    { apply (round53_le_Z _ 60000000); [by vm_compute |].
      change (inject_Z 60000000) with 60000000. lra. }
    assert (0 <= round53 (60000000 * (y - inject_Z (Qfloor y))))
      by (apply round53_nonneg; lra).
    lra.
Qed.

Lemma div_int_nonneg w n : (0 <= w)%Z -> (0 < n)%Z -> 0 <= div_int w n.
Proof.
  intros Hw Hn. unfold div_int. apply round53_nonneg.
  pose proof (inject_Z_nonneg w Hw).
  assert (0 < inject_Z n) by (change 0 with (inject_Z 0); rewrite <- Zlt_Qlt; lia).
  apply Qle_shift_div_l; lra.
Qed.

Lemma of_int_mono i j : (i <= j)%Z -> of_int i <= of_int j.
Proof. intros H. unfold of_int. apply round53_mono. by rewrite <- Zle_Qle. Qed.

Lemma of_int_0 : of_int 0 = 0.
Proof. unfold of_int. by apply round53_zero. Qed.

(** The offset of burst post [i] from the burst start grows with [i]. *)
Lemma burst_offset_mono w n i j :
  (0 <= w)%Z -> (0 < n)%Z -> (0 <= i <= j)%Z ->
  (timedelta_minutes_float (mul (div_int w n) (of_int i))
   <= timedelta_minutes_float (mul (div_int w n) (of_int j)))%Z.
Proof.
  intros Hw Hn Hij. pose proof (div_int_nonneg w n Hw Hn) as Hiv.
  pose proof (of_int_mono 0 i ltac:(lia)) as Hi0. rewrite of_int_0 in Hi0.
  pose proof (of_int_mono i j ltac:(lia)) as Hi.
  set (iv := div_int w n) in *. set (oi := of_int i) in *. set (oj := of_int j) in *.
  assert (0 <= iv * oi) by (apply Qmult_le_0_compat; lra).
  assert (0 <= iv * (oj - oi)) by (apply Qmult_le_0_compat; lra).
  apply timedelta_minutes_float_mono; unfold mul.
  - by apply round53_nonneg.
  - apply round53_mono. lra.
Qed.

Lemma burst_offset_first iv : timedelta_minutes_float (mul iv (of_int 0)) = 0%Z.
Proof.
  rewrite of_int_0. unfold mul. rewrite (round53_zero (iv * 0)) by ring. reflexivity.
Qed.
End FloatOrder.

Lemma burst_loop_fields burst_time burst_start interval ids : forall i scheduled,
  Forall (fun sa => action_type sa = "social_post"
                    /\ scheduled_end sa = scheduled_start sa + 5 * us_per_minute)
    scheduled ->
  Forall (fun sa => action_type sa = "social_post"
                    /\ scheduled_end sa = scheduled_start sa + 5 * us_per_minute)
    (burst_loop burst_time burst_start interval i ids scheduled).
Proof.
  induction ids as [| a rest IH]; intros i scheduled Hacc; cbn [burst_loop]; [done |].
  apply IH. apply Forall_app. split; [done |]. apply Forall_singleton.
  cbn. split; [done |]. unfold timedelta. lia.
Qed.

(** X11: a social burst returns one placement per action id, each a
    ["social_post"] of five minutes; the first starts exactly at
    [burst_time - pre_burst_minutes], and the starts never decrease along the
    list, so input order is time order.  This holds for every list, every
    platform and every [pre_burst_minutes]. *)
Theorem social_burst_in_order action_ids burst_time pre_burst_minutes platform :
  let l := schedule_social_burst action_ids burst_time pre_burst_minutes platform in
  length l = length action_ids
  /\ Forall (fun sa => action_type sa = "social_post"
                       /\ scheduled_end sa = scheduled_start sa + 5 * us_per_minute) l
  /\ (forall sa, l !! 0%nat = Some sa ->
        scheduled_start sa = burst_time - pre_burst_minutes * us_per_minute)
  /\ (forall (i j : nat) sa sb, (i <= j)%nat -> l !! i = Some sa -> l !! j = Some sb ->
        scheduled_start sa <= scheduled_start sb).
Proof.
  intros l. unfold l, schedule_social_burst.
  set (w := default 15 (platform_windows !! platform)).
  set (n := Z.max (Z.of_nat (length action_ids)) 1).
  assert (Hw : 0 <= w).
  { pose proof (window_minutes_values platform) as H. fold w in H.
    repeat (apply elem_of_cons in H as [-> | H]; [lia |]). by apply elem_of_nil in H. }
  split_and!.
  - destruct (burst_loop_spec burst_time (burst_time - timedelta 0 0 0 pre_burst_minutes)
                (Float.div_int w n) action_ids 0 []) as (seg & -> & Hids & _).
    rewrite app_nil_l, <- Hids. by rewrite length_fmap.
  - by apply burst_loop_fields.
  - destruct (burst_loop_spec burst_time (burst_time - timedelta 0 0 0 pre_burst_minutes)
                (Float.div_int w n) action_ids 0 []) as (seg & -> & _ & HR).
    rewrite app_nil_l. intros sa Hsa.
    destruct (Forall2_lookup_r _ _ _ _ _ HR Hsa) as (k & Hk & _ & _ & ->).
    apply lookup_seqZ in Hk as [-> _].
    change (0 + Z.of_nat 0) with 0. rewrite FloatOrder.burst_offset_first.
    unfold timedelta. lia.
  - destruct (burst_loop_spec burst_time (burst_time - timedelta 0 0 0 pre_burst_minutes)
                (Float.div_int w n) action_ids 0 []) as (seg & -> & _ & HR).
    rewrite app_nil_l. intros i j sa sb Hij Hsa Hsb.
    destruct (Forall2_lookup_r _ _ _ _ _ HR Hsa) as (ki & Hki & _ & _ & ->).
    destruct (Forall2_lookup_r _ _ _ _ _ HR Hsb) as (kj & Hkj & _ & _ & ->).
    apply lookup_seqZ in Hki as [-> _]. apply lookup_seqZ in Hkj as [-> _].
    pose proof (FloatOrder.burst_offset_mono w n (0 + Z.of_nat i) (0 + Z.of_nat j)
                  Hw ltac:(lia) ltac:(lia)).
    lia.
Qed.

(** ** PhaseSequencer: how many placements, and where *)

Lemma daily_loop_length ph current_date daily j acc g :
  length (daily_loop ph current_date j daily acc g).1 = (length acc + length daily)%nat.
Proof.
  destruct (daily_loop_spec ph current_date daily j acc g) as (seg & -> & Hid & _).
  rewrite length_app, <- Hid. by rewrite length_fmap.
Qed.

Lemma day_loop_count ph phase_start actions apd remaining :
  forall day_offset idx acc g,
  0 <= idx < Z.of_nat (length actions) -> 0 < apd ->
  Z.of_nat (length (day_loop remaining day_offset ph phase_start actions apd idx acc g).1)
  = Z.of_nat (length acc)
    + Z.min (Z.of_nat (length actions) - idx)
        (apd * weekdays_in (phase_start + day_offset) (Z.of_nat remaining)).
Proof.
  induction remaining as [| remaining IH]; intros day_offset idx acc g Hidx Hapd;
    cbn [day_loop].
  - unfold weekdays_in. simpl. lia.
  - pose proof (weekdays_in_succ (phase_start + day_offset) remaining) as Hwk.
    pose proof (weekdays_in_nonneg (phase_start + day_offset + 1) (Z.of_nat remaining)) as Hwk0.
    destruct (Z.leb_spec 5 (date_weekday (phase_start + day_offset))) as [Hwe | Hwd].
    { rewrite IH by done.
      replace (phase_start + (day_offset + 1)) with (phase_start + day_offset + 1) by lia.
      rewrite Hwk. done. }
    set (daily := slice actions idx apd).
    assert (Hdl : Z.of_nat (length daily) = Z.min apd (Z.of_nat (length actions) - idx)).
    { unfold daily, slice. rewrite length_take, length_drop. lia. }
    pose proof (daily_loop_length ph (phase_start + day_offset) daily 0 acc g) as Hlen.
    destruct (daily_loop ph (phase_start + day_offset) 0 daily acc g) as [acc1 g1].
    cbn [fst] in Hlen.
    set (W := weekdays_in (phase_start + day_offset + 1) (Z.of_nat remaining)) in *.
    assert (HP : 0 <= apd * W) by nia.
    rewrite Hwk, Z.mul_add_distr_l, Z.mul_1_r.
    destruct (Z.leb_spec (Z.of_nat (length actions)) (idx + Z.of_nat (length daily)))
      as [Hdone | Hmore].
    + cbn [fst]. lia.
    + rewrite IH by lia.
      replace (phase_start + (day_offset + 1)) with (phase_start + day_offset + 1) by lia.
      fold W. lia.
Qed.

Lemma phase_loop_count actions_per_phase phases : forall phase_start acc g,
  Z.of_nat (length (phase_loop phases actions_per_phase phase_start acc g))
  = Z.of_nat (length acc) + placed_total actions_per_phase phase_start phases.
Proof.
  induction phases as [| ph rest IH]; intros phase_start acc g;
    cbn [phase_loop placed_total]; [lia |].
  destruct (default [] (actions_per_phase !! phase ph)) as [| a actions] eqn:Hact.
  - rewrite IH. cbn [length].
    pose proof (weekdays_in_nonneg phase_start (Z.max 1 (7 * duration_weeks ph))). nia.
  - replace (phase_start + 7 * duration_weeks ph - phase_start)
      with (7 * duration_weeks ph) by lia.
    set (days := Z.max 1 (7 * duration_weeks ph)).
    set (apd := Z.max 1 (Z.of_nat (length (a :: actions)) / days)).
    pose proof (day_loop_count ph phase_start (a :: actions) apd (Z.to_nat days) 0 0 acc g
                  ltac:(cbn [length]; lia) ltac:(lia)) as Hcount.
    destruct (day_loop _ _ _ _ _ _ _ _ _) as [acc1 g1]. cbn [fst] in Hcount.
    rewrite IH, Hcount, Z.add_0_r, Z2Nat.id by lia. lia.
Qed.

Lemma placed_total_le actions_per_phase phases : forall phase_start,
  0 <= placed_total actions_per_phase phase_start phases
    <= Z.of_nat (assigned_total actions_per_phase phases).
Proof.
  induction phases as [| ph rest IH]; intros phase_start; cbn [placed_total].
  - unfold assigned_total. simpl. lia.
  - change (assigned_total actions_per_phase (ph :: rest))
      with (length (default [] (actions_per_phase !! phase ph))
            + assigned_total actions_per_phase rest)%nat.
    pose proof (IH (phase_start + 7 * duration_weeks ph)) as H.
    pose proof (weekdays_in_nonneg phase_start (Z.max 1 (7 * duration_weeks ph))) as HW.
    set (W := weekdays_in _ _) in *.
    set (count := Z.of_nat (length (default [] (actions_per_phase !! phase ph)))).
    set (apd := Z.max 1 _).
    assert (0 <= apd * W) by (apply Z.mul_nonneg_nonneg; lia).
    rewrite Nat2Z.inj_add. fold count.
    assert (0 <= count) by (unfold count; lia).
    clearbody apd W count. lia.
Qed.

(** X12: the number of placements of an escalation sequence does not depend
    on the random stream: every phase receives exactly
    [min(count, actions_per_day * weekdays)] placements, for its [count]
    assigned ids, [actions_per_day = max(1, count // days_in_phase)] and the
    weekdays among its [days_in_phase = max(1, 7 * duration_weeks)] calendar
    days; the total never exceeds the number of assigned ids. *)
Theorem escalation_output_size phases campaign_start actions_per_phase g :
  Z.of_nat (length (schedule_escalation_sequence phases campaign_start
                      actions_per_phase g))
  = placed_total actions_per_phase campaign_start phases
  /\ placed_total actions_per_phase campaign_start phases
     <= Z.of_nat (assigned_total actions_per_phase phases).
Proof.
  split; [| apply placed_total_le].
  unfold schedule_escalation_sequence. rewrite phase_loop_count. cbn [length]. lia.
Qed.

Lemma total_weeks_nonneg phases :
  Forall (fun ph => 0 <= duration_weeks ph) phases -> 0 <= total_weeks phases.
Proof. induction 1; cbn [total_weeks foldr]; [lia | fold (total_weeks l); lia]. Qed.

Lemma on_day_hour ph d sa : on_day ph d sa -> 9 <= dt_hour (scheduled_start sa) <= 16.
Proof.
  intros (_ & j & m & -> & Hm). pose proof (Z.mod_pos_bound j 8 ltac:(lia)).
  rewrite dt_hour_combine; lia.
Qed.

Lemma segments_span actions_per_phase phases : forall phase_start segs seg sa,
  Forall (fun ph => 0 <= duration_weeks ph) phases ->
  segments_ok actions_per_phase phase_start phases segs ->
  seg ∈ segs -> sa ∈ seg ->
  phase_start <= dt_date (scheduled_start sa) <= phase_start + 7 * total_weeks phases
  /\ 9 <= dt_hour (scheduled_start sa) <= 16.
Proof.
  induction phases as [| ph rest IH]; intros phase_start [| seg0 segs] seg sa Hdw Hok Hseg Hsa;
    cbn [segments_ok] in Hok; try done.
  - by apply elem_of_nil in Hseg.
  - destruct Hok as (Hin & _ & _ & _ & Hrest).
    apply Forall_cons in Hdw as [Hdw0 Hdw].
    pose proof (total_weeks_nonneg rest Hdw) as Htw.
    cbn [total_weeks foldr]. fold (total_weeks rest).
    apply elem_of_cons in Hseg as [-> | Hseg].
    + rewrite Forall_forall in Hin. destruct (Hin sa Hsa) as (d & Hd & _ & Hon).
      rewrite (on_day_date _ _ _ Hon). split; [lia | by eapply on_day_hour].
    + destruct (IH _ _ _ _ Hdw Hrest Hseg Hsa) as [? ?]. split; [lia | done].
Qed.

(** X13: when no phase has a negative duration, every placement of an
    escalation sequence starts on a date from the campaign start to the
    campaign start plus the sum of the phases' weeks, at an hour from 9 to
    16. *)
Theorem escalation_within_campaign phases campaign_start actions_per_phase g :
  Forall (fun ph => 0 <= duration_weeks ph) phases ->
  Forall (fun sa =>
    campaign_start <= dt_date (scheduled_start sa)
      <= campaign_start + 7 * total_weeks phases
    /\ 9 <= dt_hour (scheduled_start sa) <= 16)
    (schedule_escalation_sequence phases campaign_start actions_per_phase g).
Proof.
  intros Hdw.
  destruct (escalation_segments phases campaign_start actions_per_phase g)
    as (segs & -> & Hok).
  apply Forall_forall. intros sa Hsa.
  apply elem_of_concat_lookup in Hsa as (i & seg & Hi & Hsa).
  eapply segments_span; [done | done | by eapply list_elem_of_lookup_2 | done].
Qed.

Lemma escalation_within_campaign_witness :
  Forall (fun sa =>
    739677 <= dt_date (scheduled_start sa) <= 739677 + 7 * total_weeks two_phases
    /\ 9 <= dt_hour (scheduled_start sa) <= 16)
    (schedule_escalation_sequence two_phases 739677
       {[ 1 := seqZ 1 5; 2 := seqZ 6 10 ]} rng_zero).
Proof.
  apply (escalation_within_campaign two_phases 739677
           {[ 1 := seqZ 1 5; 2 := seqZ 6 10 ]} rng_zero).
  repeat constructor; simpl; lia.
Defined.

(** ** RampStrategy: the windows of the three tiers *)

Module FloatTiers.
Import Float FloatFacts FloatBounds FloatOrder.
#[local] Open Scope Q_scope.

Lemma trunc_mono x y : 0 <= x -> x <= y -> (trunc x <= trunc y)%Z.
Proof. intros Hx Hxy. rewrite !trunc_nonneg by lra. by apply Qfloor_resp_le. Qed.

Lemma mul_nonneg x y : 0 <= x -> 0 <= y -> 0 <= mul x y.
Proof. intros. unfold mul. apply round53_nonneg. by apply Qmult_le_0_compat. Qed.

Lemma mul_mono_r x y z : 0 <= x -> y <= z -> mul x y <= mul x z.
Proof.
  intros Hx Hyz. unfold mul. apply round53_mono.
  assert (0 <= x * (z - y)) by (apply Qmult_le_0_compat; lra). lra.
Qed.

Lemma mul_mono_l x y z : 0 <= z -> x <= y -> mul x z <= mul y z.
Proof.
  intros Hz Hxy. unfold mul. apply round53_mono.
  assert (0 <= (y - x) * z) by (apply Qmult_le_0_compat; lra). lra.
Qed.

Lemma of_int_nonneg i : (0 <= i)%Z -> 0 <= of_int i.
Proof. intros H. rewrite <- of_int_0. by apply of_int_mono. Qed.

(** The day offsets of a tier never decrease along the tier. *)
Lemma linear_offset_mono count i j :
  (0 <= i <= j)%Z -> (linear_offset count i <= linear_offset count j)%Z.
Proof.
  intros Hij. unfold linear_offset.
  pose proof (div_int_nonneg 14 (Z.max count 1) ltac:(lia) ltac:(lia)) as Hq.
  apply trunc_mono.
  - apply mul_nonneg; [done | apply of_int_nonneg; lia].
  - apply mul_mono_r; [done | apply of_int_mono; lia].
Qed.

Lemma linear_offset_first count : linear_offset count 0 = 0%Z.
Proof.
  unfold linear_offset. rewrite of_int_0. unfold mul.
  rewrite (round53_zero (_ * 0)) by ring. reflexivity.
Qed.

(** [int((14 / count) * i)] is at most 13 for an index [i] below the count:
    the float product stays below 14. *)
Lemma linear_offset_below count i :
  (1 <= count < 2 ^ 50)%Z -> (0 <= i < count)%Z ->
  (0 <= linear_offset count i <= 13)%Z.
Proof.
  intros Hc Hi.
  destruct (linear_offset_range count i ltac:(lia) Hi) as [H0 _]. split; [done |].
  unfold linear_offset in *. rewrite Z.max_l in * by lia.
  destruct (scaled_index_range 14 count i ltac:(lia) ltac:(lia) Hi) as [X0 _].
  rewrite trunc_nonneg by exact X0.
  assert (Hlt : mul (div_int 14 count) (of_int i) < 14).
  { unfold mul, div_int.
    assert (Ei : round53 (round53 (inject_Z 14 / inject_Z count) * of_int i)
                 == round53 (round53 (inject_Z 14 / inject_Z count) * inject_Z i)).
    { by rewrite of_int_exact by lia. }
    rewrite Ei. clear Ei.
    destruct (inject_Z_bounds count 1 (2 ^ 50) ltac:(lia)) as [Hc1 Hc2].
    destruct (inject_Z_bounds i 0 i ltac:(lia)) as [Hi1 _].
    pose proof (inject_Z_succ_le i count ltac:(lia)) as Hi2.
    change (inject_Z 1) with 1 in *. change (inject_Z 0) with 0 in *.
    change (inject_Z (2 ^ 50)) with 1125899906842624 in *.
    change (inject_Z 14) with 14.
    set (cq := inject_Z count) in *. set (iq := inject_Z i) in *.
    set (x := 14 / cq).
    assert (Hx : x * cq == 14) by (unfold x; field; lra).
    assert (Hx0 : 0 <= x) by nra.
    destruct (round53_err x Hx0) as [_ Hq]. rewrite ulp_value in Hq.
    pose proof (round53_nonneg x Hx0) as Hq0.
    set (q := round53 x) in *.
    assert (Hxl : 14 <= x * 1125899906842624).
    { assert (0 <= x * (1125899906842624 - cq)) by (apply Qmult_le_0_compat; lra). lra. }
    assert (Hp : q * iq <= inject_Z (14 * 2 ^ 49 - 1) * pow2 (-49)).
    { change (inject_Z (14 * 2 ^ 49 - 1) * pow2 (-49))
        with ((7881299347898367 # 1) * (1 # 562949953421312)).
      assert (0 <= (x + x * (1 # 9007199254740992) - q) * iq)
        by (apply Qmult_le_0_compat; lra).
      assert (0 <= (x + x * (1 # 9007199254740992)) * (cq - 1 - iq))
        by (apply Qmult_le_0_compat; lra).
      lra. }
    apply round53_mono in Hp. rewrite round53_exact in Hp by lia.
    change (inject_Z (14 * 2 ^ 49 - 1) * pow2 (-49))
      with ((7881299347898367 # 1) * (1 # 562949953421312)) in Hp.
    lra. }
  destruct (floor_bounds (mul (div_int 14 count) (of_int i))) as [F1 _].
  assert (inject_Z (Qfloor (mul (div_int 14 count) (of_int i))) < inject_Z 14)
    by (change (inject_Z 14) with 14; lra).
  rewrite <- Zlt_Qlt in *. lia.
Qed.

(** The day offsets of the ramp tier never decrease along the tier. *)
Lemma quadratic_offset_mono rc rud i j :
  (0 <= i <= j)%Z -> (1 <= rud)%Z ->
  (quadratic_offset rc rud i <= quadratic_offset rc rud j)%Z.
Proof.
  intros Hij Hr. unfold quadratic_offset.
  set (d := Z.max (rc - 1) 1).
  pose proof (div_int_nonneg i d ltac:(lia) ltac:(lia)) as Ha.
  assert (Hab : div_int i d <= div_int j d).
  { unfold div_int. apply round53_mono.
    assert (0 < inject_Z d) by (change 0 with (inject_Z 0); rewrite <- Zlt_Qlt; lia).
    unfold Qdiv. apply Qmult_le_compat_r; [by rewrite <- Zle_Qle; lia |].
    apply Qlt_le_weak, Qinv_lt_0_compat. done. }
  set (a := div_int i d) in *. set (b := div_int j d) in *.
  assert (Hsq : sqr a <= sqr b).
  { unfold sqr. apply round53_mono.
    assert (0 <= a * (b - a)) by (apply Qmult_le_0_compat; lra).
    assert (0 <= (b - a) * b) by (apply Qmult_le_0_compat; lra). lra. }
  assert (Hs0 : 0 <= sqr a).
  { unfold sqr. apply round53_nonneg. by apply Qmult_le_0_compat. }
  pose proof (of_int_nonneg (rud - 1) ltac:(lia)) as Hm.
  apply trunc_mono; [by apply mul_nonneg | by apply mul_mono_l].
Qed.
End FloatTiers.

Lemma Forall2_seqZ_lookup {A} (R : Z -> A -> Prop) n l (k : nat) x :
  Forall2 R (seqZ 0 n) l -> l !! k = Some x -> 0 <= Z.of_nat k < n /\ R (Z.of_nat k) x.
Proof.
  intros HR Hx. destruct (Forall2_lookup_r _ _ _ _ _ HR Hx) as (i & Hi & HRx).
  apply lookup_seqZ in Hi as [-> ?]. split; [lia |]. by rewrite Z.add_0_l in HRx.
Qed.



(** X15: with [ramp_up_days] from 1 to 14 (14 is the default) the tiers
    follow one another in time: every early placement starts before every
    middle placement, and every middle placement before every placement of
    the final tier.  Inside the early and the middle tier the starts never
    decrease along the list; inside the final tier, whose hour is drawn at
    random, a later placement starts at most 7 hours before an earlier
    one. *)
Theorem comment_period_tiers_in_order action_ids comment_deadline ramp_up_days g :
  2 <= Z.of_nat (length action_ids) < 2 ^ 50 ->
  1 <= ramp_up_days <= 14 ->
  exists early middle ramp,
    schedule_comment_period action_ids comment_deadline ramp_up_days g
      = Returns (early ++ middle ++ ramp)
    /\ (forall sa sb sc, sa ∈ early -> sb ∈ middle -> sc ∈ ramp ->
          scheduled_start sa < scheduled_start sb < scheduled_start sc)
    /\ (forall (i j : nat) sa sb, (i <= j)%nat ->
          early !! i = Some sa -> early !! j = Some sb ->
          scheduled_start sa <= scheduled_start sb)
    /\ (forall (i j : nat) sa sb, (i <= j)%nat ->
          middle !! i = Some sa -> middle !! j = Some sb ->
          scheduled_start sa <= scheduled_start sb)
    /\ (forall (i j : nat) sa sb, (i <= j)%nat ->
          ramp !! i = Some sa -> ramp !! j = Some sb ->
          scheduled_start sa - timedelta 0 0 7 0 <= scheduled_start sb).
Proof.
  intros Htotal Hrud.
  destruct (tier_count_fits _ Htotal) as (Ec & Hc & H2c).
  destruct (comment_period_tiers action_ids comment_deadline ramp_up_days g
              ltac:(lia) H2c) as (early & middle & ramp & E & Hids & HR1 & HR2 & HR3).
  set (total := Z.of_nat (length action_ids)) in *.
  set (c := tier_count total) in *.
  assert (Hc50 : 1 <= c < 2 ^ 50) by lia.
  exists early, middle, ramp. split_and!; [done | | | |].
  - intros sa sb sc Ha Hb Hc'.
    apply list_elem_of_lookup_1 in Ha as [ka Ha].
    apply list_elem_of_lookup_1 in Hb as [kb Hb].
    apply list_elem_of_lookup_1 in Hc' as [kc Hc'].
    destruct (Forall2_seqZ_lookup _ _ _ _ _ HR1 Ha) as [Hka [_ ->]].
    destruct (Forall2_seqZ_lookup _ _ _ _ _ HR2 Hb) as [Hkb [_ ->]].
    destruct (Forall2_seqZ_lookup _ _ _ _ _ HR3 Hc') as [Hkc (_ & h & Hh & ->)].
    pose proof (FloatTiers.linear_offset_below c (Z.of_nat ka) Hc50 ltac:(lia)).
    pose proof (FloatTiers.linear_offset_below c (Z.of_nat kb) Hc50 ltac:(lia)).
    pose proof (FloatBounds.quadratic_offset_range (total - c - c) ramp_up_days
                  (Z.of_nat kc) ltac:(lia) ltac:(lia)).
    unfold timedelta, us_per_day, us_per_hour, us_per_minute. lia.
  - intros i j sa sb Hij Ha Hb.
    destruct (Forall2_seqZ_lookup _ _ _ _ _ HR1 Ha) as [_ [_ ->]].
    destruct (Forall2_seqZ_lookup _ _ _ _ _ HR1 Hb) as [_ [_ ->]].
    pose proof (FloatTiers.linear_offset_mono c (Z.of_nat i) (Z.of_nat j) ltac:(lia)).
    unfold timedelta, us_per_day, us_per_hour, us_per_minute. lia.
  - intros i j sa sb Hij Ha Hb.
    destruct (Forall2_seqZ_lookup _ _ _ _ _ HR2 Ha) as [_ [_ ->]].
    destruct (Forall2_seqZ_lookup _ _ _ _ _ HR2 Hb) as [_ [_ ->]].
    pose proof (FloatTiers.linear_offset_mono c (Z.of_nat i) (Z.of_nat j) ltac:(lia)).
    unfold timedelta, us_per_day, us_per_hour, us_per_minute. lia.
  - intros i j sa sb Hij Ha Hb.
    destruct (Forall2_seqZ_lookup _ _ _ _ _ HR3 Ha) as [_ (_ & ha & Hha & ->)].
    destruct (Forall2_seqZ_lookup _ _ _ _ _ HR3 Hb) as [_ (_ & hb & Hhb & ->)].
    pose proof (FloatTiers.quadratic_offset_mono (total - c - c) ramp_up_days
                  (Z.of_nat i) (Z.of_nat j) ltac:(lia) ltac:(lia)).
    unfold timedelta, us_per_day, us_per_hour, us_per_minute. lia.
Qed.

Lemma comment_period_tiers_in_order_witness :
  exists early middle ramp,
    schedule_comment_period (seqZ 1 30) deadline_2026_04_15 14 rng_zero
      = Returns (early ++ middle ++ ramp)
    /\ (forall sa sb sc, sa ∈ early -> sb ∈ middle -> sc ∈ ramp ->
          scheduled_start sa < scheduled_start sb < scheduled_start sc)
    /\ (forall (i j : nat) sa sb, (i <= j)%nat ->
          early !! i = Some sa -> early !! j = Some sb ->
          scheduled_start sa <= scheduled_start sb)
    /\ (forall (i j : nat) sa sb, (i <= j)%nat ->
          middle !! i = Some sa -> middle !! j = Some sb ->
          scheduled_start sa <= scheduled_start sb)
    /\ (forall (i j : nat) sa sb, (i <= j)%nat ->
          ramp !! i = Some sa -> ramp !! j = Some sb ->
          scheduled_start sa - timedelta 0 0 7 0 <= scheduled_start sb).
Proof.
  apply (comment_period_tiers_in_order (seqZ 1 30) deadline_2026_04_15 14 rng_zero).
  - vm_compute. split; [discriminate | reflexivity].
  - lia.
Defined.

(** ** ScheduleSummary: what the counters count *)

Lemma dict_get_set d k v q dflt :
  dict_get (dict_set d k v) q dflt = if String.eqb q k then v else dict_get d q dflt.
Proof.
  induction d as [| [k' v'] d IH]; cbn [dict_set dict_get]; [done |].
  destruct (String.eqb_spec k k') as [<- | Hk]; cbn [dict_get].
  - by destruct (String.eqb_spec q k).
  - rewrite IH. destruct (String.eqb_spec q k') as [-> | ?]; [| done].
    by destruct (String.eqb_spec k' k) as [-> | ?].
Qed.

Lemma dict_get_incr d k q :
  dict_get (dict_incr d k) q 0 = dict_get d q 0 + (if String.eqb q k then 1 else 0).
Proof.
  unfold dict_incr. rewrite dict_get_set. destruct (String.eqb_spec q k) as [-> |]; lia.
Qed.

Lemma count_cons (P : ScheduledAction -> Prop) `{!forall x, Decision (P x)} x l :
  Z.of_nat (length (filter P (x :: l)))
  = (if decide (P x) then 1 else 0) + Z.of_nat (length (filter P l)).
Proof. rewrite filter_cons. destruct (decide (P x)); cbn [length]; lia. Qed.

Lemma summary_loop_by_key l q : forall bd bt bb,
  dict_get (summary_loop l bd bt bb).1.1 q 0 = dict_get bd q 0 + count_date q l
  /\ dict_get (summary_loop l bd bt bb).1.2 q 0 = dict_get bt q 0 + count_type q l
  /\ dict_get (summary_loop l bd bt bb).2 q 0
     = dict_get bb q 0 + (if String.eqb q "" then 0 else count_batch q l).
Proof.
  unfold count_date, count_type, count_batch.
  induction l as [| sa l IH]; intros bd bt bb; cbn [summary_loop].
  - cbn. destruct (String.eqb q ""); lia.
  - edestruct IH as (-> & -> & ->). rewrite !count_cons, !dict_get_incr.
    fold (date_key sa). split_and!.
    + destruct (String.eqb_spec q (date_key sa)), (decide (date_key sa = q));
        congruence || lia.
    + destruct (String.eqb_spec q (action_type sa)), (decide (action_type sa = q));
        congruence || lia.
    + destruct (batch_id sa) as [b |].
      * destruct (String.eqb_spec b "") as [Eb | Hb].
        -- destruct (String.eqb_spec q "") as [Eq | Hq]; [lia |].
           destruct (decide (Some b = Some q)); [congruence | lia].
        -- rewrite dict_get_incr.
           destruct (String.eqb_spec q "") as [Eq | Hq].
           ++ destruct (String.eqb_spec q b); [congruence | lia].
           ++ destruct (String.eqb_spec q b), (decide (Some b = Some q));
                congruence || lia.
      * destruct (String.eqb_spec q ""); [lia |].
        destruct (decide (None = Some q)); [congruence | lia].
Qed.

(** X16: the counters of a summary count placements: for every key [q],
    [by_date.get(q, 0)] is the number of placements whose start date prints
    as [q], [by_type.get(q, 0)] the number of placements of action type [q],
    and [by_batch.get(q, 0)] the number of placements of batch id [q]; an
    empty batch id is never counted. *)
Theorem summary_counts_by_key (l : list ScheduledAction) (q : string) :
  dict_get (summary_by_date (get_schedule_summary l)) q 0 = count_date q l
  /\ dict_get (summary_by_type (get_schedule_summary l)) q 0 = count_type q l
  /\ dict_get (summary_by_batch (get_schedule_summary l)) q 0
     = if String.eqb q "" then 0 else count_batch q l.
Proof.
  destruct l as [| sa l].
  { cbn. by destruct (String.eqb q ""). }
  unfold get_schedule_summary.
  pose proof (summary_loop_by_key (sa :: l) q [] [] []) as H.
  destruct (summary_loop _ _ _ _) as [[bd bt] bb].
  cbn [summary_by_date summary_by_type summary_by_batch detail from_option
       by_date by_type by_batch fst snd dict_get] in *.
  destruct H as (-> & -> & ->). split_and!; lia.
Qed.

(** *** The peak date *)

Lemma list_max_spec l : forall x,
  list_max x l ∈ x :: l /\ Forall (fun v => v <= list_max x l) (x :: l).
Proof.
  unfold list_max. induction l as [| a l IH]; intros x; cbn [foldl].
  - split; [by apply elem_of_cons; left | by apply Forall_singleton].
  - destruct (IH (Z.max x a)) as [Hin Hle]. apply Forall_cons in Hle as [Hm Hle]. split.
    + rewrite !elem_of_cons. apply elem_of_cons in Hin as [-> | Hin]; [| by right; right].
      destruct (Z.max_spec x a) as [[_ ->] | [_ ->]]; [by right; left | by left].
    + repeat apply Forall_cons_2; [lia | lia | done].
Qed.

Lemma list_min_spec l : forall x,
  list_min x l ∈ x :: l /\ Forall (fun v => list_min x l <= v) (x :: l).
Proof.
  unfold list_min. induction l as [| a l IH]; intros x; cbn [foldl].
  - split; [by apply elem_of_cons; left | by apply Forall_singleton].
  - destruct (IH (Z.min x a)) as [Hin Hle]. apply Forall_cons in Hle as [Hm Hle]. split.
    + rewrite !elem_of_cons. apply elem_of_cons in Hin as [-> | Hin]; [| by right; right].
      destruct (Z.min_spec x a) as [[_ ->] | [_ ->]]; [by left | by right; left].
    + repeat apply Forall_cons_2; [lia | lia | done].
Qed.

Lemma dict_set_keys d k v x : x ∈ (dict_set d k v).*1 -> x = k \/ x ∈ d.*1.
Proof.
  induction d as [| [k' v'] d IH]; cbn [dict_set].
  - cbn. intros [-> | []%elem_of_nil]%elem_of_cons. by left.
  - destruct (String.eqb_spec k k') as [<- | Hk]; rewrite !fmap_cons; cbn [fst].
    + intros Hx. by right.
    + rewrite !elem_of_cons. intros [-> | Hx]; [by right; left |].
      destruct (IH Hx); [by left | by right; right].
Qed.

Lemma dict_set_nodup d k v : NoDup d.*1 -> NoDup (dict_set d k v).*1.
Proof.
  induction d as [| [k' v'] d IH]; cbn [dict_set]; intros Hnd.
  - cbn. apply NoDup_singleton.
  - rewrite fmap_cons in Hnd. apply NoDup_cons in Hnd as [Hk' Hnd]. cbn [fst] in Hk'.
    destruct (String.eqb_spec k k') as [<- | Hk]; rewrite !fmap_cons; cbn [fst].
    + by apply NoDup_cons.
    + apply NoDup_cons. split; [| by apply IH].
      intros [-> | H]%dict_set_keys; done.
Qed.

Lemma summary_loop_nodup l : forall bd bt bb,
  NoDup bd.*1 -> NoDup (summary_loop l bd bt bb).1.1.*1.
Proof.
  induction l as [| sa l IH]; intros bd bt bb Hnd; cbn [summary_loop]; [done |].
  apply IH. by apply dict_set_nodup.
Qed.

Lemma dict_get_value d q dflt :
  dict_get d q dflt = dflt \/ dict_get d q dflt ∈ dict_values d.
Proof.
  unfold dict_values.
  induction d as [| [k v] d IH]; cbn [dict_get]; [by left |].
  rewrite fmap_cons. cbn [snd].
  rewrite elem_of_cons.
  destruct (String.eqb_spec q k); [by right; left |].
  destruct IH; [by left | by right; right].
Qed.

(** [max(d, key=d.get)] on a dict given as its first item and the rest: the
    returned key is a key of the dict, and its count is the largest one. *)
Lemma dict_argmax_spec d : forall best best_v,
  NoDup (best :: d.*1) ->
  dict_get ((best, best_v) :: d) (dict_argmax d best best_v) 0
  = list_max best_v (dict_values d)
  /\ dict_argmax d best best_v ∈ best :: d.*1.
Proof.
  unfold dict_values, list_max.
  induction d as [| [k v] d IH]; intros best best_v Hnd; cbn [dict_argmax].
  - cbn [dict_get]. rewrite String.eqb_refl. split; [done | by apply elem_of_cons; left].
  - rewrite fmap_cons in Hnd. cbn [fst] in Hnd.
    apply NoDup_cons in Hnd as [Hbest Hnd]. apply not_elem_of_cons in Hbest as [Hbk Hbd].
    pose proof Hnd as Hnd'. apply NoDup_cons in Hnd' as [Hkd Hd].
    rewrite !fmap_cons. cbn [fst snd foldl].
    destruct (Z.ltb_spec best_v v) as [Hlt | Hge].
    + destruct (IH k v Hnd) as [E Hin]. rewrite Z.max_r by lia. rewrite <- E.
      split; [| by apply elem_of_cons; right].
      cbn [dict_get]. destruct (String.eqb_spec (dict_argmax d k v) best) as [Eb | _]; [| done].
      rewrite Eb in Hin. apply elem_of_cons in Hin as [? | ?]; done.
    + destruct (IH best best_v ltac:(by apply NoDup_cons)) as [E Hin].
      rewrite Z.max_l by lia. rewrite <- E.
      split; [| by rewrite !elem_of_cons; apply elem_of_cons in Hin as [? | ?]; [left | right; right]].
      cbn [dict_get]. destruct (String.eqb_spec (dict_argmax d best best_v) best); [done |].
      apply elem_of_cons in Hin as [? | Hin]; [done |].
      destruct (String.eqb_spec (dict_argmax d best best_v) k) as [Ek | _]; [| done].
      by rewrite Ek in Hin.
Qed.

(** X17: in the summary of a non-empty list the peak count is the number of
    placements on the peak date, no date has more placements, and the peak
    count is between 1 and the total. *)
Theorem summary_peak_is_maximum (sa : ScheduledAction) (l : list ScheduledAction) :
  exists d,
    detail (get_schedule_summary (sa :: l)) = Some d
    /\ count_date (peak_date d) (sa :: l) = peak_count d
    /\ (forall q, count_date q (sa :: l) <= peak_count d)
    /\ 1 <= peak_count d <= total (get_schedule_summary (sa :: l)).
Proof.
  unfold get_schedule_summary.
  pose proof (fun q => proj1 (summary_loop_by_key (sa :: l) q [] [] [])) as Hkey.
  pose proof (summary_loop_nodup (sa :: l) [] [] [] (NoDup_nil_2)) as Hnd.
  destruct (summary_loop _ _ _ _) as [[bd bt] bb]. cbn [fst snd dict_get] in Hkey, Hnd.
  assert (Hfirst : 1 <= count_date (date_key sa) (sa :: l)).
  { unfold count_date. rewrite count_cons. rewrite decide_True by done. lia. }
  destruct bd as [| [k0 v0] d].
  { specialize (Hkey (date_key sa)). cbn in Hkey. lia. }
  eexists. split; [reflexivity |]. cbn [peak_date peak_count total].
  change (dict_values ((k0, v0) :: d)) with (v0 :: dict_values d). cbv iota.
  rewrite fmap_cons in Hnd. cbn [fst] in Hnd.
  destruct (dict_argmax_spec d k0 v0 Hnd) as [Epk _].
  destruct (list_max_spec (dict_values d) v0) as [_ Hmax].
  rewrite Forall_forall in Hmax.
  set (m := list_max v0 (dict_values d)) in *.
  assert (Hle : forall q, count_date q (sa :: l) = 0 \/ count_date q (sa :: l) <= m).
  { intros q. rewrite <- (Z.add_0_l (count_date q _)), <- Hkey.
    destruct (dict_get_value ((k0, v0) :: d) q 0) as [-> | Hin]; [by left | right].
    by apply Hmax. }
  assert (Hm : 1 <= m) by (destruct (Hle (date_key sa)); lia).
  split_and!.
  - rewrite <- (Z.add_0_l (count_date _ _)), <- Hkey. exact Epk.
  - intros q. destruct (Hle q); lia.
  - done.
  - rewrite <- Epk, Hkey, Z.add_0_l. unfold count_date.
    pose proof (length_filter (fun x => date_key x = dict_argmax d k0 v0) (sa :: l)). lia.
Qed.

(** X18: in the summary of a non-empty list, ["start"] and ["end"] print the
    earliest and the latest start of the list, both starts of placements of
    the list, and ["duration_days"] is the number of whole days between
    them: it is never negative. *)
Theorem summary_span (sa : ScheduledAction) (l : list ScheduledAction) :
  exists d lo hi,
    detail (get_schedule_summary (sa :: l)) = Some d
    /\ lo ∈ scheduled_start <$> sa :: l
    /\ hi ∈ scheduled_start <$> sa :: l
    /\ Forall (fun x => lo <= scheduled_start x <= hi) (sa :: l)
    /\ sm_start d = dt_isoformat lo
    /\ sm_end d = dt_isoformat hi
    /\ 0 <= duration_days d
    /\ duration_days d * us_per_day <= hi - lo < (duration_days d + 1) * us_per_day.
Proof.
  unfold get_schedule_summary. destruct (summary_loop _ _ _ _) as [[bd bt] bb].
  destruct (list_min_spec (scheduled_start <$> l) (scheduled_start sa)) as [Hlo Hmin].
  destruct (list_max_spec (scheduled_start <$> l) (scheduled_start sa)) as [Hhi Hmax].
  set (lo := list_min _ _) in *. set (hi := list_max _ _) in *.
  exists (Build_SummaryDetail (dt_isoformat lo) (dt_isoformat hi) (td_days (hi - lo))
            bd bt bb
            match bd with [] => "" | (k, v) :: d => dict_argmax d k v end
            match dict_values bd with [] => 0 | v :: vs => list_max v vs end), lo, hi.
  cbn [detail sm_start sm_end duration_days].
  rewrite <- fmap_cons in Hmin, Hmax. rewrite Forall_fmap in Hmin, Hmax.
  assert (Hall : Forall (fun x => lo <= scheduled_start x <= hi) (sa :: l)).
  { rewrite Forall_forall in *. intros x Hx. specialize (Hmin x Hx).
    specialize (Hmax x Hx). cbn in Hmin, Hmax. lia. }
  assert (Hlohi : lo <= hi) by (apply Forall_cons in Hall as [? _]; lia).
  split_and!; try done; unfold td_days, us_per_day; Z.div_mod_to_equations; lia.
Qed.
